(** * interactive_chat: field validators, date resolver, intent classifier
      and slot-filling engine

    A shallow embedding of [src/tools.py], [src/agents.py] and the session
    store of [src/app.py], and the properties of the written specification
    proved (or refuted) on it.

    Conventions of the embedding.
    - A Python [str] is a [string]; each character is read as the Unicode
      code point of the same number (U+0000 to U+00FF), so the character
      classes below are Python's, restricted to that range.
    - A [dict] with string keys is a [gmap string string].
    - The text-completion service, the e-mail syntax checker, the fuzzy
      date parser and the clock are outside the repository: they are
      Section variables, and every call to them is recorded in a log that
      the functions thread, so that "no call is made" is a statement about
      the log. *)

From Stdlib Require Import ZArith NArith Lia Bool Ascii String List.
From stdpp Require Import base option list strings gmap.

Local Open Scope Z_scope.

(* ===================================================================== *)
(** ** Python string primitives *)
(* ===================================================================== *)

Module Py.

Definition ord (c : ascii) : N := N_of_ascii c.

Definition in_range (lo hi : N) (c : ascii) : bool :=
  ((lo <=? ord c) && (ord c <=? hi))%N.

(** [str.isspace] on one character; also the class [\s] of [re] and the
    characters removed by [str.strip()] and [str.split()]. *)
Definition isspace (c : ascii) : bool :=
  in_range 9 13 c || in_range 28 32 c || (ord c =? 133)%N || (ord c =? 160)%N.

(** The class [\d] of [re] (decimal digits). *)
Definition isdecimal (c : ascii) : bool := in_range 48 57 c.

(** [str.isdigit] on one character: the decimal digits and the
    superscript digits U+00B2, U+00B3, U+00B9. *)
Definition isdigit_char (c : ascii) : bool :=
  isdecimal c || (ord c =? 178)%N || (ord c =? 179)%N || (ord c =? 185)%N.

Definition isupper_ascii (c : ascii) : bool := in_range 65 90 c.
Definition islower_ascii (c : ascii) : bool := in_range 97 122 c.

(** [str.isalpha] on one character. *)
Definition isalpha_char (c : ascii) : bool :=
  isupper_ascii c || islower_ascii c
  || (ord c =? 170)%N || (ord c =? 181)%N || (ord c =? 186)%N
  || in_range 192 214 c || in_range 216 246 c || in_range 248 255 c.

(** The class [\w] of [re]: alphanumeric or underscore. *)
Definition isword (c : ascii) : bool :=
  isalpha_char c || isdigit_char c || in_range 188 190 c || (ord c =? 95)%N.

(** [str.lower] on one character. *)
Definition lower_char (c : ascii) : ascii :=
  if isupper_ascii c || in_range 192 214 c || in_range 216 222 c
  then ascii_of_N (ord c + 32) else c.

Fixpoint lower (s : string) : string :=
  match s with
  | EmptyString => EmptyString
  | String c s' => String (lower_char c) (lower s')
  end.

Fixpoint len (s : string) : nat :=
  match s with
  | EmptyString => O
  | String _ s' => S (len s')
  end.

Fixpoint all_chars (p : ascii -> bool) (s : string) : bool :=
  match s with
  | EmptyString => true
  | String c s' => p c && all_chars p s'
  end.

Fixpoint filter_chars (p : ascii -> bool) (s : string) : string :=
  match s with
  | EmptyString => EmptyString
  | String c s' => if p c then String c (filter_chars p s') else filter_chars p s'
  end.

(** [s.isdigit()]: at least one character, and all of them digits. *)
Definition isdigit (s : string) : bool :=
  match s with
  | EmptyString => false
  | _ => all_chars isdigit_char s
  end.

Fixpoint take (n : nat) (s : string) : string :=
  match n, s with
  | S n', String c s' => String c (take n' s')
  | _, _ => EmptyString
  end.

Fixpoint drop (n : nat) (s : string) : string :=
  match n, s with
  | S n', String _ s' => drop n' s'
  | _, _ => s
  end.

Fixpoint last_char (d : option ascii) (s : string) : option ascii :=
  match s with
  | EmptyString => d
  | String c s' => last_char (Some c) s'
  end.

Fixpoint startswith (p s : string) : bool :=
  match p, s with
  | EmptyString, _ => true
  | String a p', String b s' => if Ascii.eqb a b then startswith p' s' else false
  | String _ _, EmptyString => false
  end.

(** [sub in s]. *)
Fixpoint contains (sub s : string) : bool :=
  startswith sub s ||
  match s with
  | EmptyString => false
  | String _ s' => contains sub s'
  end.

Fixpoint lstrip (s : string) : string :=
  match s with
  | EmptyString => EmptyString
  | String c s' => if isspace c then lstrip s' else s
  end.

(** [rstrip]: a character is dropped when it and everything after it is
    white space. *)
Fixpoint rstrip (s : string) : string :=
  match s with
  | EmptyString => EmptyString
  | String c s' =>
      match rstrip s' with
      | EmptyString => if isspace c then EmptyString else String c EmptyString
      | r => String c r
      end
  end.

(** [s.strip()]. *)
Definition strip (s : string) : string := rstrip (lstrip s).

(** [s.split(sep)] for a one-character separator. *)
Fixpoint split_on (sep : ascii) (s : string) : list string :=
  match s with
  | EmptyString => [EmptyString]
  | String c s' =>
      if Ascii.eqb c sep then EmptyString :: split_on sep s'
      else match split_on sep s' with
           | w :: ws => String c w :: ws
           | [] => [String c EmptyString]
           end
  end.

(** [s.split()]: the maximal runs of characters that are not white space. *)
Fixpoint split_ws_aux (cur : option string) (s : string) : list string :=
  match s with
  | EmptyString => match cur with Some w => [w] | None => [] end
  | String c s' =>
      if isspace c
      then match cur with
           | Some w => w :: split_ws_aux None s'
           | None => split_ws_aux None s'
           end
      else split_ws_aux (Some (match cur with
                               | Some w => w +:+ String c EmptyString
                               | None => String c EmptyString
                               end)) s'
  end.

Definition split (s : string) : list string := split_ws_aux None s.

(** [sep.join(parts)]. *)
Fixpoint join (sep : string) (parts : list string) : string :=
  match parts with
  | [] => EmptyString
  | [p] => p
  | p :: ps => p +:+ sep +:+ join sep ps
  end.

Definition nl : string := String (ascii_of_N 10) EmptyString.
Definition dq : string := String (ascii_of_N 34) EmptyString.

(** Decimal rendering of a natural number, most significant digit first. *)
Fixpoint digits_aux (fuel : nat) (n : N) (acc : string) : string :=
  match fuel with
  | O => acc
  | S fuel' =>
      let acc' := String (ascii_of_N (48 + n mod 10)) acc in
      if (n / 10 =? 0)%N then acc' else digits_aux fuel' (n / 10) acc'
  end.

Definition str_of_N (n : N) : string := digits_aux (S (N.to_nat (N.log2 n))) n EmptyString.

Fixpoint zeros (k : nat) : string :=
  match k with
  | O => EmptyString
  | S k' => String "0"%char (zeros k')
  end.

(** ["%0wd"]: zero padding on the left up to width [w]. *)
Definition zfill (w : nat) (n : N) : string :=
  let d := str_of_N n in zeros (w - len d) +:+ d.

(** [int(s)] on a string of decimal digits. *)
Fixpoint int_aux (acc : N) (s : string) : N :=
  match s with
  | EmptyString => acc
  | String c s' => int_aux (10 * acc + (ord c - 48))%N s'
  end.

Definition int (s : string) : N := int_aux 0%N s.

End Py.

(* ===================================================================== *)
(** ** The fragment of [re] the repository uses *)
(* ===================================================================== *)

(** Every pattern of the repository is a sequence of single-character
    classes under a greedy quantifier, with the assertions [\b], [^] and
    [$].  The matcher backtracks as Python's does: each quantifier first
    takes as many characters as it can and gives them back one at a time. *)

Module Re.

Inductive item :=
| Class (cls : ascii -> bool) (lo : nat) (hi : option nat) (* [cls]{lo,hi} *)
| WordBoundary                                             (* \b *)
| Bol                                                      (* ^ *)
| Eol.                                                     (* $ *)

Definition pattern := list item.

Definition one (cls : ascii -> bool) : item := Class cls 1 (Some 1%nat).
Definition opt (cls : ascii -> bool) : item := Class cls 0 (Some 1%nat).
Definition plus (cls : ascii -> bool) : item := Class cls 1 None.
Definition at_least (n : nat) (cls : ascii -> bool) : item := Class cls n None.
Definition lit (c : ascii) : item := one (Ascii.eqb c).

(** The literal characters of [s], one item each. *)
Fixpoint lits (s : string) : pattern :=
  match s with
  | EmptyString => []
  | String c s' => lit c :: lits s'
  end.

(** Number of leading characters of [s] in the class, at most [hi]. *)
Fixpoint run (cls : ascii -> bool) (hi : option nat) (s : string) : nat :=
  match s with
  | EmptyString => O
  | String c s' =>
      match hi with
      | Some O => O
      | Some (S h) => if cls c then S (run cls (Some h) s') else O
      | None => if cls c then S (run cls None s') else O
      end
  end.

(** [k n], then [k (n-1)], ... down to [k lo]: the first success. *)
Fixpoint backtrack {R : Type} (k : nat -> option R) (lo n : nat) : option R :=
  if (n <? lo)%nat then None
  else match k n with
       | Some r => Some r
       | None => match n with
                 | O => None
                 | S n' => backtrack k lo n'
                 end
       end.

Definition word_before (prev : option ascii) : bool :=
  match prev with Some c => Py.isword c | None => false end.

Definition word_after (s : string) : bool :=
  match s with String c _ => Py.isword c | EmptyString => false end.

(** [$] without MULTILINE: the end of the string, or just before a
    newline that ends the string. *)
Definition at_eol (s : string) : bool :=
  match s with
  | EmptyString => true
  | String c EmptyString => Ascii.eqb c (ascii_of_N 10)
  | _ => false
  end.

(** Match [p] at the current position; [prev] is the character before
    it.  The result is the text taken by each item and the text left. *)
Fixpoint match_here (p : pattern) (prev : option ascii) (s : string)
  : option (list string * string) :=
  match p with
  | [] => Some ([], s)
  | it :: p' =>
      match it with
      | Class cls lo hi =>
          backtrack
            (fun n =>
               match match_here p' (Py.last_char prev (Py.take n s)) (Py.drop n s) with
               | Some (ps, rest) => Some (Py.take n s :: ps, rest)
               | None => None
               end)
            lo (run cls hi s)
      | WordBoundary =>
          if xorb (word_before prev) (word_after s)
          then match match_here p' prev s with
               | Some (ps, rest) => Some (EmptyString :: ps, rest)
               | None => None
               end
          else None
      | Bol =>
          match prev with
          | None => match match_here p' prev s with
                    | Some (ps, rest) => Some (EmptyString :: ps, rest)
                    | None => None
                    end
          | Some _ => None
          end
      | Eol =>
          if at_eol s
          then match match_here p' prev s with
               | Some (ps, rest) => Some (EmptyString :: ps, rest)
               | None => None
               end
          else None
      end
  end.

Fixpoint concat (ps : list string) : string :=
  match ps with
  | [] => EmptyString
  | x :: xs => x +:+ concat xs
  end.

(** A match object: the text of each item; [group0] is the whole match. *)
Definition group0 (ps : list string) : string := concat ps.
Definition item_text (i : nat) (ps : list string) : string := nth i ps EmptyString.

(** [re.match(p, s)]. *)
Definition rmatch (p : pattern) (s : string) : option (list string) :=
  fst <$> match_here p None s.

(** [re.search(p, s)]: the leftmost position where [p] matches. *)
Fixpoint search_from (p : pattern) (prev : option ascii) (s : string)
  : option (list string) :=
  match match_here p prev s with
  | Some (ps, _) => Some ps
  | None =>
      match s with
      | EmptyString => None
      | String c s' => search_from p (Some c) s'
      end
  end.

Definition search (p : pattern) (s : string) : option (list string) :=
  search_from p None s.

(** The left-to-right scan shared by [re.findall] and [re.sub]: the
    matches that do not overlap, and the characters between them. *)
Inductive chunk :=
| Gap (c : ascii)
| Hit (ps : list string).

Fixpoint scan (fuel : nat) (p : pattern) (prev : option ascii) (s : string)
  : list chunk :=
  match fuel with
  | O => []
  | S fuel' =>
      let step :=
        match s with
        | EmptyString => []
        | String c s' => Gap c :: scan fuel' p (Some c) s'
        end in
      match match_here p prev s with
      | Some (ps, rest) =>
          match group0 ps with
          | EmptyString => Hit ps :: step
          | m => Hit ps :: scan fuel' p (Py.last_char prev m) rest
          end
      | None => step
      end
  end.

Definition chunks (p : pattern) (s : string) : list chunk :=
  scan (S (Py.len s)) p None s.

(** [re.findall(p, s)] for a pattern without groups. *)
Fixpoint hits (cs : list chunk) : list string :=
  match cs with
  | [] => []
  | Gap _ :: cs' => hits cs'
  | Hit ps :: cs' => group0 ps :: hits cs'
  end.

Definition findall (p : pattern) (s : string) : list string := hits (chunks p s).

(** [re.sub(p, repl, s)] for a replacement without group references. *)
Fixpoint replace (repl : string) (cs : list chunk) : string :=
  match cs with
  | [] => EmptyString
  | Gap c :: cs' => String c (replace repl cs')
  | Hit _ :: cs' => repl +:+ replace repl cs'
  end.

Definition sub (p : pattern) (repl s : string) : string := replace repl (chunks p s).

End Re.

(* ===================================================================== *)
(** ** [datetime] *)
(* ===================================================================== *)

Module Dt.

(** A [datetime]: the proleptic Gregorian ordinal of its date (day 1 is
    0001-01-01) and the time of day, which no function here reads. *)
Record datetime := mk { ordinal : Z; time_of_day : Z }.

Definition min_ordinal : Z := 1.
Definition max_ordinal : Z := 3652059. (* 9999-12-31 *)

(** [d.weekday()]: Monday is 0, Sunday is 6. *)
Definition weekday (d : datetime) : Z := (ordinal d + 6) mod 7.

(** [d + timedelta(days=n)]; [None] stands for the [OverflowError] raised
    when the day leaves the range of [datetime]. *)
Definition add_days (d : datetime) (n : Z) : option datetime :=
  let o := ordinal d + n in
  if (min_ordinal <=? o) && (o <=? max_ordinal)
  then Some (mk o (time_of_day d)) else None.

Definition days_before_month (m : Z) : Z :=
  nth (Z.to_nat m) [0; 0; 31; 59; 90; 120; 151; 181; 212; 243; 273; 304; 334] 0.

Definition days_in_month (m : Z) : Z :=
  nth (Z.to_nat m) [0; 31; 28; 31; 30; 31; 30; 31; 31; 30; 31; 30; 31] 0.

(** Ordinal to (year, month, day), as [datetime] computes it. *)
Definition ord2ymd (o : Z) : Z * Z * Z :=
  let n := o - 1 in
  let n400 := n / 146097 in let n := n mod 146097 in
  let n100 := n / 36524 in let n := n mod 36524 in
  let n4 := n / 1461 in let n := n mod 1461 in
  let n1 := n / 365 in let n := n mod 365 in
  let year := n400 * 400 + 1 + n100 * 100 + n4 * 4 + n1 in
  if (n1 =? 4) || (n100 =? 4) then (year - 1, 12, 31)
  else
    let leapyear := (n1 =? 3) && (negb (n4 =? 24) || (n100 =? 3)) in
    let month := Z.shiftr (n + 50) 5 in
    let preceding :=
      days_before_month month + (if (2 <? month) && leapyear then 1 else 0) in
    if n <? preceding
    then
      let month' := month - 1 in
      let preceding' :=
        preceding - (days_in_month month'
                     + (if (month' =? 2) && leapyear then 1 else 0)) in
      (year, month', n - preceding' + 1)
    else (year, month, n - preceding + 1).

Definition month_name (m : Z) : string :=
  nth (Z.to_nat m)
    [""; "January"; "February"; "March"; "April"; "May"; "June"; "July";
     "August"; "September"; "October"; "November"; "December"] "".

(** [%Y] of [strftime].  [datetime.strftime] hands the format to the C
    library, and the C library of the platform the program runs on
    (Linux, glibc) writes the year in decimal without padding: [999] for
    the year 999, [1] for the year 1. *)
Definition year_text (y : Z) : string := Py.str_of_N (Z.to_N y).

(** [d.strftime("%Y-%m-%d")]. *)
Definition strftime_iso (d : datetime) : string :=
  let '(y, m, dd) := ord2ymd (ordinal d) in
  year_text y +:+ "-" +:+ Py.zfill 2 (Z.to_N m) +:+ "-" +:+ Py.zfill 2 (Z.to_N dd).

(** [d.strftime("%B %d, %Y")]. *)
Definition strftime_long (d : datetime) : string :=
  let '(y, m, dd) := ord2ymd (ordinal d) in
  month_name m +:+ " " +:+ Py.zfill 2 (Z.to_N dd) +:+ ", " +:+ year_text y.

End Dt.

(* ===================================================================== *)
(** ** External collaborators and the call log *)
(* ===================================================================== *)

(** [src/config.py] *)
Definition OLLAMA_MODEL : string := "llama3.2".
Definition OLLAMA_BASE_URL : string := "http://localhost:11434".

(** An [Ollama] client; the temperature is kept in tenths. *)
Record Ollama := { model : string; base_url : string; temperature_tenths : Z }.

(** What [llm.invoke] does: it returns the completion, or raises. *)
Inductive completion :=
| Reply (text : string)
| Raises (message : string).

(** What the e-mail syntax checker does: it returns the normalized
    address, or raises [EmailNotValidError]. *)
Inductive email_check :=
| Accepted (normalized : string)
| Rejected (diagnostic : string).

(** The calls that leave the repository, in the order they are made. *)
Inductive event :=
| EvInvoke (client : Ollama) (prompt : string)
| EvPrint (line : string)
| EvValidateEmail (email : string)
| EvParserParse (text : string)
| EvNow.

Definition log := list event.

(** Computations that append to the log. *)
Definition M (A : Type) : Type := log -> A * log.

Definition ret {A : Type} (a : A) : M A := fun l => (a, l).

Definition bind {A B : Type} (c : M A) (k : A -> M B) : M B :=
  fun l => let '(a, l') := c l in k a l'.

Notation "x <- c ;; k" := (bind c (fun x => k))
  (at level 100, c at next level, right associativity).

Definition emit (e : event) : M unit := fun l => (tt, l ++ [e]).

Definition lines (ls : list string) : string := Py.join Py.nl ls.

Definition quoted (s : string) : string := Py.dq +:+ s +:+ Py.dq.

(** [{"valid": True, "value": ..}] (with ["parsed_date"] for a date) or
    [{"valid": False, "error": ..}]. *)
Inductive validation :=
| Valid (value : string) (parsed_date : option string)
| Invalid (error : string).

Definition is_valid (v : validation) : bool :=
  match v with Valid _ _ => true | Invalid _ => false end.

Definition is_some {A : Type} (o : option A) : bool :=
  match o with Some _ => true | None => false end.

Definition is_empty (s : string) : bool :=
  match s with EmptyString => true | String _ _ => false end.

Section Program.

(** The text-completion service: its answer may depend on everything that
    happened before the call. *)
Variable complete : log -> Ollama -> string -> completion.
(** [email_validator.validate_email]. *)
Variable check_email : string -> email_check.
(** [dateutil.parser.parse(text, fuzzy=True)]; [None] when it raises. *)
Variable parser_parse : string -> option Dt.datetime.
(** [datetime.now()]. *)
Variable now : Dt.datetime.

Definition invoke (client : Ollama) (prompt : string) : M completion :=
  fun l => (complete l client prompt, l ++ [EvInvoke client prompt]).

Definition print (line : string) : M unit := emit (EvPrint line).

Definition validate_email (email : string) : M email_check :=
  fun l => (check_email email, l ++ [EvValidateEmail email]).

Definition parse_fuzzy (text : string) : M (option Dt.datetime) :=
  fun l => (parser_parse text, l ++ [EvParserParse text]).

Definition datetime_now : M Dt.datetime := fun l => (now, l ++ [EvNow]).

(* --------------------------------------------------------------------- *)
(** *** [src/tools.py] *)
(* --------------------------------------------------------------------- *)

Definition name_char (c : ascii) : bool :=
  Py.islower_ascii c || Py.isupper_ascii c || Py.isspace c
  || Ascii.eqb c "." || Ascii.eqb c "-" || Ascii.eqb c "'".

(** [^[a-zA-Z\s\.\-\']+$] *)
Definition name_pattern : Re.pattern := [Re.Bol; Re.plus name_char; Re.Eol].

Definition validate_name (name : string) : validation :=
  if is_empty name || (Py.len (Py.strip name) <? 2)%nat
  then Invalid "Name must be at least 2 characters long and non-empty."
  else if negb (is_some (Re.rmatch name_pattern name))
  then Invalid "Name can only contain letters, spaces, and basic punctuation."
  else Valid (Py.strip name) None.

Definition separator (c : ascii) : bool :=
  Py.isspace c || Ascii.eqb c "-" || Ascii.eqb c "(" || Ascii.eqb c ")"
  || Ascii.eqb c "+".

(** [[\s\-\(\)\+]] *)
Definition separator_pattern : Re.pattern := [Re.one separator].

Definition validate_phone (phone : string) : validation :=
  let cleaned_phone := Re.sub separator_pattern "" phone in
  if negb (Py.isdigit cleaned_phone)
  then Invalid "Phone number must contain only digits."
  else if (Py.len cleaned_phone <? 10)%nat || (15 <? Py.len cleaned_phone)%nat
  then Invalid "Phone number must be between 10 and 15 digits."
  else Valid cleaned_phone None.

Definition validate_email_address (email : string) : M validation :=
  r <- validate_email email ;;
  match r with
  | Accepted normalized => ret (Valid normalized None)
  | Rejected e => ret (Invalid ("Invalid email format: " +:+ e))
  end.

(** [in\s+(\d+)\s+days?]; the group is item 3. *)
Definition in_days_pattern : Re.pattern :=
  Re.lits "in" ++ [Re.plus Py.isspace; Re.plus Py.isdecimal; Re.plus Py.isspace]
  ++ Re.lits "day" ++ [Re.opt (Ascii.eqb "s")].

(** The body shared by the seven weekday branches. *)
Definition next_weekday (today : Dt.datetime) (target : Z) : option Dt.datetime :=
  let days_ahead := target - Dt.weekday today in
  let days_ahead := if days_ahead <=? 0 then days_ahead + 7 else days_ahead in
  Dt.add_days today days_ahead.

Definition mentions (day date_text_lower : string) : bool :=
  Py.contains ("next " +:+ day) date_text_lower
  || Py.contains ("coming " +:+ day) date_text_lower.

(** The [try] block up to [target_date]; [None] when it raises. *)
Definition resolve_target (date_text : string) : M (option Dt.datetime) :=
  let date_text_lower := Py.strip (Py.lower date_text) in
  today <- datetime_now ;;
  if String.eqb date_text_lower "today" then ret (Some today)
  else if String.eqb date_text_lower "tomorrow" then ret (Dt.add_days today 1)
  else if Py.contains "next week" date_text_lower then ret (Dt.add_days today 7)
  else if Py.contains "next month" date_text_lower then ret (Dt.add_days today 30)
  else if mentions "monday" date_text_lower then ret (next_weekday today 0)
  else if mentions "tuesday" date_text_lower then ret (next_weekday today 1)
  else if mentions "wednesday" date_text_lower then ret (next_weekday today 2)
  else if mentions "thursday" date_text_lower then ret (next_weekday today 3)
  else if mentions "friday" date_text_lower then ret (next_weekday today 4)
  else if mentions "saturday" date_text_lower then ret (next_weekday today 5)
  else if mentions "sunday" date_text_lower then ret (next_weekday today 6)
  else if Py.contains "in" date_text_lower && Py.contains "day" date_text_lower
  then match Re.search in_days_pattern date_text_lower with
       | Some m =>
           let days := Py.int (Re.item_text 3 m) in
           ret (Dt.add_days today (Z.of_N days))
       | None => parse_fuzzy date_text
       end
  else parse_fuzzy date_text.

Definition extract_date_from_natural_language (date_text : string) : M validation :=
  target <- resolve_target date_text ;;
  match target with
  | Some target_date =>
      ret (Valid (Dt.strftime_iso target_date) (Some (Dt.strftime_long target_date)))
  | None =>
      ret (Invalid ("Could not parse date from '" +:+ date_text +:+
                    "'. Please try formats like 'next Monday', 'tomorrow', 'in 3 days', or 'YYYY-MM-DD'."))
  end.

Definition extraction_prompt (documents_content query : string) : string :=
  lines
    [ "";
      "        You are an intelligent document assistant. ";
      "        Your task is to extract and return ONLY the relevant information from the document that answers the user's query.";
      "";
      "        Document Content:";
      "        " +:+ documents_content;
      "        ";
      "        User Query: " +:+ query;
      "        ";
      "        Instructions:";
      "        1. Carefully read and understand the user's query";
      "        2. Search through the entire document for information that is semantically related to the query";
      "        3. Extract ALL relevant sections, paragraphs, or details that answer the query";
      "        4. If multiple pieces of information are relevant, include them all";
      "        5. Preserve the original text structure and details (prices, timelines, contact info, etc.)";
      "        6. If no relevant information is found, respond with: " +:+ quoted "No relevant information found";
      "        ";
      "        Return only the extracted relevant information without adding explanations or commentary.";
      "" ].

Definition no_documents_message : string :=
  "No documents available to query. Please upload documents first.".

Definition no_relevant_message : string :=
  "No relevant information found in the documents for your query.".

Definition query_documents (query documents_content : string) : M string :=
  if is_empty documents_content then ret no_documents_message
  else
    let llm := {| model := OLLAMA_MODEL; base_url := OLLAMA_BASE_URL;
                  temperature_tenths := 3 |} in
    r <- invoke llm (extraction_prompt documents_content query) ;;
    match r with
    | Reply text =>
        let relevant_info := Py.strip text in
        if Py.contains "no relevant information found" (Py.lower relevant_info)
           && (Py.len relevant_info <? 100)%nat
        then ret no_relevant_message
        else ret relevant_info
    | Raises e =>
        _ <- print ("LLM query failed, falling back to keyword search: " +:+ e) ;;
        let query_lower := Py.lower query in
        let doc_lines := Py.split_on (ascii_of_N 10) documents_content in
        let relevant_lines :=
          List.filter
            (fun line => existsb (fun word => Py.contains word (Py.lower line))
                           (Py.split query_lower))
            doc_lines in
        if negb (is_some (head relevant_lines)) then ret no_relevant_message
        else ret (Py.join Py.nl (firstn 5 relevant_lines))
    end.

(* --------------------------------------------------------------------- *)
(** *** [src/agents.py] *)
(* --------------------------------------------------------------------- *)

(** The module-level client of [agents.py]. *)
Definition llm : Ollama :=
  {| model := OLLAMA_MODEL; base_url := OLLAMA_BASE_URL; temperature_tenths := 7 |}.

Record AgentState := {
  messages : list string;
  user_input : string;
  intent : string;
  appointment_data : gmap string string;
  conversation_history : list (string * string);
  documents_content : string;
  response : string;
  next_action : string
}.

Definition set_intent (v : string) (st : AgentState) : AgentState :=
  {| messages := messages st; user_input := user_input st; intent := v;
     appointment_data := appointment_data st;
     conversation_history := conversation_history st;
     documents_content := documents_content st;
     response := response st; next_action := next_action st |}.

Definition set_appointment_data (v : gmap string string) (st : AgentState) : AgentState :=
  {| messages := messages st; user_input := user_input st; intent := intent st;
     appointment_data := v;
     conversation_history := conversation_history st;
     documents_content := documents_content st;
     response := response st; next_action := next_action st |}.

Definition set_response (v : string) (st : AgentState) : AgentState :=
  {| messages := messages st; user_input := user_input st; intent := intent st;
     appointment_data := appointment_data st;
     conversation_history := conversation_history st;
     documents_content := documents_content st;
     response := v; next_action := next_action st |}.

Definition set_next_action (v : string) (st : AgentState) : AgentState :=
  {| messages := messages st; user_input := user_input st; intent := intent st;
     appointment_data := appointment_data st;
     conversation_history := conversation_history st;
     documents_content := documents_content st;
     response := response st; next_action := v |}.

(** [x in xs] for a list of strings. *)
Definition member (x : string) (xs : list string) : bool := existsb (String.eqb x) xs.

Definition classify_prompt (raw_input : string) : string :=
  lines
    [ "";
      "    You are an expert intent classifier. Classify the user's input into one of these categories:";
      "        - " +:+ quoted "appointment_booking" +:+ ": If the user wants to book an appointment, schedule, make a reservation, or provide booking details";
      "        - " +:+ quoted "document_query" +:+ ": If the user is asking questions about documents, information, or general queries";
      "        ";
      "        User input: " +:+ quoted raw_input;
      "        ";
      "        Respond with only one word: either " +:+ quoted "appointment_booking" +:+ " or " +:+ quoted "document_query" +:+ ".";
      "    " ].

Definition appointment_keywords : list string :=
  ["appointment"; "book"; "schedule"; "reservation"; "meeting"].

Definition classify_intent (state : AgentState) : M AgentState :=
  let user_input_lower := Py.lower (user_input state) in
  let prompt := classify_prompt (user_input state) in
  r <- invoke llm prompt ;;
  match r with
  | Reply text =>
      let intent_response := Py.lower (Py.strip text) in
      if Py.contains "appointment" intent_response || Py.contains "booking" intent_response
      then ret (set_intent "appointment_booking" state)
      else if Py.contains "document" intent_response || Py.contains "query" intent_response
      then ret (set_intent "document_query" state)
      else if existsb (fun keyword => Py.contains keyword user_input_lower) appointment_keywords
      then ret (set_intent "appointment_booking" state)
      else ret (set_intent "document_query" state)
  | Raises e =>
      _ <- print ("Intent classification error: " +:+ e) ;;
      ret (set_intent "document_query" state)
  end.

Definition required_fields : list string := ["name"; "phone"; "email"; "date"].

(** [field not in appointment_data or not appointment_data[field]] *)
Definition is_missing (appointment_data : gmap string string) (field : string) : bool :=
  match appointment_data !! field with
  | None => true
  | Some v => is_empty v
  end.

Definition missing_fields (appointment_data : gmap string string) : list string :=
  List.filter (is_missing appointment_data) required_fields.

(** [appointment_data[field]] where the key is known to be present. *)
Definition get (appointment_data : gmap string string) (field : string) : string :=
  default "" (appointment_data !! field).

Definition confirmed_summary (appointment_data : gmap string string) : string :=
  lines
    [ "Great! I have all the information needed for your appointment:";
      "            Name: " +:+ get appointment_data "name";
      "            Phone: " +:+ get appointment_data "phone";
      "            Email: " +:+ get appointment_data "email";
      "            Date: " +:+ get appointment_data "date";
      "            ";
      "            Your appointment has been successfully booked! You will receive a confirmation email shortly.";
      "        " ].

Definition completed_summary (appointment_data : gmap string string) : string :=
  lines
    [ "Perfect! I have all the information needed:";
      "";
      "        Name: " +:+ get appointment_data "name";
      "        Phone: " +:+ get appointment_data "phone";
      "        Email: " +:+ get appointment_data "email";
      "        Date: " +:+ get appointment_data "date";
      "        ";
      "        Your appointment has been successfully booked!";
      "        " ].

Definition name_prompt (utterance : string) : string :=
  lines
    [ "";
      "        Extract the person's name from this text. If no name is present, respond with " +:+ quoted "NOT_FOUND" +:+ ".";
      "        Text: " +:+ quoted utterance;
      "        Name:";
      "        " ].

(** [[\+\(]?[0-9][0-9\s\-\(\)]{8,}[0-9]] *)
Definition phone_pattern : Re.pattern :=
  [ Re.opt (fun c => Ascii.eqb c "+" || Ascii.eqb c "(");
    Re.one Py.isdecimal;
    Re.at_least 8 (fun c => Py.isdecimal c || Py.isspace c || Ascii.eqb c "-"
                            || Ascii.eqb c "(" || Ascii.eqb c ")");
    Re.one Py.isdecimal ].

Definition email_local_char (c : ascii) : bool :=
  Py.isupper_ascii c || Py.islower_ascii c || Py.isdecimal c || Ascii.eqb c "."
  || Ascii.eqb c "_" || Ascii.eqb c "%" || Ascii.eqb c "+" || Ascii.eqb c "-".

Definition email_domain_char (c : ascii) : bool :=
  Py.isupper_ascii c || Py.islower_ascii c || Py.isdecimal c || Ascii.eqb c "."
  || Ascii.eqb c "-".

Definition email_tld_char (c : ascii) : bool :=
  Py.isupper_ascii c || Ascii.eqb c "|" || Py.islower_ascii c.

(** [\b[A-Za-z0-9._%+-]+@[A-Za-z0-9.-]+\.[A-Z|a-z]{2,}\b] *)
Definition email_pattern : Re.pattern :=
  [ Re.WordBoundary; Re.plus email_local_char; Re.lit "@";
    Re.plus email_domain_char; Re.lit "."; Re.at_least 2 email_tld_char;
    Re.WordBoundary ].

(** The two objects the extraction steps mutate: the [appointment_data]
    dict (the very dict of the state) and the [response_parts] list. *)
Definition slots : Type := gmap string string * list string.

(** [# Check for name] *)
Definition check_for_name (utterance : string) (acc : slots) : M slots :=
  let '(appointment_data, response_parts) := acc in
  if is_missing appointment_data "name" then
    r <- invoke llm (name_prompt utterance) ;;
    match r with
    | Reply text =>
        let extracted_name := Py.strip text in
        if negb (String.eqb extracted_name "NOT_FOUND") && (0 <? Py.len extracted_name)%nat
        then match validate_name extracted_name with
             | Valid value _ =>
                 ret (<["name" := value]> appointment_data,
                      response_parts ++ ["Got it! I've recorded your name as " +:+ value +:+ "."])
             | Invalid _ => ret acc
             end
        else ret acc
    | Raises _ => ret acc
    end
  else ret acc.

(** [# Check for phone] *)
Definition check_for_phone (utterance : string) (acc : slots) : M slots :=
  let '(appointment_data, response_parts) := acc in
  if is_missing appointment_data "phone" then
    let phone_matches := Re.findall phone_pattern utterance in
    match phone_matches with
    | first :: _ =>
        match validate_phone first with
        | Valid value _ =>
            ret (<["phone" := value]> appointment_data,
                 response_parts ++ ["Phone number recorded: " +:+ value])
        | Invalid _ => ret acc
        end
    | [] => ret acc
    end
  else ret acc.

(** [# Check for email] *)
Definition check_for_email (utterance : string) (acc : slots) : M slots :=
  let '(appointment_data, response_parts) := acc in
  if is_missing appointment_data "email" then
    let email_matches := Re.findall email_pattern utterance in
    match email_matches with
    | first :: _ =>
        validation <- validate_email_address first ;;
        match validation with
        | Valid value _ =>
            ret (<["email" := value]> appointment_data,
                 response_parts ++ ["Email recorded: " +:+ value])
        | Invalid _ => ret acc
        end
    | [] => ret acc
    end
  else ret acc.

(** [# Check for date] *)
Definition check_for_date (utterance : string) (acc : slots) : M slots :=
  let '(appointment_data, response_parts) := acc in
  if is_missing appointment_data "date" then
    date_result <- extract_date_from_natural_language utterance ;;
    match date_result with
    | Valid value parsed_date =>
        ret (<["date" := value]> appointment_data,
             response_parts ++ ["Date recorded: " +:+ default value parsed_date])
    | Invalid _ => ret acc
    end
  else ret acc.

Definition name_question : string := "Could you please provide your full name?".
Definition phone_question : string := "Could you please provide your phone number?".
Definition email_question : string := "Could you please provide your email address?".
Definition date_question : string :=
  "When would you like to schedule your appointment? (You can say things like 'next Monday', 'tomorrow', 'in 3 days', etc.)".

(** The acknowledgments of the turn, before the question. *)
Definition acknowledgments (response_parts : list string) : string :=
  match response_parts with
  | [] => ""
  | _ => Py.join Py.nl response_parts +:+ Py.nl +:+ Py.nl
  end.

(** [# Ask for missing fields]: the [if]/[elif] chain. *)
Definition ask_for (missing : list string) (response : string) : string :=
  if member "name" missing then response +:+ name_question
  else if member "phone" missing then response +:+ phone_question
  else if member "email" missing then response +:+ email_question
  else if member "date" missing then response +:+ date_question
  else response.

(** [# Update state] to the end of the function. *)
Definition conclude (state : AgentState) (acc : slots) : AgentState :=
  let '(appointment_data, response_parts) := acc in
  let state := set_appointment_data appointment_data state in
  let missing := missing_fields appointment_data in
  let response := acknowledgments response_parts in
  match missing with
  | _ :: _ =>
      set_response (ask_for missing response) (set_next_action "continue" state)
  | [] =>
      set_response (completed_summary appointment_data)
        (set_next_action "complete" state)
  end.

Definition handle_appointment_booking (state : AgentState) : M AgentState :=
  let utterance := user_input state in
  let appointment_data := appointment_data state in
  match missing_fields appointment_data with
  | [] =>
      ret (set_next_action "complete"
             (set_response (confirmed_summary appointment_data) state))
  | _ :: _ =>
      acc <- check_for_name utterance (appointment_data, []) ;;
      acc <- check_for_phone utterance acc ;;
      acc <- check_for_email utterance acc ;;
      acc <- check_for_date utterance acc ;;
      ret (conclude state acc)
  end.

(* --------------------------------------------------------------------- *)
(** *** Vocabulary of the specification *)
(* --------------------------------------------------------------------- *)

(** The keyword scan of the raw user input. *)
Definition has_appointment_keyword (raw_input : string) : bool :=
  existsb (fun keyword => Py.contains keyword (Py.lower raw_input)) appointment_keywords.

(** The reply of the service names one of the two intents. *)
Definition names_an_intent (text : string) : bool :=
  let r := Py.lower (Py.strip text) in
  Py.contains "appointment" r || Py.contains "booking" r
  || Py.contains "document" r || Py.contains "query" r.

(** A field that is present and not empty. *)
Definition recorded (appointment_data : gmap string string) (field value : string) : Prop :=
  appointment_data !! field = Some value /\ value <> "".

(** The field whose extraction makes the external call. *)
Definition slot_of_event (e : event) : option string :=
  match e with
  | EvInvoke _ _ => Some "name"
  | EvValidateEmail _ => Some "email"
  | EvParserParse _ | EvNow => Some "date"
  | EvPrint _ => None
  end.

(** The four acknowledgment lines. *)
Definition acknowledgment (part : string) : Prop :=
  exists v,
    part = "Got it! I've recorded your name as " +:+ v +:+ "."
    \/ part = "Phone number recorded: " +:+ v
    \/ part = "Email recorded: " +:+ v
    \/ part = "Date recorded: " +:+ v.

(** What one extraction step may do to the dict, the response parts and
    the log. *)
Definition extraction_of (field : string) (acc : slots) (l : log)
    (r : slots * log) : Prop :=
  exists delta,
    snd r = l ++ delta
    /\ Forall (fun e => slot_of_event e = Some field) delta
    /\ (is_missing (fst acc) field = false -> fst r = acc /\ delta = [])
    /\ (fst r = acc
        \/ exists v ack,
             acknowledgment ack
             /\ fst r = (<[field := v]> (fst acc), snd acc ++ [ack])).

(** The first missing field in the priority order of [required_fields]. *)
Definition first_missing (appointment_data : gmap string string) : option string :=
  List.find (is_missing appointment_data) required_fields.

(** The question the specification gives for each field. *)
Definition question_for (field : string) : string :=
  if String.eqb field "name" then "Could you please provide your full name?"
  else if String.eqb field "phone" then "Could you please provide your phone number?"
  else if String.eqb field "email" then "Could you please provide your email address?"
  else "When would you like to schedule your appointment? (You can say things like 'next Monday', 'tomorrow', 'in 3 days', etc.)".

(** The number of question marks in a text. *)
Fixpoint question_marks (s : string) : nat :=
  match s with
  | EmptyString => O
  | String c s' => ((if Ascii.eqb c "?" then 1 else 0) + question_marks s')%nat
  end.

(** The fields whose question occurs in a response. *)
Definition questions_asked (response : string) : list string :=
  List.filter (fun field => Py.contains (question_for field) response) required_fields.

(** The acknowledgment line of a field, in a turn that ends with
    [appointment_data]; the line of the date shows the date in its long
    form, [parsed_date]. *)
Definition acknowledgment_line (appointment_data : gmap string string)
    (parsed_date field : string) : string :=
  if String.eqb field "name"
  then "Got it! I've recorded your name as " +:+ get appointment_data "name" +:+ "."
  else if String.eqb field "phone"
  then "Phone number recorded: " +:+ get appointment_data "phone"
  else if String.eqb field "email"
  then "Email recorded: " +:+ get appointment_data "email"
  else "Date recorded: " +:+ parsed_date.

(** What one extraction step does to the dict and the response parts: it
    leaves them as they are, or it records [field], which was missing,
    with a value and appends its line; [P] relates the value and the line. *)
Definition records (field : string) (P : string -> string -> Prop)
    (acc r : slots) : Prop :=
  r = acc
  \/ exists v line,
       is_missing (fst acc) field = true /\ P v line
       /\ r = (<[field := v]> (fst acc), snd acc ++ [line]).

(** [q] begins with a text that has no question mark and continues as a
    prefix of [b]. *)
Definition straddles (q b : string) : bool :=
  existsb (fun n => (question_marks (Py.take n q) =? 0)%nat
                    && Py.startswith (Py.drop n q) b)
    (seq 1 (Py.len q)).

(** An external call made for a field that was missing in [appointment_data]. *)
Definition call_for_missing (appointment_data : gmap string string) (e : event) : Prop :=
  exists field, slot_of_event e = Some field /\ is_missing appointment_data field = true.

(** The characters [validatePhone] removes: white space, hyphens,
    parentheses and plus signs. *)
Definition phone_formatting (c : ascii) : bool :=
  Py.isspace c || existsb (Ascii.eqb c) ["-"; "("; ")"; "+"]%char.

(** The characters [validateName] accepts: letters, white space, period,
    hyphen and apostrophe. *)
Definition name_character (c : ascii) : bool :=
  Py.isupper_ascii c || Py.islower_ascii c || Py.isspace c
  || existsb (Ascii.eqb c) ["."; "-"; "'"]%char.

(** The successful result of the resolver for the date [d]. *)
Definition rendering (d : Dt.datetime) : validation :=
  Valid (Dt.strftime_iso d) (Some (Dt.strftime_long d)).

(** A canonical date text, YYYY-MM-DD: four decimal digits, a hyphen, two
    digits, a hyphen, two digits. *)
Definition canonical_date (s : string) : bool :=
  match s with
  | String y1 (String y2 (String y3 (String y4 (String h1 (String m1
      (String m2 (String h2 (String d1 (String d2 EmptyString))))))))) =>
      forallb Py.isdecimal [y1; y2; y3; y4; m1; m2; d1; d2]
      && Ascii.eqb h1 "-" && Ascii.eqb h2 "-"
  | _ => false
  end.

(** A text of [k] decimal digits. *)
Definition digits_text (k : nat) (s : string) : bool :=
  (Py.len s =? k)%nat && Py.all_chars Py.isdecimal s.

(** The ordinal of 1000-01-01, the first day whose year has four digits. *)
Definition year_1000 : Z := 364878.

(** The month and the day that [Dt.ord2ymd] gives to day [n] of a year,
    counted from 0: the last step of that function, on its own. *)
Definition month_and_day (n : Z) (leapyear : bool) : Z * Z :=
  let month := Z.shiftr (n + 50) 5 in
  let preceding :=
    Dt.days_before_month month + (if (2 <? month) && leapyear then 1 else 0) in
  if n <? preceding
  then
    let month' := month - 1 in
    let preceding' :=
      preceding - (Dt.days_in_month month'
                   + (if (month' =? 2) && leapyear then 1 else 0)) in
    (month', n - preceding' + 1)
  else (month, n - preceding + 1).

(** The weekdays in the order of [weekday()]: Monday is 0. *)
Definition weekday_names : list string :=
  ["monday"; "tuesday"; "wednesday"; "thursday"; "friday"; "saturday"; "sunday"].

Definition weekday_name (w : nat) : string := nth w weekday_names "".

(** The rules of the resolver that come before the rule of weekday [w]. *)
Definition earlier_rule (w : nat) (date_text_lower : string) : bool :=
  Py.contains "next week" date_text_lower
  || Py.contains "next month" date_text_lower
  || existsb (fun day => mentions day date_text_lower) (firstn w weekday_names).

(** The utterance of the two-field scenario. *)
Definition two_field_utterance : string :=
  "Email is john.doe@example.com and phone 555-123-4567".

(* --------------------------------------------------------------------- *)
(** *** Concrete collaborators and sessions *)
(* --------------------------------------------------------------------- *)

(** A completion service that is down. *)
Definition failing_service : log -> Ollama -> string -> completion :=
  fun _ _ _ => Raises "connection refused".

(** A completion service that always gives the same reply. *)
Definition replying (text : string) : log -> Ollama -> string -> completion :=
  fun _ _ _ => Reply text.

(** An e-mail checker that accepts every address as it is. *)
Definition accepting_checker : string -> email_check := Accepted.

(** A fuzzy parser that finds no date. *)
Definition failing_parser : string -> option Dt.datetime := fun _ => None.

(** Monday 2024-01-01 and Wednesday 2024-01-03, at noon. *)
Definition monday : Dt.datetime := Dt.mk 738886 43200.
Definition wednesday : Dt.datetime := Dt.mk 738888 43200.

(** 9999-12-31, the last day a [datetime] can hold. *)
Definition last_day : Dt.datetime := Dt.mk Dt.max_ordinal 0.

Definition session (utterance : string) (data : gmap string string) : AgentState :=
  {| messages := [utterance]; user_input := utterance; intent := "";
     appointment_data := data; conversation_history := [];
     documents_content := ""; response := ""; next_action := "" |}.

Definition full_record : gmap string string :=
  <["date" := "2024-01-08"]>
    (<["email" := "john.doe@example.com"]>
       (<["phone" := "5551234567"]> {["name" := "John Doe"]})).

Definition name_only : gmap string string := {["name" := "John Doe"]}.

(** Nine decimal digits and the superscript two (U+00B2). *)
Definition superscript_phone : string :=
  "555123456" +:+ String (ascii_of_N 178) EmptyString.

(** The name Jose written with an acute accent: its last letter is U+00E9. *)
Definition accented_name : string :=
  "Jos" +:+ String (ascii_of_N 233) EmptyString.

(** 0999-12-30, in the last year that has three digits. *)
Definition year_999 : Dt.datetime := Dt.mk 364876 0.

(* --------------------------------------------------------------------- *)
(** *** [src/agents.py]: the document handler, the graph and [run_agent] *)
(* --------------------------------------------------------------------- *)

Definition answer_prompt (relevant_info user_query : string) : string :=
  lines
    [ "You are a helpful assistant. Answer the user's question based on the following document information.";
      "        Document Information:";
      "        " +:+ relevant_info;
      "        ";
      "        User Question: " +:+ user_query;
      "        ";
      "        Provide a clear and concise answer. If the information is not available in the documents, say so politely.";
      "" ].

Definition apology (e : string) : string :=
  "I apologize, but I encountered an error: " +:+ e.

Definition handle_document_query (state : AgentState) : M AgentState :=
  let user_query := user_input state in
  let documents := documents_content state in
  relevant_info <- query_documents user_query documents ;;
  let prompt := answer_prompt relevant_info user_query in
  r <- invoke llm prompt ;;
  let state :=
    match r with
    | Reply answer => set_response answer state
    | Raises e => set_response (apology e) state
    end in
  ret (set_next_action "complete" state).

Definition route_intent (state : AgentState) : string := intent state.

(** [agent_graph.invoke]: the entry node [classify_intent], the conditional
    edge of [route_intent] with its table of two routes, the chosen
    handler, then [END].  [None] stands for the error of a route that the
    table does not hold. *)
Definition agent_graph_invoke (initial_state : AgentState) : M (option AgentState) :=
  state <- classify_intent initial_state ;;
  let route := route_intent state in
  if String.eqb route "document_query"
  then (final <- handle_document_query state ;; ret (Some final))
  else if String.eqb route "appointment_booking"
  then (final <- handle_appointment_booking state ;; ret (Some final))
  else ret None.

(** The three keys of [session_data] that [run_agent] reads and writes, in
    a session that holds them all, as every session the repository builds
    does ([run_agent_on_dict] below is the function on any dict). *)
Record SessionData := {
  session_appointment_data : gmap string string;
  session_conversation_history : list (string * string);
  session_documents_content : string
}.

(** The dict [run_agent] returns. *)
Record AgentResult := {
  result_response : string;
  result_intent : string;
  result_session_data : SessionData
}.

Definition fresh_session_data : SessionData :=
  {| session_appointment_data := ∅;
     session_conversation_history := [];
     session_documents_content := "" |}.

Definition run_agent (utterance : string) (session_data : option SessionData)
  : M (option AgentResult) :=
  let session_data := default fresh_session_data session_data in
  let initial_state :=
    {| messages := [utterance];
       user_input := utterance;
       intent := "";
       appointment_data := session_appointment_data session_data;
       conversation_history := session_conversation_history session_data;
       documents_content := session_documents_content session_data;
       response := "";
       next_action := "" |} in
  result <- agent_graph_invoke initial_state ;;
  match result with
  | Some result =>
      let session_data :=
        {| session_appointment_data := appointment_data result;
           session_conversation_history :=
             session_conversation_history session_data
             ++ [(utterance, response result)];
           session_documents_content := session_documents_content session_data |} in
      ret (Some {| result_response := response result;
                   result_intent := intent result;
                   result_session_data := session_data |})
  | None => ret None
  end.

(** A [session_data] dict as a caller may pass it: it is a plain dict, and
    any of the three keys may be absent. *)
Record SessionDict := {
  dict_appointment_data : option (gmap string string);
  dict_conversation_history : option (list (string * string));
  dict_documents_content : option string
}.

(** The dict [run_agent] returns, with the caller's dict in it. *)
Record DictResult := {
  dict_response : string;
  dict_intent : string;
  dict_session_data : SessionDict
}.

(** How a call ends: with the returned dict, with the [KeyError] of a
    key (and the caller's dict as the call left it), or with the error
    of a route that the table of the graph does not hold. *)
Inductive outcome :=
  | Returns (result : DictResult)
  | KeyError (key : string) (session_data : SessionDict)
  | RouteError.

Definition fresh_session_dict : SessionDict :=
  {| dict_appointment_data := Some ∅;
     dict_conversation_history := Some [];
     dict_documents_content := Some "" |}.

(** [run_agent] on such a dict: the three reads go through [.get] with a
    default, the write of [appointment_data] creates the key, and
    [session_data["conversation_history"].append] raises [KeyError] when
    that key is absent. *)
Definition run_agent_on_dict (utterance : string) (session_data : option SessionDict)
  : M outcome :=
  let session_data := default fresh_session_dict session_data in
  let initial_state :=
    {| messages := [utterance];
       user_input := utterance;
       intent := "";
       appointment_data := default ∅ (dict_appointment_data session_data);
       conversation_history := default [] (dict_conversation_history session_data);
       documents_content := default "" (dict_documents_content session_data);
       response := "";
       next_action := "" |} in
  result <- agent_graph_invoke initial_state ;;
  match result with
  | Some result =>
      let session_data :=
        {| dict_appointment_data := Some (appointment_data result);
           dict_conversation_history := dict_conversation_history session_data;
           dict_documents_content := dict_documents_content session_data |} in
      match dict_conversation_history session_data with
      | Some history =>
          let session_data :=
            {| dict_appointment_data := dict_appointment_data session_data;
               dict_conversation_history := Some (history ++ [(utterance, response result)]);
               dict_documents_content := dict_documents_content session_data |} in
          ret (Returns {| dict_response := response result;
                          dict_intent := intent result;
                          dict_session_data := session_data |})
      | None => ret (KeyError "conversation_history" session_data)
      end
  | None => ret RouteError
  end.

(** A session that holds the three keys, as a dict. *)
Definition as_dict (session_data : SessionData) : SessionDict :=
  {| dict_appointment_data := Some (session_appointment_data session_data);
     dict_conversation_history := Some (session_conversation_history session_data);
     dict_documents_content := Some (session_documents_content session_data) |}.

Definition as_outcome (result : option AgentResult) : outcome :=
  match result with
  | Some r => Returns {| dict_response := result_response r;
                         dict_intent := result_intent r;
                         dict_session_data := as_dict (result_session_data r) |}
  | None => RouteError
  end.

(** Successive turns of one session: each turn is given the session data
    the turn before returned, as the loops of [main.py] and the chat
    endpoint do.  [None] when a turn raised. *)
Fixpoint converse (utterances : list string) (session_data : SessionData)
  : M (option SessionData) :=
  match utterances with
  | [] => ret (Some session_data)
  | utterance :: rest =>
      result <- run_agent utterance (Some session_data) ;;
      match result with
      | Some result => converse rest (result_session_data result)
      | None => ret None
      end
  end.

(* --------------------------------------------------------------------- *)
(** *** Vocabulary of the further properties *)
(* --------------------------------------------------------------------- *)

Definition is_invoke (e : event) : bool :=
  match e with EvInvoke _ _ => true | _ => false end.

(** The number of calls to the text-completion service in a log. *)
Definition invocations (l : log) : nat := length (List.filter is_invoke l).

(** One of the two intents. *)
Definition is_intent (i : string) : Prop :=
  i = "document_query" \/ i = "appointment_booking".

(** The characters a phone-shaped token can hold: the union of the classes
    of [phone_pattern]. *)
Definition phone_token_char (c : ascii) : bool :=
  Py.isdecimal c || Py.isspace c
  || existsb (Ascii.eqb c) ["+"; "("; ")"; "-"]%char.

(** Every class of the pattern lies inside [P]. *)
Definition classes_within (P : ascii -> bool) (p : Re.pattern) : Prop :=
  Forall (fun it => match it with
                    | Re.Class cls _ _ => forall c, cls c = true -> P c = true
                    | _ => True
                    end) p.


(** The error result of the resolver. *)
Definition could_not_parse (date_text : string) : validation :=
  Invalid ("Could not parse date from '" +:+ date_text +:+
           "'. Please try formats like 'next Monday', 'tomorrow', 'in 3 days', or 'YYYY-MM-DD'.").

(** The client that [query_documents] builds. *)
Definition extraction_llm : Ollama :=
  {| model := OLLAMA_MODEL; base_url := OLLAMA_BASE_URL; temperature_tenths := 3 |}.

(** A line that holds, in any letter case, one of the words of the query. *)
Definition line_matches (query line : string) : Prop :=
  exists word,
    In word (Py.split (Py.lower query))
    /\ Py.contains word (Py.lower line) = true.

(* --------------------------------------------------------------------- *)
(** *** [src/app.py]: the session store and its endpoints *)
(* --------------------------------------------------------------------- *)

(** [src/config.py], in seconds. *)
Definition SESSION_TIMEOUT : Z := 3600.

(** [datetime.now()] as [app.py] uses it: the reading of the clock is the
    count of microseconds since 0001-01-01 00:00:00, and may depend on
    everything that happened before. *)
Variable clock : log -> Z.
(** [str(uuid.uuid4())]. *)
Variable uuid4 : log -> string.
(** What [print] writes for the session dict. *)
Variable repr_session_data : SessionData -> Z -> Z -> string.
(** [str(e)] of an exception that reaches the [except] of an endpoint. *)
Variable exception_text : string.

Definition app_now : M Z := fun l => (clock l, l ++ [EvNow]).

(** [(later - earlier).seconds]: the seconds of the normalized
    [timedelta], between 0 and 86399, days and microseconds left out. *)
Definition timedelta_seconds (later earlier : Z) : Z :=
  ((later - earlier) / 1000000) mod 86400.

(** A value of the [sessions] dict. *)
Record Session := {
  session_data : SessionData;
  created_at : Z;
  last_accessed : Z
}.

Definition set_last_accessed (t : Z) (s : Session) : Session :=
  {| session_data := session_data s; created_at := created_at s; last_accessed := t |}.

Definition set_session_data (d : SessionData) (s : Session) : Session :=
  {| session_data := d; created_at := created_at s; last_accessed := last_accessed s |}.

Definition set_documents_content (text : string) (s : Session) : Session :=
  set_session_data
    {| session_appointment_data := session_appointment_data (session_data s);
       session_conversation_history := session_conversation_history (session_data s);
       session_documents_content := text |} s.

(** What an endpoint does: it returns, or raises [HTTPException]. *)
Inductive http (A : Type) :=
| Ok (a : A)
| HTTPException (status_code : Z) (detail : string).

#[global] Arguments Ok {A} a.
#[global] Arguments HTTPException {A} status_code detail.

(** The [else] branch of [get_or_create_session]. *)
Definition create_session (sessions : gmap string Session)
  : M (string * Session * gmap string Session) :=
  fun l =>
    let new_session_id := uuid4 l in
    (created <- app_now ;;
     accessed <- app_now ;;
     let s := {| session_data := fresh_session_data;
                 created_at := created; last_accessed := accessed |} in
     ret (new_session_id, s, <[new_session_id := s]> sessions)) l.

Definition get_or_create_session (session_id : option string)
    (sessions : gmap string Session)
  : M (string * Session * gmap string Session) :=
  match session_id with
  | Some sid =>
      if negb (is_empty sid)
      then match sessions !! sid with
           | Some s =>
               t <- app_now ;;
               let s := set_last_accessed t s in
               ret (sid, s, <[sid := s]> sessions)
           | None => create_session sessions
           end
      else create_session sessions
  | None => create_session sessions
  end.

Definition cleanup_old_sessions (sessions : gmap string Session)
  : M (gmap string Session) :=
  current_time <- app_now ;;
  let expired_sessions :=
    List.map fst
      (List.filter
         (fun item => SESSION_TIMEOUT <? timedelta_seconds current_time
                                           (last_accessed (snd item)))
         (map_to_list sessions)) in
  ret (fold_left (fun sessions sid => delete sid sessions) expired_sessions sessions).

Record ChatRequest := { message : string; request_session_id : option string }.

Record ChatResponse := {
  chat_response : string;
  chat_session_id : string;
  chat_intent : string;
  chat_appointment_data : option (gmap string string)
}.

Definition chat (request : ChatRequest) (sessions : gmap string Session)
  : M (http ChatResponse * gmap string Session) :=
  sessions <- cleanup_old_sessions sessions ;;
  found <- get_or_create_session (request_session_id request) sessions ;;
  let '(session_id, s, sessions) := found in
  _ <- print ("chat session data "
              +:+ repr_session_data (session_data s) (created_at s) (last_accessed s)) ;;
  _ <- print ("chat session id " +:+ session_id) ;;
  result <- run_agent (message request) (Some (session_data s)) ;;
  match result with
  | Some result =>
      let s := set_session_data (result_session_data result) s in
      t <- app_now ;;
      let s := set_last_accessed t s in
      ret (Ok {| chat_response := result_response result;
                 chat_session_id := session_id;
                 chat_intent := result_intent result;
                 chat_appointment_data :=
                   Some (session_appointment_data (result_session_data result)) |},
           <[session_id := s]> sessions)
  | None =>
      ret (HTTPException 500 ("Error processing chat: " +:+ exception_text), sessions)
  end.

Record DocumentUploadResponse := { upload_message : string; upload_session_id : string }.

(** [upload_document]; [text_content] is [None] when decoding the file as
    UTF-8 raises [UnicodeDecodeError]. *)
Definition upload_document (filename : string) (text_content : option string)
    (session_id : option string) (sessions : gmap string Session)
  : M (http DocumentUploadResponse * gmap string Session) :=
  found <- get_or_create_session session_id sessions ;;
  let '(session_id, _, sessions) := found in
  match text_content with
  | Some text_content =>
      let sessions := alter (set_documents_content text_content) session_id sessions in
      t <- app_now ;;
      let sessions := alter (set_last_accessed t) session_id sessions in
      ret (Ok {| upload_message :=
                   "Document '" +:+ filename +:+
                   "' uploaded successfully. You can now ask questions about it.";
                 upload_session_id := session_id |},
           sessions)
  | None =>
      ret (HTTPException 400 "File must be a text file (UTF-8 encoded)", sessions)
  end.

Definition delete_session (session_id : string) (sessions : gmap string Session)
  : http string * gmap string Session :=
  match sessions !! session_id with
  | None => (HTTPException 404 "Session not found", sessions)
  | Some _ => (Ok "Session deleted successfully", delete session_id sessions)
  end.

(** The session that a request names, when the id is not empty and the
    store holds it. *)
Definition known_session (session_id : option string)
    (sessions : gmap string Session) : option Session :=
  match session_id with
  | Some sid => if is_empty sid then None else sessions !! sid
  | None => None
  end.

(** The session that [get_or_create_session] creates at log [l]. *)
Definition created_session (l : log) : Session :=
  {| session_data := fresh_session_data;
     created_at := clock l;
     last_accessed := clock (l ++ [EvNow]) |}.


(* --------------------------------------------------------------------- *)
(** *** Concrete stores and clocks *)
(* --------------------------------------------------------------------- *)

(** A session in which only the name was collected. *)
Definition booking_session_data : SessionData :=
  {| session_appointment_data := name_only;
     session_conversation_history := [("I want to book an appointment",
                                       "Could you please provide your full name?")];
     session_documents_content := "" |}.

(** A store with one session, created and last accessed at time 0. *)
Definition one_session_store : gmap string Session :=
  {["s1" := {| session_data := booking_session_data;
               created_at := 0; last_accessed := 0 |}]}.

(** A clock that stands still. *)
Definition clock_at (t : Z) : log -> Z := fun _ => t.

(** A source of ids numbered by the length of the log. *)
Definition numbered_uuid : log -> string :=
  fun l => "uuid-" +:+ Py.str_of_N (N.of_nat (length l)).

Definition plain_repr : SessionData -> Z -> Z -> string := fun _ _ _ => "{...}".

(* ===================================================================== *)
(** ** Properties *)
(* ===================================================================== *)

(* --------------------------------------------------------------------- *)
(** *** The scan of [re.findall] and [re.sub] is total *)
(* --------------------------------------------------------------------- *)

Lemma append_assoc (a b c : string) : (a +:+ b) +:+ c = a +:+ (b +:+ c).
Proof.
  induction a as [|x a IH]; [reflexivity|].
  change (String x ((a +:+ b) +:+ c) = String x (a +:+ (b +:+ c))).
  f_equal. exact IH.
Qed.

Lemma len_append a b : Py.len (a +:+ b) = (Py.len a + Py.len b)%nat.
Proof.
  induction a as [|x a IH]; [reflexivity|].
  change (S (Py.len (a +:+ b)) = S (Py.len a + Py.len b)). now rewrite IH.
Qed.

Lemma take_drop n s : Py.take n s +:+ Py.drop n s = s.
Proof.
  revert s. induction n as [|n IH]; intros [|c s]; try reflexivity.
  change (String c (Py.take n s +:+ Py.drop n s) = String c s). now rewrite IH.
Qed.

Lemma backtrack_some {R : Type} (k : nat -> option R) lo n r :
  Re.backtrack k lo n = Some r -> exists m, k m = Some r.
Proof.
  induction n as [|n IH]; cbn [Re.backtrack].
  - destruct (0 <? lo)%nat; [discriminate|].
    destruct (k O) eqn:E; [|discriminate]. intros [= <-]. now exists O.
  - destruct (S n <? lo)%nat; [discriminate|].
    destruct (k (S n)) eqn:E; [|exact IH]. intros [= <-]. now exists (S n).
Qed.

(** A match takes a prefix of the text: the items' texts, then the rest. *)
Lemma match_here_splits p prev s ps rest :
  Re.match_here p prev s = Some (ps, rest) -> s = Re.concat ps +:+ rest.
Proof.
  revert prev s ps rest. induction p as [|it p IH]; intros prev s ps rest.
  - cbn [Re.match_here]. now intros [= <- <-].
  - destruct it as [cls lo hi| | |]; cbn [Re.match_here].
    + intros H. apply backtrack_some in H as [m H].
      destruct (Re.match_here p _ (Py.drop m s)) as [[ps' rest']|] eqn:E;
        [|discriminate].
      injection H as <- <-. apply IH in E. cbn [Re.concat].
      rewrite append_assoc, <- E. now rewrite take_drop.
    + destruct (xorb _ _); [|discriminate].
      destruct (Re.match_here p prev s) as [[ps' rest']|] eqn:E; [|discriminate].
      intros [= <- <-]. now apply IH in E.
    + destruct prev; [discriminate|].
      destruct (Re.match_here p None s) as [[ps' rest']|] eqn:E; [|discriminate].
      intros [= <- <-]. now apply IH in E.
    + destruct (Re.at_eol s); [|discriminate].
      destruct (Re.match_here p prev s) as [[ps' rest']|] eqn:E; [|discriminate].
      intros [= <- <-]. now apply IH in E.
Qed.

(** The scan never runs out of fuel: any fuel above the length of the
    text gives the same chunks. *)
Lemma scan_fuel p fuel1 fuel2 prev s :
  (Py.len s < fuel1)%nat -> (Py.len s < fuel2)%nat ->
  Re.scan fuel1 p prev s = Re.scan fuel2 p prev s.
Proof.
  revert fuel2 prev s. induction fuel1 as [|fuel1 IH]; intros fuel2 prev s H1 H2;
    [lia|].
  destruct fuel2 as [|fuel2]; [lia|]. cbn [Re.scan].
  assert (Hstep :
            match s with
            | EmptyString => []
            | String c s' => Re.Gap c :: Re.scan fuel1 p (Some c) s'
            end
            = match s with
              | EmptyString => []
              | String c s' => Re.Gap c :: Re.scan fuel2 p (Some c) s'
              end).
  { destruct s as [|c s']; [reflexivity|]. cbn [Py.len] in H1, H2.
    f_equal. apply IH; lia. }
  destruct (Re.match_here p prev s) as [[ps rest]|] eqn:E; [|exact Hstep].
  destruct (Re.group0 ps) as [|c m] eqn:G; [now rewrite Hstep|].
  f_equal. apply match_here_splits in E. unfold Re.group0 in G.
  assert (Py.len rest < Py.len s)%nat.
  { rewrite E, G, len_append. cbn [Py.len]. lia. }
  apply IH; lia.
Qed.

(* --------------------------------------------------------------------- *)
(** *** Document query bridge *)
(* --------------------------------------------------------------------- *)

(** C10. With no document loaded, [query_documents] answers every query
    with the fixed "no documents available" message, and the log of
    external calls is the one it was given: the text-completion service
    is not called. *)
Theorem query_documents_without_documents (query : string) (l : log) :
  query_documents query "" l
  = ("No documents available to query. Please upload documents first.", l).
Proof.
  unfold query_documents. cbn [is_empty].
  unfold ret, no_documents_message. reflexivity.
Qed.

(* --------------------------------------------------------------------- *)
(** *** Intent classifier *)
(* --------------------------------------------------------------------- *)

Lemma classify_intent_raises st l e :
  complete l llm (classify_prompt (user_input st)) = Raises e ->
  classify_intent st l
  = (set_intent "document_query" st,
     l ++ [EvInvoke llm (classify_prompt (user_input st))]
       ++ [EvPrint ("Intent classification error: " +:+ e)]).
Proof.
  intros H. unfold classify_intent, bind, invoke, print, emit, ret.
  rewrite H. now rewrite <- app_assoc.
Qed.

Lemma classify_intent_unrecognised_reply st l text :
  complete l llm (classify_prompt (user_input st)) = Reply text ->
  names_an_intent text = false ->
  fst (classify_intent st l)
  = set_intent (if has_appointment_keyword (user_input st)
                then "appointment_booking" else "document_query") st.
Proof.
  intros H Hn. unfold names_an_intent in Hn.
  apply orb_false_elim in Hn as [Hn Hq].
  apply orb_false_elim in Hn as [Hn Hd].
  apply orb_false_elim in Hn as [Ha Hb].
  unfold classify_intent, bind, invoke, ret. rewrite H.
  rewrite Ha, Hb, Hd, Hq. cbn [orb].
  unfold has_appointment_keyword.
  now destruct (existsb _ appointment_keywords).
Qed.

(** C1, as the code has it.  For an input whose lowercased text contains one
    of the five keywords: when the completion call raises, the intent is
    [document_query]; the keyword scan decides only when the call returns
    a reply that names neither intent, and then the intent is
    [appointment_booking]. *)
Theorem classify_intent_keyword_fallback (st : AgentState) (l : log) :
  has_appointment_keyword (user_input st) = true ->
  match complete l llm (classify_prompt (user_input st)) with
  | Raises _ => intent (fst (classify_intent st l)) = "document_query"
  | Reply text =>
      names_an_intent text = false ->
      intent (fst (classify_intent st l)) = "appointment_booking"
  end.
Proof.
  intros Hk.
  destruct (complete l llm (classify_prompt (user_input st))) as [text|e] eqn:H.
  - intros Hn. rewrite (classify_intent_unrecognised_reply _ _ _ H Hn), Hk.
    reflexivity.
  - now rewrite (classify_intent_raises _ _ _ H).
Qed.

(* --------------------------------------------------------------------- *)
(** *** Slot-filling engine *)
(* --------------------------------------------------------------------- *)

Lemma recorded_not_missing d f v : recorded d f v -> is_missing d f = false.
Proof. intros [H Hv]. unfold is_missing. rewrite H. now destruct v. Qed.

Lemma recorded_get d f v : recorded d f v -> get d f = v.
Proof. intros [H _]. unfold get. now rewrite H. Qed.

Lemma is_missing_false d f :
  is_missing d f = false -> exists v, recorded d f v.
Proof.
  unfold is_missing, recorded. destruct (d !! f) as [v|]; [|discriminate].
  intros H. exists v. split; [reflexivity|]. now destruct v.
Qed.

(** C2. When the four fields are recorded at the start of a turn, the turn
    answers with the booking-confirmed summary of those four values and
    signals [complete]; [appointment_data] is the one it was, and the log
    of external calls did not grow, whatever the utterance is. *)
Theorem complete_record_is_confirmed (st : AgentState) (l : log) (n p e d : string) :
  recorded (appointment_data st) "name" n ->
  recorded (appointment_data st) "phone" p ->
  recorded (appointment_data st) "email" e ->
  recorded (appointment_data st) "date" d ->
  let r := handle_appointment_booking st l in
  response (fst r)
  = lines
      [ "Great! I have all the information needed for your appointment:";
        "            Name: " +:+ n;
        "            Phone: " +:+ p;
        "            Email: " +:+ e;
        "            Date: " +:+ d;
        "            ";
        "            Your appointment has been successfully booked! You will receive a confirmation email shortly.";
        "        " ]
  /\ next_action (fst r) = "complete"
  /\ appointment_data (fst r) = appointment_data st
  /\ snd r = l.
Proof.
  intros Hn Hp He Hd r. subst r.
  unfold handle_appointment_booking, missing_fields, required_fields.
  cbn [List.filter].
  rewrite (recorded_not_missing _ _ _ Hn), (recorded_not_missing _ _ _ Hp),
    (recorded_not_missing _ _ _ He), (recorded_not_missing _ _ _ Hd).
  cbn [ret fst snd set_next_action set_response response next_action appointment_data].
  unfold confirmed_summary.
  rewrite (recorded_get _ _ _ Hn), (recorded_get _ _ _ Hp),
    (recorded_get _ _ _ He), (recorded_get _ _ _ Hd).
  repeat split; reflexivity.
Qed.

Lemma check_for_name_extraction u acc l :
  extraction_of "name" acc l (check_for_name u acc l).
Proof.
  destruct acc as [d parts]. unfold check_for_name.
  destruct (is_missing d "name") eqn:Hm.
  - unfold bind, invoke, ret.
    destruct (complete l llm (name_prompt u)) as [text|e].
    + destruct (negb (String.eqb (Py.strip text) "NOT_FOUND")
                && (0 <? Py.len (Py.strip text))%nat).
      * destruct (validate_name (Py.strip text)) as [value pd|err].
        -- exists [EvInvoke llm (name_prompt u)]. cbn [fst snd].
           split; [reflexivity|]. split; [repeat constructor|].
           split; [congruence|]. right. exists value. eexists.
           split; [|reflexivity]. exists value. now left.
        -- exists [EvInvoke llm (name_prompt u)]. cbn [fst snd].
           split; [reflexivity|]. split; [repeat constructor|].
           split; [congruence|]. now left.
      * exists [EvInvoke llm (name_prompt u)]. cbn [fst snd].
        split; [reflexivity|]. split; [repeat constructor|].
        split; [congruence|]. now left.
    + exists [EvInvoke llm (name_prompt u)]. cbn [fst snd].
      split; [reflexivity|]. split; [repeat constructor|].
      split; [congruence|]. now left.
  - exists []. cbn [ret fst snd]. rewrite app_nil_r. repeat split; auto.
Qed.

Lemma check_for_phone_extraction u acc l :
  extraction_of "phone" acc l (check_for_phone u acc l).
Proof.
  destruct acc as [d parts]. unfold check_for_phone.
  exists []. rewrite app_nil_r.
  destruct (is_missing d "phone") eqn:Hm.
  - destruct (Re.findall phone_pattern u) as [|first rest].
    + cbn [ret fst snd]. repeat split; auto.
    + destruct (validate_phone first) as [value pd|err]; cbn [ret fst snd].
      * split; [reflexivity|]. split; [constructor|]. split; [congruence|].
        right. exists value. eexists. split; [|reflexivity].
        exists value. right. now left.
      * repeat split; auto.
  - cbn [ret fst snd]. repeat split; auto.
Qed.

Lemma check_for_email_extraction u acc l :
  extraction_of "email" acc l (check_for_email u acc l).
Proof.
  destruct acc as [d parts]. unfold check_for_email.
  destruct (is_missing d "email") eqn:Hm.
  - destruct (Re.findall email_pattern u) as [|first rest].
    + exists []. cbn [ret fst snd]. rewrite app_nil_r. repeat split; auto.
    + unfold bind, validate_email_address, bind, validate_email, ret.
      exists [EvValidateEmail first].
      destruct (check_email first) as [value|err]; cbn [fst snd].
      * split; [reflexivity|]. split; [repeat constructor|].
        split; [congruence|]. right. exists value. eexists.
        split; [|reflexivity]. exists value. right. right. now left.
      * split; [reflexivity|]. split; [repeat constructor|].
        split; [congruence|]. now left.
  - exists []. cbn [ret fst snd]. rewrite app_nil_r. repeat split; auto.
Qed.

(** The resolver reads the clock once and calls the fuzzy parser at most
    once, after it. *)
Lemma resolve_target_log text l :
  exists delta,
    snd (resolve_target text l) = l ++ delta
    /\ Forall (fun e => slot_of_event e = Some "date") delta.
Proof.
  unfold resolve_target, bind, datetime_now, parse_fuzzy, ret.
  repeat match goal with
         | |- context [if ?b then _ else _] => destruct b
         | |- context [match ?o with Some _ => _ | None => _ end] => destruct o
         end;
    cbn [snd];
    first [ exists [EvNow]; split; [reflexivity | repeat constructor]
          | exists [EvNow; EvParserParse text]; split;
            [now rewrite <- app_assoc | repeat constructor] ].
Qed.

Lemma check_for_date_extraction u acc l :
  extraction_of "date" acc l (check_for_date u acc l).
Proof.
  destruct acc as [d parts]. unfold check_for_date.
  destruct (is_missing d "date") eqn:Hm.
  - unfold bind, extract_date_from_natural_language, bind.
    destruct (resolve_target_log u l) as (delta & Hl & Hd).
    destruct (resolve_target u l) as [target l'] eqn:Hr. cbn [snd] in Hl.
    subst l'. exists delta.
    destruct target as [target_date|]; cbn [ret fst snd].
    + split; [reflexivity|]. split; [assumption|]. split; [congruence|].
      right. eexists. eexists. split; [|reflexivity].
      eexists. right. right. right. reflexivity.
    + split; [reflexivity|]. split; [assumption|]. split; [congruence|].
      now left.
  - exists []. cbn [ret fst snd]. rewrite app_nil_r. repeat split; auto.
Qed.

(** A step leaves every recorded field as it is. *)
Lemma extraction_keeps_recorded field acc l r k v :
  extraction_of field acc l r ->
  recorded (fst acc) k v -> recorded (fst (fst r)) k v.
Proof.
  intros (delta & _ & _ & Hfilled & [-> | (w & ack & _ & Hfst)]) Hrec;
    [assumption|].
  destruct (decide (field = k)) as [->|Hne].
  - exfalso. destruct (Hfilled (recorded_not_missing _ _ _ Hrec)) as [Heq _].
    rewrite Heq in Hfst. destruct acc as [d parts]. cbn [fst snd] in Hfst.
    injection Hfst as _ Hparts.
    apply (f_equal (@List.length string)) in Hparts.
    rewrite List.length_app in Hparts. cbn in Hparts. lia.
  - rewrite Hfst. cbn [fst]. destruct Hrec as [Hk Hv]. split; [|assumption].
    now rewrite lookup_insert_ne.
Qed.

(** A step does not change whether another field is missing. *)
Lemma extraction_other_field field acc l r k :
  extraction_of field acc l r -> field <> k ->
  is_missing (fst (fst r)) k = is_missing (fst acc) k.
Proof.
  intros (delta & _ & _ & _ & [-> | (w & ack & _ & ->)]) Hne; [reflexivity|].
  cbn [fst]. unfold is_missing. now rewrite lookup_insert_ne.
Qed.

(** A step appends at most one acknowledgment line. *)
Lemma extraction_acknowledges field acc l r :
  extraction_of field acc l r ->
  Forall acknowledgment (snd acc) -> Forall acknowledgment (snd (fst r)).
Proof.
  intros (delta & _ & _ & _ & [-> | (w & ack & Hack & ->)]) Hall; [assumption|].
  cbn [fst snd]. apply Forall_app. split; [assumption|]. now constructor.
Qed.

(** The calls a step makes belong to a field that was missing. *)
Lemma extraction_calls field acc l r :
  extraction_of field acc l r ->
  exists delta,
    snd r = l ++ delta
    /\ Forall (fun e => slot_of_event e = Some field
                        /\ is_missing (fst acc) field = true) delta.
Proof.
  intros (delta & Hl & Hd & Hfilled & _). exists delta. split; [assumption|].
  destruct (is_missing (fst acc) field) eqn:Hm.
  - eapply List.Forall_impl; [|exact Hd]. cbn. auto.
  - destruct (Hfilled eq_refl) as [_ ->]. constructor.
Qed.

Lemma first_missing_head d : first_missing d = head (missing_fields d).
Proof.
  unfold first_missing, missing_fields, required_fields. cbn [List.find List.filter].
  destruct (is_missing d "name"), (is_missing d "phone"),
    (is_missing d "email"), (is_missing d "date"); reflexivity.
Qed.

(** The [if]/[elif] chain asks for the head of the list of missing fields. *)
Lemma ask_for_first_missing d resp f rest :
  missing_fields d = f :: rest -> ask_for (missing_fields d) resp = resp +:+ question_for f.
Proof.
  unfold missing_fields, required_fields. cbn [List.filter].
  destruct (is_missing d "name"), (is_missing d "phone"),
    (is_missing d "email"), (is_missing d "date");
    intros H; try discriminate H; injection H as <- _; reflexivity.
Qed.

Lemma conclude_appointment_data st acc : appointment_data (conclude st acc) = fst acc.
Proof.
  destruct acc as [d parts]. unfold conclude.
  now destruct (missing_fields d).
Qed.

Lemma conclude_still_missing st acc f rest :
  missing_fields (fst acc) = f :: rest ->
  response (conclude st acc) = acknowledgments (snd acc) +:+ question_for f
  /\ next_action (conclude st acc) = "continue".
Proof.
  destruct acc as [d parts]. cbn [fst snd]. intros H. unfold conclude.
  rewrite <- (ask_for_first_missing d _ f rest H). rewrite H.
  split; reflexivity.
Qed.

(** The shape of a turn that starts with a missing field. *)
Lemma booking_turn st l :
  missing_fields (appointment_data st) <> [] ->
  exists acc delta,
    handle_appointment_booking st l = (conclude st acc, l ++ delta)
    /\ (forall k v, recorded (appointment_data st) k v -> recorded (fst acc) k v)
    /\ Forall acknowledgment (snd acc)
    /\ Forall (call_for_missing (appointment_data st)) delta.
Proof.
  intros Hmiss. unfold handle_appointment_booking.
  destruct (missing_fields (appointment_data st)) as [|f0 rest0]; [congruence|].
  clear Hmiss. unfold bind.
  set (a0 := (appointment_data st, @nil string)).
  pose proof (check_for_name_extraction (user_input st) a0 l) as H1.
  destruct (check_for_name (user_input st) a0 l) as [a1 l1].
  pose proof (check_for_phone_extraction (user_input st) a1 l1) as H2.
  destruct (check_for_phone (user_input st) a1 l1) as [a2 l2].
  pose proof (check_for_email_extraction (user_input st) a2 l2) as H3.
  destruct (check_for_email (user_input st) a2 l2) as [a3 l3].
  pose proof (check_for_date_extraction (user_input st) a3 l3) as H4.
  destruct (check_for_date (user_input st) a3 l3) as [a4 l4].
  destruct (extraction_calls _ _ _ _ H1) as (d1 & E1 & C1).
  destruct (extraction_calls _ _ _ _ H2) as (d2 & E2 & C2).
  destruct (extraction_calls _ _ _ _ H3) as (d3 & E3 & C3).
  destruct (extraction_calls _ _ _ _ H4) as (d4 & E4 & C4).
  cbn [fst snd] in *.
  pose proof (extraction_other_field _ _ _ _ "phone" H1 ltac:(discriminate)) as M2.
  pose proof (extraction_other_field _ _ _ _ "email" H1 ltac:(discriminate)) as M3.
  pose proof (extraction_other_field _ _ _ _ "email" H2 ltac:(discriminate)) as M3'.
  pose proof (extraction_other_field _ _ _ _ "date" H1 ltac:(discriminate)) as M4.
  pose proof (extraction_other_field _ _ _ _ "date" H2 ltac:(discriminate)) as M4'.
  pose proof (extraction_other_field _ _ _ _ "date" H3 ltac:(discriminate)) as M4''.
  cbn [fst snd] in M2, M3, M3', M4, M4', M4''.
  rewrite M3 in M3'. rewrite M4 in M4'. rewrite M4' in M4''.
  exists a4, (d1 ++ d2 ++ d3 ++ d4). split; [|split; [|split]].
  - cbn [ret]. f_equal. subst l4 l3 l2 l1. now rewrite <- !app_assoc.
  - intros k v Hrec.
    apply (extraction_keeps_recorded _ _ _ _ k v H4).
    apply (extraction_keeps_recorded _ _ _ _ k v H3).
    apply (extraction_keeps_recorded _ _ _ _ k v H2).
    apply (extraction_keeps_recorded _ _ _ _ k v H1).
    exact Hrec.
  - apply (extraction_acknowledges _ _ _ _ H4).
    apply (extraction_acknowledges _ _ _ _ H3).
    apply (extraction_acknowledges _ _ _ _ H2).
    apply (extraction_acknowledges _ _ _ _ H1).
    constructor.
  - rewrite M2 in C2. rewrite M3' in C3. rewrite M4'' in C4.
    repeat (apply Forall_app; split);
      (eapply List.Forall_impl; [|eassumption]);
      intros e [He Hm]; eexists; split; eassumption.
Qed.

(** C5. A field that is recorded before a turn has the same value after
    it; and every external call of the turn (completion service, e-mail
    checker, clock, fuzzy parser) is made for a field that was missing
    when the turn started. *)
Theorem recorded_fields_are_kept (st : AgentState) (l : log) (field value : string) :
  recorded (appointment_data st) field value ->
  let r := handle_appointment_booking st l in
  appointment_data (fst r) !! field = Some value
  /\ exists delta,
       snd r = l ++ delta
       /\ Forall (call_for_missing (appointment_data st)) delta.
Proof.
  intros Hrec r. subst r.
  destruct (missing_fields (appointment_data st)) as [|f0 rest0] eqn:Hm0.
  - unfold handle_appointment_booking. rewrite Hm0.
    cbn [ret fst snd set_next_action set_response appointment_data].
    split; [apply Hrec|]. exists []. now rewrite app_nil_r.
  - destruct (booking_turn st l) as (acc & delta & Heq & Hkeep & _ & Hcalls);
      [congruence|].
    rewrite Heq. cbn [fst snd]. rewrite conclude_appointment_data. split.
    + apply (Hkeep field value Hrec).
    + exists delta. split; [reflexivity | assumption].
Qed.

(* --------------------------------------------------------------------- *)
(** *** Field validators *)
(* --------------------------------------------------------------------- *)

(** A one-character class matches exactly the characters of the class. *)
Lemma match_here_one cls prev s :
  Re.match_here [Re.one cls] prev s
  = match s with
    | String c s' => if cls c then Some ([String c EmptyString], s') else None
    | EmptyString => None
    end.
Proof.
  destruct s as [|c s']; [reflexivity|].
  cbn [Re.match_here Re.one Re.run].
  destruct (cls c); [|reflexivity].
  assert (Re.run cls (Some O) s' = O) as -> by now destruct s'.
  reflexivity.
Qed.

(** Substituting the empty string for a one-character class removes the
    characters of the class and keeps the others in order. *)
Lemma scan_one_removes cls fuel prev s :
  (Py.len s < fuel)%nat ->
  Re.replace "" (Re.scan fuel [Re.one cls] prev s)
  = Py.filter_chars (fun c => negb (cls c)) s.
Proof.
  revert prev s. induction fuel as [|fuel IH]; intros prev s Hlen; [lia|].
  cbn [Re.scan]. rewrite match_here_one.
  destruct s as [|c s']; [reflexivity|].
  cbn [Py.len] in Hlen. cbn [Py.filter_chars].
  destruct (cls c); cbn [negb Re.group0 Re.concat String.append Re.replace].
  - apply IH. lia.
  - f_equal. apply IH. lia.
Qed.

Lemma sub_one_removes cls s :
  Re.sub [Re.one cls] "" s = Py.filter_chars (fun c => negb (cls c)) s.
Proof. unfold Re.sub, Re.chunks. apply scan_one_removes. lia. Qed.

Lemma all_chars_filter p s : Py.all_chars p (Py.filter_chars p s) = true.
Proof.
  induction s as [|c s IH]; [reflexivity|]. cbn [Py.filter_chars].
  destruct (p c) eqn:Hc; [|assumption]. cbn [Py.all_chars]. now rewrite Hc.
Qed.

(** When every character that is not removed satisfies [q], and no removed
    character does, what remains is the [q]-characters of the input. *)
Lemma filter_chars_agree (sep q : ascii -> bool) s :
  (forall c, sep c = true -> q c = false) ->
  Py.all_chars q (Py.filter_chars (fun c => negb (sep c)) s) = true ->
  Py.filter_chars (fun c => negb (sep c)) s = Py.filter_chars q s.
Proof.
  intros Hsep. induction s as [|c s IH]; [reflexivity|].
  cbn [Py.filter_chars]. destruct (sep c) eqn:Hc; cbn [negb].
  - rewrite (Hsep c Hc). exact IH.
  - cbn [Py.all_chars]. intros H. apply andb_prop in H as [Hq Hrest].
    rewrite Hq. f_equal. now apply IH.
Qed.

Lemma separator_not_digit c : separator c = true -> Py.isdigit_char c = false.
Proof.
  destruct c as [[] [] [] [] [] [] [] []]; vm_compute; congruence.
Qed.

Lemma isdigit_all_chars s :
  Py.isdigit s = negb (is_empty s) && Py.all_chars Py.isdigit_char s.
Proof. now destruct s. Qed.

Lemma filter_chars_ext (p q : ascii -> bool) s :
  (forall c, p c = q c) -> Py.filter_chars p s = Py.filter_chars q s.
Proof.
  intros H. induction s as [|c s IH]; [reflexivity|].
  cbn [Py.filter_chars]. now rewrite H, IH.
Qed.

Lemma separator_is_phone_formatting c : separator c = phone_formatting c.
Proof. destruct c as [[] [] [] [] [] [] [] []]; reflexivity. Qed.

(** C6, as the code has it.  [validate_phone] removes white space,
    hyphens, parentheses and plus signs; it succeeds exactly when what
    remains has 10 to 15 characters, all of them digits in the sense of
    [str.isdigit], which holds of the decimal digits 0 to 9 and also of
    the superscript digits; its value is then what remains, which is the
    [str.isdigit] characters of the input in their order; otherwise it
    fails with an error message. *)
Theorem validate_phone_cleaned_digits (phone : string) :
  let cleaned := Py.filter_chars (fun c => negb (phone_formatting c)) phone in
  if Py.all_chars Py.isdigit_char cleaned
     && (10 <=? Py.len cleaned)%nat && (Py.len cleaned <=? 15)%nat
  then validate_phone phone = Valid cleaned None
       /\ cleaned = Py.filter_chars Py.isdigit_char phone
  else exists error, validate_phone phone = Invalid error.
Proof.
  intros cleaned.
  assert (Hc : Re.sub separator_pattern "" phone = cleaned).
  { unfold separator_pattern. rewrite sub_one_removes. subst cleaned.
    apply filter_chars_ext. intros c. now rewrite separator_is_phone_formatting. }
  unfold validate_phone. rewrite Hc. rewrite isdigit_all_chars.
  destruct (Py.all_chars Py.isdigit_char cleaned) eqn:Hd;
    [|rewrite andb_false_r; cbn; eauto].
  destruct (10 <=? Py.len cleaned)%nat eqn:H10.
  - destruct (Py.len cleaned <=? 15)%nat eqn:H15; cbn [andb].
    + apply Nat.leb_le in H10, H15.
      assert (is_empty cleaned = false) as -> by (destruct cleaned; [cbn in H10; lia | reflexivity]).
      cbn [negb andb].
      assert ((Py.len cleaned <? 10)%nat = false) as -> by (apply Nat.ltb_ge; lia).
      assert ((15 <? Py.len cleaned)%nat = false) as -> by (apply Nat.ltb_ge; lia).
      cbn [orb]. split; [reflexivity|].
      subst cleaned. apply filter_chars_agree; [|assumption].
      intros c Hs. apply separator_not_digit.
      now rewrite separator_is_phone_formatting.
    + apply Nat.leb_gt in H15.
      assert ((15 <? Py.len cleaned)%nat = true) as -> by (apply Nat.ltb_lt; lia).
      rewrite orb_true_r. destruct (negb _); eauto.
  - apply Nat.leb_gt in H10. cbn [andb].
    assert ((Py.len cleaned <? 10)%nat = true) as -> by (apply Nat.ltb_lt; lia).
    cbn [orb]. destruct (negb _); eauto.
Qed.

Lemma backtrack_none {R : Type} (k : nat -> option R) lo n :
  (forall m, (lo <= m <= n)%nat -> k m = None) -> Re.backtrack k lo n = None.
Proof.
  induction n as [|n IH]; intros H; cbn [Re.backtrack].
  - destruct (0 <? lo)%nat eqn:Hlo; [reflexivity|].
    apply Nat.ltb_ge in Hlo. rewrite H by lia. reflexivity.
  - destruct (S n <? lo)%nat eqn:Hlo; [reflexivity|].
    apply Nat.ltb_ge in Hlo. rewrite H by lia. apply IH. intros m Hm.
    apply H. lia.
Qed.

Lemma backtrack_first {R : Type} (k : nat -> option R) lo n r :
  (lo <= n)%nat -> k n = Some r -> Re.backtrack k lo n = Some r.
Proof.
  intros Hlo Hk. destruct n as [|n]; cbn [Re.backtrack].
  - assert ((0 <? lo)%nat = false) as -> by (apply Nat.ltb_ge; lia).
    now rewrite Hk.
  - assert ((S n <? lo)%nat = false) as -> by (apply Nat.ltb_ge; lia).
    now rewrite Hk.
Qed.

Lemma run_all cls s : Py.all_chars cls s = true -> Re.run cls None s = Py.len s.
Proof.
  induction s as [|c s IH]; [reflexivity|]. cbn [Py.all_chars Re.run Py.len].
  intros H. apply andb_prop in H as [-> H]. now rewrite IH.
Qed.

Lemma drop_len s : Py.drop (Py.len s) s = EmptyString.
Proof. induction s as [|c s IH]; [reflexivity | exact IH]. Qed.

(** Below the first character outside the class, [$] does not hold,
    provided the newline is in the class. *)
Lemma no_eol_within_run cls s n :
  cls (ascii_of_N 10) = true ->
  Py.all_chars cls s = false ->
  (n <= Re.run cls None s)%nat ->
  Re.at_eol (Py.drop n s) = false.
Proof.
  intros Hnl. revert n. induction s as [|c s IH]; intros n Hall Hn;
    [discriminate|].
  cbn [Py.all_chars Re.run] in Hall, Hn. destruct (cls c) eqn:Hc.
  - cbn [andb] in Hall. destruct n as [|n].
    + cbn [Py.drop Re.at_eol]. destruct s; [discriminate | reflexivity].
    + cbn [Py.drop]. apply IH; [assumption | lia].
  - assert (n = O) as -> by lia. cbn [Py.drop Re.at_eol].
    destruct s; [|reflexivity].
    destruct (Ascii.eqb c (ascii_of_N 10)) eqn:E; [|reflexivity].
    apply Ascii.eqb_eq in E. congruence.
Qed.

(** [^[cls]+$] with [re.match], for a class that holds the newline:
    the string is not empty and all its characters are in the class. *)
Lemma rmatch_anchored_plus cls s :
  cls (ascii_of_N 10) = true ->
  is_some (Re.rmatch [Re.Bol; Re.plus cls; Re.Eol] s)
  = negb (is_empty s) && Py.all_chars cls s.
Proof.
  intros Hnl. unfold Re.rmatch. cbn [Re.match_here Re.plus].
  set (k := fun n : nat =>
              match (if Re.at_eol (Py.drop n s)
                     then Some ([EmptyString], Py.drop n s) else None)
              with
              | Some (ps, rest) => Some (Py.take n s :: ps, rest)
              | None => None
              end).
  destruct (Py.all_chars cls s) eqn:Hall.
  - rewrite (run_all _ _ Hall). destruct s as [|c s']; [reflexivity|].
    rewrite (backtrack_first k 1 (Py.len (String c s'))
               (Py.take (Py.len (String c s')) (String c s') :: [EmptyString],
                EmptyString)).
    + reflexivity.
    + cbn [Py.len]. lia.
    + subst k. cbv beta. now rewrite drop_len.
  - rewrite andb_false_r. rewrite (backtrack_none k); [reflexivity|].
    intros m Hm. subst k. cbv beta.
    rewrite (no_eol_within_run cls s m Hnl Hall); [reflexivity | lia].
Qed.

Lemma name_char_newline : name_char (ascii_of_N 10) = true.
Proof. reflexivity. Qed.

Lemma name_char_is_name_character c : name_char c = name_character c.
Proof. destruct c as [[] [] [] [] [] [] [] []]; reflexivity. Qed.

Lemma all_chars_ext (p q : ascii -> bool) s :
  (forall c, p c = q c) -> Py.all_chars p s = Py.all_chars q s.
Proof.
  intros H. induction s as [|c s IH]; [reflexivity|].
  cbn [Py.all_chars]. now rewrite H, IH.
Qed.

(** C7, as the code has it.  [validate_name] succeeds, with the trimmed
    input as its value, exactly when the trimmed input has at least 2
    characters and the input holds only the letters A to Z and a to z,
    white space, periods, hyphens and apostrophes; in every other case,
    a letter with an accent included, it fails with an error message. *)
Theorem validate_name_trimmed (name : string) :
  if (2 <=? Py.len (Py.strip name))%nat && Py.all_chars name_character name
  then validate_name name = Valid (Py.strip name) None
  else exists error, validate_name name = Invalid error.
Proof.
  unfold validate_name, name_pattern.
  rewrite (rmatch_anchored_plus name_char name name_char_newline).
  rewrite (all_chars_ext name_char name_character name name_char_is_name_character).
  destruct (2 <=? Py.len (Py.strip name))%nat eqn:H2.
  - apply Nat.leb_le in H2.
    assert ((Py.len (Py.strip name) <? 2)%nat = false) as ->
        by (apply Nat.ltb_ge; lia).
    assert (is_empty name = false) as ->
        by (destruct name; [cbn in H2; lia | reflexivity]).
    cbn [orb negb andb].
    destruct (Py.all_chars name_character name); cbn [negb]; eauto.
  - apply Nat.leb_gt in H2.
    assert ((Py.len (Py.strip name) <? 2)%nat = true) as ->
        by (apply Nat.ltb_lt; lia).
    rewrite orb_true_r. cbn [andb]. eauto.
Qed.

(* --------------------------------------------------------------------- *)
(** *** Date resolver *)
(* --------------------------------------------------------------------- *)

Lemma extract_date_of_target text l target l' :
  resolve_target text l = (Some target, l') ->
  extract_date_from_natural_language text l = (rendering target, l').
Proof.
  intros H. unfold extract_date_from_natural_language, bind. now rewrite H.
Qed.

Lemma extract_date_of_failure text l l' :
  resolve_target text l = (None, l') ->
  is_valid (fst (extract_date_from_natural_language text l)) = false.
Proof.
  intros H. unfold extract_date_from_natural_language, bind. now rewrite H.
Qed.

Lemma add_days_in_range d n :
  Dt.min_ordinal <= Dt.ordinal d + n <= Dt.max_ordinal ->
  Dt.add_days d n = Some (Dt.mk (Dt.ordinal d + n) (Dt.time_of_day d)).
Proof.
  intros [Hlo Hhi]. unfold Dt.add_days.
  apply Z.leb_le in Hlo, Hhi. now rewrite Hlo, Hhi.
Qed.

(** [Dt.ord2ymd] in two parts: the year, and the month and day within it;
    from 1000-01-01 to 9999-12-31 the year has four digits. *)
Lemma ord2ymd_parts o :
  exists y n leap,
    (Dt.ord2ymd o = (y, 12, 31) \/ (0 <= n < 365 /\ Dt.ord2ymd o = (y, fst (month_and_day n leap), snd (month_and_day n leap))))
    /\ (year_1000 <= o <= Dt.max_ordinal -> 1000 <= y <= 9999).
Proof.
  clear - o. unfold Dt.ord2ymd.
  set (n0 := o - 1).
  set (n400 := n0 / 146097). set (r1 := n0 mod 146097).
  set (n100 := r1 / 36524). set (r2 := r1 mod 36524).
  set (n4 := r2 / 1461). set (r3 := r2 mod 1461).
  set (n1 := r3 / 365). set (r4 := r3 mod 365).
  cbv zeta.
  destruct ((n1 =? 4) || (n100 =? 4)) eqn:E.
  - eexists _, 0, true. split; [left; reflexivity|].
    unfold year_1000, Dt.max_ordinal. intros Ho.
    subst n0 n400 r1 n100 r2 n4 r3 n1 r4.
    apply orb_true_iff in E. 
    revert E. rewrite !Z.eqb_eq.
    Z.div_mod_to_equations. lia.
  - exists (n400 * 400 + 1 + n100 * 100 + n4 * 4 + n1), r4,
      ((n1 =? 3) && (negb (n4 =? 24) || (n100 =? 3))). split.
    + right. split; [subst r4; apply Z.mod_pos_bound; lia|].
      unfold month_and_day. cbv zeta.
      destruct (r4 <? _); reflexivity.
    + unfold year_1000, Dt.max_ordinal. intros Ho.
      apply orb_false_iff in E. revert E. rewrite !Z.eqb_neq.
      subst n0 n400 r1 n100 r2 n4 r3 n1 r4.
      Z.div_mod_to_equations. lia.
Qed.

Lemma month_and_day_bounds n leap :
  0 <= n < 365 ->
  1 <= fst (month_and_day n leap) <= 12 /\ 1 <= snd (month_and_day n leap) <= 31.
Proof.
  intros Hn.
  assert (H : forallb (fun k => let n := Z.of_nat k in
             forallb (fun leap =>
               let md := month_and_day n leap in
               (1 <=? fst md) && (fst md <=? 12) && (1 <=? snd md) && (snd md <=? 31))
               [true; false]) (seq 0 365) = true) by (vm_compute; reflexivity).
  rewrite forallb_forall in H.
  specialize (H (Z.to_nat n)). rewrite Z2Nat.id in H by lia.
  cbv zeta in H. rewrite forallb_forall in H.
  assert (Hin : In (Z.to_nat n) (seq 0 365)) by (apply in_seq; lia).
  specialize (H Hin leap ltac:(destruct leap; cbn; auto)).
  rewrite !andb_true_iff, !Z.leb_le in H. lia.
Qed.

Lemma year_text_digits y :
  1000 <= y <= 9999 -> digits_text 4 (Dt.year_text y) = true.
Proof.
  intros Hy.
  assert (H : forallb (fun k => digits_text 4 (Dt.year_text (Z.of_nat k + 1000)))
                (seq 0 (Z.to_nat 9000)) = true) by (vm_compute; reflexivity).
  rewrite forallb_forall in H.
  specialize (H (Z.to_nat (y - 1000)) ltac:(apply in_seq; lia)).
  rewrite Z2Nat.id in H by lia. now replace (y - 1000 + 1000) with y in H by lia.
Qed.

Lemma zfill_two_digits n :
  1 <= n <= 31 -> digits_text 2 (Py.zfill 2 (Z.to_N n)) = true.
Proof.
  intros Hn.
  assert (H : forallb (fun k => digits_text 2 (Py.zfill 2 (Z.to_N (Z.of_nat k))))
                (seq 1 31) = true) by (vm_compute; reflexivity).
  rewrite forallb_forall in H.
  specialize (H (Z.to_nat n) ltac:(apply in_seq; lia)).
  now rewrite Z2Nat.id in H by lia.
Qed.

Lemma canonical_of_parts y m d :
  digits_text 4 y = true -> digits_text 2 m = true -> digits_text 2 d = true ->
  canonical_date (y +:+ "-" +:+ m +:+ "-" +:+ d) = true.
Proof.
  unfold digits_text. rewrite !andb_true_iff, !Nat.eqb_eq.
  intros [Ly Hy] [Lm Hm] [Ld Hd].
  destruct y as [|y1 [|y2 [|y3 [|y4 [|]]]]]; try discriminate Ly.
  destruct m as [|m1 [|m2 [|]]]; try discriminate Lm.
  destruct d as [|d1 [|d2 [|]]]; try discriminate Ld.
  cbn [Py.all_chars] in Hy, Hm, Hd.
  cbv [String.append canonical_date forallb].
  repeat match goal with
         | H : _ && _ = true |- _ => apply andb_prop in H as [? ?]
         end.
  repeat match goal with
         | H : Py.isdecimal _ = true |- _ => rewrite H; clear H
         end.
  reflexivity.
Qed.

(** From 1000-01-01 on, [strftime] writes a canonical date. *)
Lemma strftime_iso_canonical d :
  year_1000 <= Dt.ordinal d <= Dt.max_ordinal ->
  canonical_date (Dt.strftime_iso d) = true.
Proof.
  intros Hd. unfold Dt.strftime_iso.
  destruct (ord2ymd_parts (Dt.ordinal d)) as (y & n & leap & Hshape & Hy).
  specialize (Hy Hd).
  destruct Hshape as [-> | [Hn ->]]; cbv beta iota.
  - apply canonical_of_parts; [exact (year_text_digits y Hy) | reflexivity | reflexivity].
  - destruct (month_and_day_bounds n leap Hn) as [Hm Hday].
    apply canonical_of_parts;
      [exact (year_text_digits y Hy) | apply zfill_two_digits; lia
      | apply zfill_two_digits; lia].
Qed.

(** C9, as the code has it.  For every [now] before 9999-12-31, both calls
    succeed: ["today"] gives the rendering of the date of [now] and
    ["tomorrow"] the rendering of the date one day later; from 1000-01-01
    on, the two values are canonical YYYY-MM-DD texts. *)
Theorem tomorrow_is_today_plus_one_day (l l' : log) :
  Dt.min_ordinal <= Dt.ordinal now < Dt.max_ordinal ->
  exists next,
    Dt.ordinal next = Dt.ordinal now + 1
    /\ fst (extract_date_from_natural_language "today" l) = rendering now
    /\ fst (extract_date_from_natural_language "tomorrow" l') = rendering next
    /\ (year_1000 <= Dt.ordinal now ->
        canonical_date (Dt.strftime_iso now) = true
        /\ canonical_date (Dt.strftime_iso next) = true).
Proof.
  intros Hr. exists (Dt.mk (Dt.ordinal now + 1) (Dt.time_of_day now)).
  split; [reflexivity|]. split; [reflexivity|]. split.
  - erewrite extract_date_of_target; [reflexivity|].
    unfold resolve_target, bind, datetime_now, ret.
    cbn [String.eqb Py.strip Py.lower].
    change (String.eqb (Py.strip (Py.lower "tomorrow")) "today") with false.
    change (String.eqb (Py.strip (Py.lower "tomorrow")) "tomorrow") with true.
    cbv iota. rewrite add_days_in_range by lia. reflexivity.
  - intros Hy. split; apply strftime_iso_canonical; cbn [Dt.ordinal]; lia.
Qed.

Lemma weekday_bounds d : 0 <= Dt.weekday d <= 6.
Proof. unfold Dt.weekday. pose proof (Z.mod_pos_bound (Dt.ordinal d + 6) 7). lia. Qed.

Lemma mod7_shift a k w :
  0 <= w < 7 -> (a + k) mod 7 = w -> forall j, 0 < j < 7 -> (a + k + j) mod 7 <> w.
Proof.
  intros Hw H j Hj Hc.
  pose proof (Z.div_mod (a + k) 7 ltac:(lia)) as E1.
  pose proof (Z.div_mod (a + k + j) 7 ltac:(lia)) as E2.
  rewrite H in E1. rewrite Hc in E2. lia.
Qed.

(** The weekday rule aims at the first day after [today] that falls on
    [w], and returns it unless it lies after the last day of [datetime]. *)
Lemma next_weekday_first_occurrence today w :
  0 <= w <= 6 ->
  Dt.min_ordinal <= Dt.ordinal today <= Dt.max_ordinal ->
  exists target,
    Dt.weekday target = w
    /\ Dt.ordinal today < Dt.ordinal target <= Dt.ordinal today + 7
    /\ (forall d, Dt.ordinal today < Dt.ordinal d < Dt.ordinal target ->
                  Dt.weekday d <> w)
    /\ (Dt.weekday today = w -> Dt.ordinal target = Dt.ordinal today + 7)
    /\ next_weekday today w
       = if Dt.ordinal target <=? Dt.max_ordinal then Some target else None.
Proof.
  intros Hw [Hlo Hhi]. pose proof (weekday_bounds today) as Hwd.
  unfold next_weekday.
  set (k := if w - Dt.weekday today <=? 0
            then w - Dt.weekday today + 7 else w - Dt.weekday today).
  assert (Hk : 1 <= k <= 7 /\ (k = w - Dt.weekday today \/ k = w - Dt.weekday today + 7)).
  { subst k. destruct (w - Dt.weekday today <=? 0) eqn:E;
      [apply Z.leb_le in E | apply Z.leb_gt in E]; lia. }
  destruct Hk as [Hk Hk'].
  exists (Dt.mk (Dt.ordinal today + k) (Dt.time_of_day today)).
  assert (Htarget : (Dt.ordinal today + k + 6) mod 7 = w).
  { unfold Dt.weekday in Hk', Hwd.
    pose proof (Z.div_mod (Dt.ordinal today + 6) 7 ltac:(lia)) as E.
    destruct Hk' as [-> | ->].
    - replace (Dt.ordinal today + (w - (Dt.ordinal today + 6) mod 7) + 6)
        with (w + (Dt.ordinal today + 6) / 7 * 7) by lia.
      rewrite Z.mod_add by lia. apply Z.mod_small. lia.
    - replace (Dt.ordinal today + (w - (Dt.ordinal today + 6) mod 7 + 7) + 6)
        with (w + ((Dt.ordinal today + 6) / 7 + 1) * 7) by lia.
      rewrite Z.mod_add by lia. apply Z.mod_small. lia. }
  unfold Dt.weekday at 1. cbn [Dt.ordinal].
  split; [exact Htarget|]. split; [lia|]. split; [|split].
  - intros d Hd Hc. unfold Dt.weekday in Hc.
    assert (Hback : (Dt.ordinal d + 6 + (Dt.ordinal today + k - Dt.ordinal d)) mod 7 = w)
      by (rewrite <- Htarget; f_equal; lia).
    revert Hback.
    apply (mod7_shift (Dt.ordinal d) 6 w); [lia | exact Hc | lia].
  - intros Heq. lia.
  - unfold Dt.add_days.
    assert ((Dt.min_ordinal <=? Dt.ordinal today + k) = true) as ->
        by (apply Z.leb_le; lia).
    reflexivity.
Qed.

Ltac split_orb :=
  repeat match goal with
         | H : (_ || _) = false |- _ => apply orb_false_elim in H; destruct H
         end.

Ltac take_false_branches :=
  repeat match goal with
         | H : ?b = false |- context [if ?b then _ else _] => rewrite H
         end.

(** An input that mentions a weekday is neither ["today"] nor ["tomorrow"]. *)
Lemma mention_is_not_a_day_word w t :
  (w < 7)%nat -> mentions (weekday_name w) t = true ->
  String.eqb t "today" = false /\ String.eqb t "tomorrow" = false.
Proof.
  intros Hw Hm. split.
  - destruct (String.eqb t "today") eqn:E; [|reflexivity].
    apply String.eqb_eq in E. subst t.
    do 7 (destruct w as [|w]; [vm_compute in Hm; discriminate|]). lia.
  - destruct (String.eqb t "tomorrow") eqn:E; [|reflexivity].
    apply String.eqb_eq in E. subst t.
    do 7 (destruct w as [|w]; [vm_compute in Hm; discriminate|]). lia.
Qed.

(** When the rule of weekday [w] is the first that applies, the resolver
    reads the clock and takes the branch of [w]. *)
Lemma resolve_target_weekday w text l :
  (w < 7)%nat ->
  mentions (weekday_name w) (Py.strip (Py.lower text)) = true ->
  earlier_rule w (Py.strip (Py.lower text)) = false ->
  resolve_target text l = (next_weekday now (Z.of_nat w), l ++ [EvNow]).
Proof.
  intros Hw Hm He.
  destruct (mention_is_not_a_day_word w _ Hw Hm) as [Htoday Htomorrow].
  unfold resolve_target, bind, datetime_now, ret.
  rewrite Htoday, Htomorrow. unfold earlier_rule in He.
  do 7 (destruct w as [|w];
        [ cbn [weekday_name weekday_names nth] in Hm;
          cbn [firstn existsb weekday_names] in He;
          split_orb; take_false_branches; rewrite Hm; reflexivity |]).
  lia.
Qed.

(** C8, as the code has it.  When the input mentions "next <w>" or
    "coming <w>" and no earlier rule of the resolver applies ("next week",
    "next month", a weekday before [w] in the order Monday to Sunday), the
    resolver aims at the first day after today that falls on [w], which is
    seven days after today when today falls on [w]; it returns the
    rendering of that day, unless the day lies after 9999-12-31, the last
    day of [datetime]: then the call fails. *)
Theorem next_weekday_is_the_next_occurrence (w : nat) (text : string) (l : log) :
  (w < 7)%nat ->
  mentions (weekday_name w) (Py.strip (Py.lower text)) = true ->
  earlier_rule w (Py.strip (Py.lower text)) = false ->
  Dt.min_ordinal <= Dt.ordinal now <= Dt.max_ordinal ->
  exists target,
    Dt.weekday target = Z.of_nat w
    /\ Dt.ordinal now < Dt.ordinal target
    /\ (forall d, Dt.ordinal now < Dt.ordinal d < Dt.ordinal target ->
                  Dt.weekday d <> Z.of_nat w)
    /\ (Dt.weekday now = Z.of_nat w -> Dt.ordinal target = Dt.ordinal now + 7)
    /\ fst (extract_date_from_natural_language text l)
       = if Dt.ordinal target <=? Dt.max_ordinal
         then rendering target else could_not_parse text.
Proof.
  intros Hw Hm He Hr.
  destruct (next_weekday_first_occurrence now (Z.of_nat w) ltac:(lia) Hr)
    as (target & Hday & Hafter & Hfirst & Hsame & Hnext).
  exists target. split; [exact Hday|]. split; [lia|].
  split; [exact Hfirst|]. split; [exact Hsame|].
  unfold extract_date_from_natural_language, bind.
  rewrite (resolve_target_weekday w text l Hw Hm He), Hnext.
  now destruct (Dt.ordinal target <=? Dt.max_ordinal).
Qed.

(* --------------------------------------------------------------------- *)
(** *** A turn that fills two fields *)
(* --------------------------------------------------------------------- *)

Lemma two_field_phone_matches :
  Re.findall phone_pattern two_field_utterance = ["555-123-4567"].
Proof. vm_compute. reflexivity. Qed.

Lemma two_field_phone_valid :
  validate_phone "555-123-4567" = Valid "5551234567" None.
Proof. vm_compute. reflexivity. Qed.

Lemma two_field_email_matches :
  Re.findall email_pattern two_field_utterance = ["john.doe@example.com"].
Proof. vm_compute. reflexivity. Qed.

(** No rule of the resolver applies to the utterance: it goes to the fuzzy
    parser. *)
Lemma two_field_date_goes_to_parser l :
  resolve_target two_field_utterance l
  = (parser_parse two_field_utterance,
     l ++ [EvNow; EvParserParse two_field_utterance]).
Proof.
  unfold resolve_target, bind, datetime_now, parse_fuzzy, ret.
  set (t := Py.strip (Py.lower two_field_utterance)).
  change (String.eqb t "today") with false.
  change (String.eqb t "tomorrow") with false.
  change (Py.contains "next week" t) with false.
  change (Py.contains "next month" t) with false.
  change (mentions "monday" t) with false.
  change (mentions "tuesday" t) with false.
  change (mentions "wednesday" t) with false.
  change (mentions "thursday" t) with false.
  change (mentions "friday" t) with false.
  change (mentions "saturday" t) with false.
  change (mentions "sunday" t) with false.
  change (Py.contains "in" t) with false.
  cbv iota. cbn [andb]. cbv iota. now rewrite <- app_assoc.
Qed.

Lemma is_missing_insert (m : gmap string string) k v f :
  is_missing (<[k := v]> m) f
  = if String.eqb k f then is_empty v else is_missing m f.
Proof.
  unfold is_missing. destruct (String.eqb_spec k f) as [->|Hne].
  - now rewrite lookup_insert_eq.
  - now rewrite lookup_insert_ne.
Qed.

Lemma is_missing_singleton k v f :
  is_missing ({[k := v]} : gmap string string) f
  = if String.eqb k f then is_empty v else true.
Proof.
  unfold is_missing. destruct (String.eqb_spec k f) as [->|Hne].
  - now rewrite lookup_singleton_eq.
  - now rewrite lookup_singleton_ne.
Qed.

Ltac eval_missing :=
  unfold missing_fields, required_fields; cbn [List.filter];
  rewrite ?is_missing_insert, ?is_missing_singleton;
  cbn [String.eqb Ascii.eqb Bool.eqb is_empty].

(** C4. From ["Email is john.doe@example.com and phone 555-123-4567"] with
    only the name recorded, when the e-mail checker accepts the address
    (with a normalized address that is not empty) and the fuzzy date parse
    of the utterance fails, the turn records the phone and the e-mail, the
    only missing field is the date, and the question asks for the date. *)
Theorem email_and_phone_in_one_turn (st : AgentState) (l : log) (normalized : string) :
  user_input st = "Email is john.doe@example.com and phone 555-123-4567" ->
  appointment_data st = {["name" := "John Doe"]} ->
  check_email "john.doe@example.com" = Accepted normalized ->
  normalized <> "" ->
  parser_parse "Email is john.doe@example.com and phone 555-123-4567" = None ->
  let st' := fst (handle_appointment_booking st l) in
  appointment_data st'
  = <["email" := normalized]> (<["phone" := "5551234567"]> {["name" := "John Doe"]})
  /\ missing_fields (appointment_data st') = ["date"]
  /\ response st'
     = lines
         [ "Phone number recorded: 5551234567";
           "Email recorded: " +:+ normalized;
           "";
           "When would you like to schedule your appointment? (You can say things like 'next Monday', 'tomorrow', 'in 3 days', etc.)" ]
  /\ next_action st' = "continue".
Proof.
  intros Hu Hd Hemail Hne Hparse st'. subst st'.
  fold two_field_utterance in Hu, Hparse.
  assert (Hmissing :
            missing_fields (<["email" := normalized]>
                              (<["phone" := "5551234567"]> {["name" := "John Doe"]}))
            = ["date"]).
  { eval_missing. destruct normalized; [congruence | reflexivity]. }
  unfold handle_appointment_booking. rewrite Hu, Hd.
  assert (missing_fields ({["name" := "John Doe"]} : gmap string string)
          = ["phone"; "email"; "date"]) as -> by (eval_missing; reflexivity).
  unfold bind, check_for_name.
  rewrite is_missing_singleton. cbn [String.eqb Ascii.eqb Bool.eqb is_empty ret].
  unfold check_for_phone.
  rewrite is_missing_singleton. cbn [String.eqb Ascii.eqb Bool.eqb].
  rewrite two_field_phone_matches, two_field_phone_valid. cbn [ret].
  unfold check_for_email.
  rewrite is_missing_insert, is_missing_singleton.
  cbn [String.eqb Ascii.eqb Bool.eqb].
  rewrite two_field_email_matches.
  unfold bind, validate_email_address, bind, validate_email, ret.
  rewrite Hemail. cbv iota beta.
  unfold check_for_date.
  assert (is_missing
            (<["email" := normalized]>
               (<["phone" := "5551234567"]> {["name" := "John Doe"]})) "date" = true)
    as ->.
  { rewrite !is_missing_insert, is_missing_singleton. reflexivity. }
  unfold bind, extract_date_from_natural_language, bind.
  rewrite two_field_date_goes_to_parser, Hparse. cbn [ret fst].
  unfold conclude. rewrite Hmissing.
  cbn [set_response set_next_action set_appointment_data appointment_data
       response next_action].
  split; [reflexivity|]. split; [assumption|]. split; [|reflexivity].
  unfold ask_for, lines. cbn [member existsb String.eqb Ascii.eqb Bool.eqb orb].
  unfold acknowledgments. cbn [app Py.join].
  rewrite !append_assoc. reflexivity.
Qed.

(* --------------------------------------------------------------------- *)
(** *** The classifier, the document handler and the graph *)
(* --------------------------------------------------------------------- *)

Lemma invocations_app l1 l2 : invocations (l1 ++ l2) = (invocations l1 + invocations l2)%nat.
Proof. unfold invocations. now rewrite List.filter_app, List.length_app. Qed.

(** The classifier calls the service once and touches nothing but the
    intent, which it sets to one of the two routes. *)
Lemma classify_intent_result st l :
  exists i delta,
    classify_intent st l = (set_intent i st, l ++ delta)
    /\ is_intent i /\ invocations delta = 1%nat.
Proof.
  unfold classify_intent, bind, invoke, print, emit, ret, is_intent.
  destruct (complete l llm (classify_prompt (user_input st))) as [text|e].
  - repeat match goal with
           | |- context [if ?b then _ else _] => destruct b
           end;
      eexists; exists [EvInvoke llm (classify_prompt (user_input st))];
      (split; [reflexivity | split; [auto | reflexivity]]).
  - eexists. eexists. split; [rewrite <- app_assoc; reflexivity|].
    split; [auto | reflexivity].
Qed.

(** X1. Whatever the completion service does, [classify_intent] returns
    the state it was given with only [intent] changed, and the intent is
    [document_query] or [appointment_booking]. *)
Theorem classify_intent_sets_only_the_intent (st : AgentState) (l : log) :
  let st' := fst (classify_intent st l) in
  is_intent (intent st') /\ st' = set_intent (intent st') st.
Proof.
  destruct (classify_intent_result st l) as (i & delta & Heq & Hi & _).
  cbn zeta. rewrite Heq. cbn [fst set_intent intent]. split; [exact Hi|].
  reflexivity.
Qed.

Lemma query_documents_log q d l :
  exists delta,
    snd (query_documents q d l) = l ++ delta /\ (invocations delta <= 1)%nat.
Proof.
  unfold query_documents. destruct (is_empty d).
  - exists []. cbn [ret snd]. rewrite app_nil_r. split; [reflexivity | cbn; lia].
  - unfold bind, invoke, print, emit, ret.
    destruct (complete l _ _) as [text|e].
    + eexists [_]. destruct (_ && _); cbn [snd]; (split; [reflexivity | cbn; lia]).
    + eexists [_; _].
      destruct (negb _); cbn [snd]; rewrite <- app_assoc;
        (split; [reflexivity | cbn; lia]).
Qed.

(** The document handler: the answer of the service or the apology, the
    signal [complete], and nothing else changed. *)
Lemma handle_document_query_result st l :
  exists answer delta,
    handle_document_query st l
    = (set_next_action "complete" (set_response answer st), l ++ delta)
    /\ (1 <= invocations delta <= 2)%nat
    /\ ((forall l' c p, exists e, complete l' c p = Raises e) ->
        exists e, answer = apology e).
Proof.
  unfold handle_document_query, bind.
  destruct (query_documents_log (user_input st) (documents_content st) l)
    as (d1 & Hl1 & Hn1).
  destruct (query_documents (user_input st) (documents_content st) l)
    as [info l1]. cbn [snd] in Hl1. subst l1.
  unfold invoke, ret.
  destruct (complete (l ++ d1) llm (answer_prompt info (user_input st)))
    as [answer|e] eqn:Hc.
  - exists answer, (d1 ++ [EvInvoke llm (answer_prompt info (user_input st))]).
    split; [now rewrite <- app_assoc|]. split.
    + rewrite invocations_app. cbn. lia.
    + intros Hfail.
      destruct (Hfail (l ++ d1) llm (answer_prompt info (user_input st))) as [e He].
      congruence.
  - exists (apology e), (d1 ++ [EvInvoke llm (answer_prompt info (user_input st))]).
    split; [now rewrite <- app_assoc|]. split.
    + rewrite invocations_app. cbn. lia.
    + intros _. now exists e.
Qed.

(** The four extraction steps of a turn that starts with a missing field. *)
Lemma booking_turn_steps st l :
  missing_fields (appointment_data st) <> [] ->
  exists a1 l1 a2 l2 a3 l3 a4 l4,
    check_for_name (user_input st) (appointment_data st, []) l = (a1, l1)
    /\ check_for_phone (user_input st) a1 l1 = (a2, l2)
    /\ check_for_email (user_input st) a2 l2 = (a3, l3)
    /\ check_for_date (user_input st) a3 l3 = (a4, l4)
    /\ handle_appointment_booking st l = (conclude st a4, l4).
Proof.
  intros Hm. unfold handle_appointment_booking.
  destruct (missing_fields (appointment_data st)); [congruence|]. unfold bind.
  destruct (check_for_name _ _ l) as [a1 l1] eqn:E1.
  destruct (check_for_phone _ a1 l1) as [a2 l2] eqn:E2.
  destruct (check_for_email _ a2 l2) as [a3 l3] eqn:E3.
  destruct (check_for_date _ a3 l3) as [a4 l4] eqn:E4.
  exists a1, l1, a2, l2, a3, l3, a4, l4. repeat split; assumption || reflexivity.
Qed.

Lemma check_for_name_invocations u acc l :
  exists delta,
    snd (check_for_name u acc l) = l ++ delta /\ (invocations delta <= 1)%nat.
Proof.
  destruct acc as [d parts]. unfold check_for_name.
  destruct (is_missing d "name").
  - unfold bind, invoke, ret. exists [EvInvoke llm (name_prompt u)].
    destruct (complete l llm (name_prompt u)) as [text|e];
      [destruct (_ && _); [destruct (validate_name _)|]|];
      cbn [snd]; (split; [reflexivity | cbn; lia]).
  - exists []. cbn [ret snd]. rewrite app_nil_r. split; [reflexivity | cbn; lia].
Qed.

(** A step for a field other than the name does not call the service. *)
Lemma extraction_without_invocation field acc l r :
  field <> "name" -> extraction_of field acc l r ->
  exists delta, snd r = l ++ delta /\ invocations delta = 0%nat.
Proof.
  intros Hne (delta & Hl & Hall & _). exists delta. split; [exact Hl|].
  clear Hl. unfold invocations.
  induction Hall as [|e delta He _ IH]; [reflexivity|].
  destruct e; cbn [List.filter is_invoke slot_of_event] in He |- *;
    first [exact IH | injection He as <-; congruence].
Qed.

Lemma conclude_intent st acc : intent (conclude st acc) = intent st.
Proof.
  destruct acc as [d parts]. unfold conclude. now destruct (missing_fields d).
Qed.

(** The booking handler: recorded fields are kept, the intent is not
    touched, and the service is called at most once. *)
Lemma handle_appointment_booking_result st l :
  exists final delta,
    handle_appointment_booking st l = (final, l ++ delta)
    /\ intent final = intent st
    /\ (forall k v, recorded (appointment_data st) k v ->
                    recorded (appointment_data final) k v)
    /\ (invocations delta <= 1)%nat.
Proof.
  destruct (missing_fields (appointment_data st)) as [|f0 rest0] eqn:Hm0.
  - unfold handle_appointment_booking. rewrite Hm0. eexists. exists [].
    cbn [ret]. rewrite app_nil_r. split; [reflexivity|].
    cbn [set_next_action set_response intent appointment_data].
    split; [reflexivity|]. split; [auto | cbn; lia].
  - destruct (booking_turn st l) as (acc & delta & Heq & Hkeep & _ & _);
      [congruence|].
    destruct (booking_turn_steps st l)
      as (a1 & l1 & a2 & l2 & a3 & l3 & a4 & l4 & E1 & E2 & E3 & E4 & E);
      [congruence|].
    destruct (check_for_name_invocations (user_input st) (appointment_data st, []) l)
      as (d1 & D1 & N1).
    rewrite E1 in D1. cbn [snd] in D1.
    pose proof (check_for_phone_extraction (user_input st) a1 l1) as H2.
    pose proof (check_for_email_extraction (user_input st) a2 l2) as H3.
    pose proof (check_for_date_extraction (user_input st) a3 l3) as H4.
    apply extraction_without_invocation in H2 as (d2 & D2 & N2); [|discriminate].
    apply extraction_without_invocation in H3 as (d3 & D3 & N3); [|discriminate].
    apply extraction_without_invocation in H4 as (d4 & D4 & N4); [|discriminate].
    rewrite E2 in D2. rewrite E3 in D3. rewrite E4 in D4. cbn [snd] in D2, D3, D4.
    rewrite Heq in E. injection E as Eacc El.
    exists (conclude st acc), delta. split; [exact Heq|].
    split; [apply conclude_intent|]. split.
    + intros k v Hrec. rewrite conclude_appointment_data. now apply Hkeep.
    + assert (delta = d1 ++ d2 ++ d3 ++ d4) as ->.
      { apply (app_inv_head l). rewrite El, D4, D3, D2, D1.
        now rewrite <- !app_assoc. }
      rewrite !invocations_app. lia.
Qed.

(** One pass through the graph. *)
Lemma agent_graph_invoke_result st l :
  exists final delta,
    agent_graph_invoke st l = (Some final, l ++ delta)
    /\ is_intent (intent final)
    /\ (intent final = "document_query" ->
        appointment_data final = appointment_data st)
    /\ (forall k v, recorded (appointment_data st) k v ->
                    recorded (appointment_data final) k v)
    /\ (1 <= invocations delta <= 3)%nat
    /\ (intent final = "appointment_booking" -> (invocations delta <= 2)%nat)
    /\ ((forall l' c p, exists e, complete l' c p = Raises e) ->
        intent final = "document_query" /\ exists e, response final = apology e).
Proof.
  unfold agent_graph_invoke, bind, route_intent.
  destruct (classify_intent_result st l) as (i & d0 & Hc & Hi & N0).
  rewrite Hc. cbn [set_intent intent].
  destruct Hi as [-> | ->]; cbn [String.eqb Ascii.eqb Bool.eqb].
  - destruct (handle_document_query_result (set_intent "document_query" st) (l ++ d0))
      as (answer & d1 & Hh & N1 & Hfail).
    rewrite Hh. cbn [ret].
    eexists. exists (d0 ++ d1). split; [now rewrite app_assoc|].
    cbn [set_next_action set_response set_intent intent appointment_data response].
    split; [now left|]. split; [reflexivity|]. split; [auto|].
    split; [|split].
    + rewrite invocations_app. lia.
    + discriminate.
    + intros H. split; [reflexivity | now apply Hfail].
  - destruct (handle_appointment_booking_result
                (set_intent "appointment_booking" st) (l ++ d0))
      as (final & d1 & Hh & Hint & Hkeep & N1).
    rewrite Hh. cbn [ret]. exists final, (d0 ++ d1).
    split; [now rewrite app_assoc|].
    cbn [set_intent intent appointment_data] in Hint, Hkeep.
    split; [right; exact Hint|]. split; [rewrite Hint; discriminate|].
    split; [exact Hkeep|]. split; [|split].
    + rewrite invocations_app. lia.
    + intros _. rewrite invocations_app. lia.
    + intros H. exfalso. revert Hc. unfold classify_intent, bind, invoke.
      destruct (H l llm (classify_prompt (user_input st))) as [e ->].
      unfold print, emit, ret. intros Hset.
      apply (f_equal (fun r => intent (fst r))) in Hset. cbn in Hset.
      discriminate.
Qed.

(** The result of [run_agent], read off the final state of the graph. *)
Lemma run_agent_result u s l :
  exists final delta,
    run_agent u s l
    = (Some {| result_response := response final;
               result_intent := intent final;
               result_session_data :=
                 {| session_appointment_data := appointment_data final;
                    session_conversation_history :=
                      session_conversation_history (default fresh_session_data s)
                      ++ [(u, response final)];
                    session_documents_content :=
                      session_documents_content (default fresh_session_data s) |} |},
       l ++ delta)
    /\ is_intent (intent final)
    /\ (intent final = "document_query" ->
        appointment_data final
        = session_appointment_data (default fresh_session_data s))
    /\ (forall k v,
           recorded (session_appointment_data (default fresh_session_data s)) k v ->
           recorded (appointment_data final) k v)
    /\ (1 <= invocations delta <= 3)%nat
    /\ (intent final = "appointment_booking" -> (invocations delta <= 2)%nat)
    /\ ((forall l' c p, exists e, complete l' c p = Raises e) ->
        intent final = "document_query" /\ exists e, response final = apology e).
Proof.
  unfold run_agent, bind.
  set (s0 := default fresh_session_data s).
  set (st0 := {| messages := [u]; user_input := u; intent := "";
                 appointment_data := session_appointment_data s0;
                 conversation_history := session_conversation_history s0;
                 documents_content := session_documents_content s0;
                 response := ""; next_action := "" |}).
  destruct (agent_graph_invoke_result st0 l)
    as (final & delta & Hg & Hi & Hdoc & Hkeep & Hn & Hbook & Hfail).
  rewrite Hg. exists final, delta. split; [reflexivity|].
  split; [exact Hi|]. split; [exact Hdoc|]. split; [exact Hkeep|].
  split; [exact Hn|]. split; [exact Hbook | exact Hfail].
Qed.


(** On a session that holds the three keys, and on no session, the call
    on the dict is the call on the record. *)
Lemma run_agent_on_full_dict u s l :
  run_agent_on_dict u (option_map as_dict s) l
  = (as_outcome (fst (run_agent u s l)), snd (run_agent u s l)).
Proof.
  unfold run_agent_on_dict, run_agent, bind.
  destruct s as [s|]; cbn;
    match goal with
    | |- context [agent_graph_invoke ?st l] =>
        destruct (agent_graph_invoke st l) as [[final|] l']; reflexivity
    end.
Qed.

(** X2. [run_agent] returns a result exactly when the session it is given
    holds [conversation_history], or when no session is given.  The
    result has one of the two intents; its history is the one given with
    exactly one entry appended, the pair of the utterance and the
    returned response; [appointment_data] is set and [documents_content]
    is as it was.  On a dict without [conversation_history] the call
    raises [KeyError] for that key, after the graph has run and the
    service was called, and after [appointment_data] was set in the
    caller's dict. *)
Theorem run_agent_appends_the_turn (u : string) (s : option SessionDict) (l : log) :
  let given := default fresh_session_dict s in
  let r := run_agent_on_dict u s l in
  (exists delta, snd r = l ++ delta /\ (1 <= invocations delta)%nat)
  /\ match dict_conversation_history given with
     | Some history =>
         exists result,
           fst r = Returns result
           /\ is_intent (dict_intent result)
           /\ dict_conversation_history (dict_session_data result)
              = Some (history ++ [(u, dict_response result)])
           /\ is_Some (dict_appointment_data (dict_session_data result))
           /\ dict_documents_content (dict_session_data result)
              = dict_documents_content given
     | None =>
         exists left,
           fst r = KeyError "conversation_history" left
           /\ dict_conversation_history left = None
           /\ is_Some (dict_appointment_data left)
           /\ dict_documents_content left = dict_documents_content given
     end.
Proof.
  intros given r. subst r. unfold run_agent_on_dict, bind. fold given.
  match goal with
  | |- context [agent_graph_invoke ?st l] =>
      destruct (agent_graph_invoke_result st l)
        as (final & delta & Hg & Hi & _ & _ & Hn & _)
  end.
  rewrite Hg. split.
  - exists delta. split; [|lia].
    now destruct (dict_conversation_history given).
  - destruct (dict_conversation_history given) as [history|];
      eexists; (split; [reflexivity|]); cbn [dict_intent dict_session_data
        dict_conversation_history dict_appointment_data dict_documents_content
        dict_response]; eauto.
Qed.

(** X3. A turn that is routed to the document handler leaves
    [appointment_data] as it was: a question in the middle of a booking
    loses none of the fields collected so far. *)
Theorem document_turn_keeps_appointment_data
    (u : string) (s : option SessionData) (l : log) (r : AgentResult) :
  fst (run_agent u s l) = Some r ->
  result_intent r = "document_query" ->
  session_appointment_data (result_session_data r)
  = session_appointment_data (default fresh_session_data s).
Proof.
  destruct (run_agent_result u s l) as (final & delta & Heq & _ & Hdoc & _).
  rewrite Heq. cbn [fst]. intros [= <-].
  cbn [result_intent result_session_data session_appointment_data].
  exact Hdoc.
Qed.

Lemma converse_result us s l :
  exists s' answers,
    fst (converse us s l) = Some s'
    /\ length answers = length us
    /\ session_conversation_history s'
       = session_conversation_history s ++ combine us answers
    /\ session_documents_content s' = session_documents_content s
    /\ (forall k v, recorded (session_appointment_data s) k v ->
                    recorded (session_appointment_data s') k v).
Proof.
  revert s l. induction us as [|u us IH]; intros s l.
  - exists s, []. cbn [converse ret fst combine]. rewrite app_nil_r. auto.
  - cbn [converse]. unfold bind.
    destruct (run_agent_result u (Some s) l)
      as (final & delta & Heq & _ & _ & Hkeep & _).
    rewrite Heq. cbn [default] in *.
    match goal with
    | |- context [converse us ?s1 ?l1] =>
        destruct (IH s1 l1) as (s' & answers & Hc & Hlen & Hhist & Hdocs & Hrec)
    end.
    cbn [result_session_data session_conversation_history
         session_documents_content session_appointment_data] in *.
    exists s', (response final :: answers). split; [exact Hc|].
    split; [cbn; lia|]. split.
    + rewrite Hhist, <- app_assoc. reflexivity.
    + split; [exact Hdocs|]. intros k v H. apply Hrec, Hkeep, H.
Qed.

(** X4. Over any sequence of turns of one session, whatever the service
    answers and whichever way each turn is routed, a field of
    [appointment_data] that is present and not empty keeps its value. *)
Theorem conversation_keeps_recorded_fields
    (us : list string) (s : SessionData) (l : log) (field value : string) :
  recorded (session_appointment_data s) field value ->
  exists s',
    fst (converse us s l) = Some s'
    /\ session_appointment_data s' !! field = Some value.
Proof.
  intros Hrec.
  destruct (converse_result us s l) as (s' & answers & Hc & _ & _ & _ & Hkeep).
  exists s'. split; [exact Hc|]. apply (Hkeep field value Hrec).
Qed.

(** X5. After any sequence of turns the conversation history is the
    history before it followed by one entry per utterance, in order, each
    pairing the utterance with a response; [documents_content] is the one
    the session had. *)
Theorem conversation_history_is_the_transcript
    (us : list string) (s : SessionData) (l : log) :
  exists s' answers,
    fst (converse us s l) = Some s'
    /\ length answers = length us
    /\ session_conversation_history s'
       = session_conversation_history s ++ combine us answers
    /\ session_documents_content s' = session_documents_content s.
Proof.
  destruct (converse_result us s l) as (s' & answers & Hc & Hlen & Hhist & Hdocs & _).
  now exists s', answers.
Qed.

Lemma complete_record_unchanged_by_the_graph st l :
  missing_fields (appointment_data st) = [] ->
  exists final,
    fst (agent_graph_invoke st l) = Some final
    /\ appointment_data final = appointment_data st.
Proof.
  intros Hm. unfold agent_graph_invoke, bind, route_intent.
  destruct (classify_intent_result st l) as (i & d0 & Hc & Hi & _).
  rewrite Hc. cbn [set_intent intent].
  destruct Hi as [-> | ->]; cbn [String.eqb Ascii.eqb Bool.eqb].
  - destruct (handle_document_query_result (set_intent "document_query" st) (l ++ d0))
      as (answer & d1 & Hh & _).
    rewrite Hh. cbn [ret fst]. eexists. split; reflexivity.
  - unfold handle_appointment_booking.
    cbn [set_intent appointment_data]. rewrite Hm. cbn [ret fst].
    eexists. split; reflexivity.
Qed.

(** X29. A complete record is terminal: once the four required fields are
    present and not empty, no sequence of turns changes [appointment_data]
    in any way, whatever the utterances and the answers of the service; a
    second booking needs the record to be reset from outside. *)
Theorem complete_record_is_terminal (us : list string) (s : SessionData) (l : log) :
  missing_fields (session_appointment_data s) = [] ->
  exists s',
    fst (converse us s l) = Some s'
    /\ session_appointment_data s' = session_appointment_data s.
Proof.
  revert s l. induction us as [|u us IH]; intros s l Hm.
  - exists s. now split.
  - cbn [converse]. unfold bind, run_agent, bind. cbn [default].
    match goal with
    | |- context [agent_graph_invoke ?st0 l] =>
        destruct (complete_record_unchanged_by_the_graph st0 l Hm) as (final & Hg & Hd);
        destruct (agent_graph_invoke st0 l) as [result l1]
    end.
    cbn [fst appointment_data] in Hg, Hd. subst result. cbn [ret].
    match goal with
    | |- context [converse us ?s1 l1] =>
        destruct (IH s1 l1) as (s' & Hc & Hs');
        [cbn [result_session_data session_appointment_data]; now rewrite Hd|]
    end.
    exists s'. split; [exact Hc|].
    rewrite Hs'. cbn [result_session_data session_appointment_data]. exact Hd.
Qed.

(** X6. When every call to the completion service raises, a turn is
    routed to the document handler, its response is the apology carrying
    the error text, and [appointment_data] is unchanged: no field can be
    collected while the service is down, not even a phone number or an
    e-mail address that the regular expressions alone would find. *)
Theorem failing_service_answers_with_the_apology
    (u : string) (s : option SessionData) (l : log) :
  (forall l' c p, exists e, complete l' c p = Raises e) ->
  exists r e,
    fst (run_agent u s l) = Some r
    /\ result_intent r = "document_query"
    /\ result_response r = "I apologize, but I encountered an error: " +:+ e
    /\ session_appointment_data (result_session_data r)
       = session_appointment_data (default fresh_session_data s).
Proof.
  intros Hfail.
  destruct (run_agent_result u s l)
    as (final & delta & Heq & _ & Hdoc & _ & _ & _ & Hdown).
  destruct (Hdown Hfail) as (Hi & e & He).
  rewrite Heq. eexists. exists e. split; [reflexivity|].
  cbn [result_intent result_response result_session_data session_appointment_data].
  split; [exact Hi|]. split; [exact He | exact (Hdoc Hi)].
Qed.

(** X7. A turn calls the completion service at least once and at most
    three times, and at most twice when it is routed to the booking
    handler. *)
Theorem turn_calls_the_service_at_most_three_times
    (u : string) (s : option SessionData) (l : log) :
  exists r delta,
    run_agent u s l = (Some r, l ++ delta)
    /\ (1 <= invocations delta <= 3)%nat
    /\ (result_intent r = "appointment_booking" -> (invocations delta <= 2)%nat).
Proof.
  destruct (run_agent_result u s l)
    as (final & delta & Heq & _ & _ & _ & Hn & Hbook & _).
  rewrite Heq. eexists. exists delta. split; [reflexivity|].
  split; [exact Hn | exact Hbook].
Qed.

(** X8. The booking handler signals [complete] exactly when no required
    field is missing after the turn, and [continue] otherwise. *)
Theorem complete_exactly_when_nothing_is_missing (st : AgentState) (l : log) :
  let st' := fst (handle_appointment_booking st l) in
  next_action st'
  = match missing_fields (appointment_data st') with
    | [] => "complete"
    | _ :: _ => "continue"
    end.
Proof.
  cbn zeta.
  destruct (missing_fields (appointment_data st)) as [|f0 rest0] eqn:Hm0.
  - unfold handle_appointment_booking. rewrite Hm0.
    cbn [ret fst set_next_action set_response appointment_data next_action].
    now rewrite Hm0.
  - destruct (booking_turn st l) as (acc & delta & Heq & _); [congruence|].
    rewrite Heq. cbn [fst]. rewrite conclude_appointment_data.
    destruct acc as [d parts]. cbn [fst]. unfold conclude.
    now destruct (missing_fields d).
Qed.

(* --------------------------------------------------------------------- *)
(** *** What a match is made of *)
(* --------------------------------------------------------------------- *)

Lemma all_chars_append P a b :
  Py.all_chars P (a +:+ b) = Py.all_chars P a && Py.all_chars P b.
Proof.
  induction a as [|x a IH]; [reflexivity|].
  change (P x && Py.all_chars P (a +:+ b)
          = (P x && Py.all_chars P a) && Py.all_chars P b).
  now rewrite IH, andb_assoc.
Qed.

Lemma backtrack_some_range {R : Type} (k : nat -> option R) lo n r :
  Re.backtrack k lo n = Some r -> exists m, (lo <= m <= n)%nat /\ k m = Some r.
Proof.
  induction n as [|n IH]; cbn [Re.backtrack].
  - destruct (0 <? lo)%nat eqn:Hlo; [discriminate|]. apply Nat.ltb_ge in Hlo.
    destruct (k O) eqn:E; [|discriminate]. intros [= <-]. exists O. split; [lia|exact E].
  - destruct (S n <? lo)%nat eqn:Hlo; [discriminate|]. apply Nat.ltb_ge in Hlo.
    destruct (k (S n)) eqn:E.
    + intros [= <-]. exists (S n). split; [lia|exact E].
    + intros H. destruct (IH H) as (m & Hm & Hk). exists m. split; [lia|exact Hk].
Qed.

(** The characters a quantifier takes are in its class. *)
Lemma take_within_run cls hi s m :
  (m <= Re.run cls hi s)%nat -> Py.all_chars cls (Py.take m s) = true.
Proof.
  revert hi m. induction s as [|c s IH]; intros hi m Hm.
  - now destruct m.
  - destruct m as [|m]; [reflexivity|]. cbn [Py.take Py.all_chars].
    cbn [Re.run] in Hm. destruct hi as [[|h]|]; try lia;
      destruct (cls c); try lia; cbn [andb]; (eapply IH; apply Nat.succ_le_mono, Hm).
Qed.

Lemma all_chars_impl (P Q : ascii -> bool) s :
  (forall c, P c = true -> Q c = true) ->
  Py.all_chars P s = true -> Py.all_chars Q s = true.
Proof.
  intros H. induction s as [|c s IH]; [reflexivity|]. cbn [Py.all_chars].
  intros Hs. apply andb_prop in Hs as [Hc Hs]. now rewrite (H c Hc), IH.
Qed.

(** A match is made of characters of the classes of the pattern. *)
Lemma match_here_chars P p prev s ps rest :
  classes_within P p ->
  Re.match_here p prev s = Some (ps, rest) ->
  Py.all_chars P (Re.concat ps) = true.
Proof.
  intros Hp. revert prev s ps rest.
  induction Hp as [|it p Hit _ IH]; intros prev s ps rest.
  - cbn [Re.match_here]. now intros [= <- _].
  - destruct it as [cls lo hi| | |]; cbn [Re.match_here].
    + intros H. apply backtrack_some_range in H as (m & Hm & H).
      destruct (Re.match_here p _ (Py.drop m s)) as [[ps' rest']|] eqn:E;
        [|discriminate].
      injection H as <- <-. cbn [Re.concat]. rewrite all_chars_append.
      rewrite (IH _ _ _ _ E), andb_true_r.
      apply (all_chars_impl cls P); [exact Hit|].
      apply (take_within_run cls hi). lia.
    + destruct (xorb _ _); [|discriminate].
      destruct (Re.match_here p prev s) as [[ps' rest']|] eqn:E; [|discriminate].
      intros [= <- _]. exact (IH _ _ _ _ E).
    + destruct prev; [discriminate|].
      destruct (Re.match_here p None s) as [[ps' rest']|] eqn:E; [|discriminate].
      intros [= <- _]. exact (IH _ _ _ _ E).
    + destruct (Re.at_eol s); [|discriminate].
      destruct (Re.match_here p prev s) as [[ps' rest']|] eqn:E; [|discriminate].
      intros [= <- _]. exact (IH _ _ _ _ E).
Qed.

(** So is every match that [re.findall] returns. *)
Lemma findall_chars P p s :
  classes_within P p ->
  Forall (fun m => Py.all_chars P m = true) (Re.findall p s).
Proof.
  intros Hp. unfold Re.findall, Re.chunks.
  generalize (S (Py.len s)) as fuel, (@None ascii) as prev.
  intros fuel. revert s. induction fuel as [|fuel IH]; intros s prev;
    [constructor|].
  cbn [Re.scan].
  assert (Hstep : Forall (fun m => Py.all_chars P m = true)
                    (Re.hits match s with
                             | EmptyString => []
                             | String c s' => Re.Gap c :: Re.scan fuel p (Some c) s'
                             end)).
  { destruct s as [|c s']; [constructor|]. cbn [Re.hits]. apply IH. }
  destruct (Re.match_here p prev s) as [[ps rest]|] eqn:E; [|exact Hstep].
  pose proof (match_here_chars P p prev s ps rest Hp E) as Hm.
  destruct (Re.group0 ps) as [|c m] eqn:G; cbn [Re.hits]; constructor;
    try (rewrite G; unfold Re.group0 in G; rewrite <- G; exact Hm);
    [exact Hstep | apply IH].
Qed.

(* --------------------------------------------------------------------- *)
(** *** The validators as normal forms *)
(* --------------------------------------------------------------------- *)

Lemma validate_phone_valid p v pd :
  validate_phone p = Valid v pd ->
  v = Py.filter_chars (fun c => negb (separator c)) p
  /\ Py.all_chars Py.isdigit_char v = true
  /\ (10 <= Py.len v <= 15)%nat
  /\ pd = None.
Proof.
  unfold validate_phone, separator_pattern. rewrite sub_one_removes.
  set (cleaned := Py.filter_chars _ p). rewrite isdigit_all_chars.
  destruct (negb (is_empty cleaned) && Py.all_chars Py.isdigit_char cleaned) eqn:Hd;
    [|discriminate].
  cbn [negb]. apply andb_prop in Hd as [_ Hd].
  destruct ((Py.len cleaned <? 10)%nat || (15 <? Py.len cleaned)%nat) eqn:Hlen;
    [discriminate|].
  apply orb_false_elim in Hlen as [H10 H15].
  apply Nat.ltb_ge in H10, H15. intros [= <- <-]. auto.
Qed.

Lemma filter_chars_fixed P s :
  Py.all_chars P s = true -> Py.filter_chars P s = s.
Proof.
  induction s as [|c s IH]; [reflexivity|]. cbn [Py.all_chars Py.filter_chars].
  intros H. apply andb_prop in H as [-> H]. now rewrite IH.
Qed.

Lemma filter_chars_append P a b :
  Py.filter_chars P (a +:+ b) = Py.filter_chars P a +:+ Py.filter_chars P b.
Proof.
  induction a as [|x a IH]; [reflexivity|].
  change (Py.filter_chars P (String x (a +:+ b))
          = Py.filter_chars P (String x a) +:+ Py.filter_chars P b).
  cbn [Py.filter_chars]. rewrite IH. now destruct (P x).
Qed.

Lemma filter_chars_none P s :
  Py.all_chars (fun c => negb (P c)) s = true -> Py.filter_chars P s = EmptyString.
Proof.
  induction s as [|c s IH]; [reflexivity|]. cbn [Py.all_chars Py.filter_chars].
  intros H. apply andb_prop in H as [Hc H].
  apply negb_true_iff in Hc. rewrite Hc. now apply IH.
Qed.

(** X9. A successful [validate_phone] returns a normal form: validating
    its value again succeeds with the same value. *)
Theorem validate_phone_is_idempotent (phone value : string) (pd : option string) :
  validate_phone phone = Valid value pd ->
  validate_phone value = Valid value None.
Proof.
  intros H. apply validate_phone_valid in H as (Hv & Hd & Hlen & _).
  assert (Hfix : Py.filter_chars (fun c => negb (separator c)) value = value).
  { rewrite Hv at 1 2. apply filter_chars_fixed, all_chars_filter. }
  unfold validate_phone, separator_pattern. rewrite sub_one_removes, Hfix.
  rewrite isdigit_all_chars, Hd.
  assert (is_empty value = false) as -> by (destruct value; [cbn in Hlen; lia | reflexivity]).
  cbn [negb andb].
  assert ((Py.len value <? 10)%nat = false) as -> by (apply Nat.ltb_ge; lia).
  assert ((15 <? Py.len value)%nat = false) as -> by (apply Nat.ltb_ge; lia).
  reflexivity.
Qed.

(** X10. The result of [validate_phone] does not depend on the formatting:
    white space, hyphens, parentheses and plus signs inserted anywhere in
    the input change nothing. *)
Theorem validate_phone_ignores_formatting (before formatting after : string) :
  Py.all_chars phone_formatting formatting = true ->
  validate_phone (before +:+ formatting +:+ after)
  = validate_phone (before +:+ after).
Proof.
  intros H. unfold validate_phone, separator_pattern.
  rewrite !sub_one_removes, !filter_chars_append.
  rewrite (filter_chars_none (fun c => negb (separator c)) formatting).
  - reflexivity.
  - apply (all_chars_impl phone_formatting); [|exact H].
    intros c Hc. now rewrite negb_involutive, separator_is_phone_formatting.
Qed.

Lemma lstrip_shape s :
  Py.lstrip s = EmptyString
  \/ exists c r, Py.lstrip s = String c r /\ Py.isspace c = false.
Proof.
  induction s as [|c s IH]; [now left|]. cbn [Py.lstrip].
  destruct (Py.isspace c) eqn:Hc; [exact IH|]. right. now exists c, s.
Qed.

Lemma rstrip_rstrip s : Py.rstrip (Py.rstrip s) = Py.rstrip s.
Proof.
  induction s as [|c s IH]; [reflexivity|]. cbn [Py.rstrip].
  destruct (Py.rstrip s) as [|x y] eqn:E.
  - destruct (Py.isspace c) eqn:Hc; [reflexivity|]. cbn [Py.rstrip]. now rewrite Hc.
  - cbn [Py.rstrip]. cbn [Py.rstrip] in IH. now rewrite IH.
Qed.

Lemma rstrip_head c r :
  Py.isspace c = false -> exists r', Py.rstrip (String c r) = String c r'.
Proof.
  intros Hc. cbn [Py.rstrip]. destruct (Py.rstrip r); [rewrite Hc|]; eauto.
Qed.

(** [strip] is idempotent. *)
Lemma strip_strip s : Py.strip (Py.strip s) = Py.strip s.
Proof.
  unfold Py.strip. destruct (lstrip_shape s) as [-> | (c & r & -> & Hc)];
    [reflexivity|].
  destruct (rstrip_head c r Hc) as [r' E]. rewrite E.
  cbn [Py.lstrip]. rewrite Hc, <- E. apply rstrip_rstrip.
Qed.

Lemma all_chars_lstrip P s :
  Py.all_chars P s = true -> Py.all_chars P (Py.lstrip s) = true.
Proof.
  induction s as [|c s IH]; [reflexivity|]. cbn [Py.lstrip Py.all_chars].
  intros H. destruct (Py.isspace c); [|exact H].
  apply andb_prop in H as [_ H]. now apply IH.
Qed.

Lemma all_chars_rstrip P s :
  Py.all_chars P s = true -> Py.all_chars P (Py.rstrip s) = true.
Proof.
  induction s as [|c s IH]; [reflexivity|]. cbn [Py.rstrip Py.all_chars].
  intros H. apply andb_prop in H as [Hc H]. specialize (IH H).
  destruct (Py.rstrip s) as [|x y].
  - destruct (Py.isspace c); [reflexivity|]. cbn [Py.all_chars]. now rewrite Hc.
  - cbn [Py.all_chars] in IH |- *. now rewrite Hc, IH.
Qed.

Lemma all_chars_strip P s :
  Py.all_chars P s = true -> Py.all_chars P (Py.strip s) = true.
Proof. intros H. now apply all_chars_rstrip, all_chars_lstrip. Qed.

Lemma validate_name_valid n v pd :
  validate_name n = Valid v pd ->
  v = Py.strip n
  /\ (2 <= Py.len v)%nat
  /\ Py.all_chars name_char n = true
  /\ pd = None.
Proof.
  unfold validate_name, name_pattern.
  rewrite (rmatch_anchored_plus name_char n name_char_newline).
  destruct (is_empty n || (Py.len (Py.strip n) <? 2)%nat) eqn:H2; [discriminate|].
  apply orb_false_elim in H2 as [_ H2]. apply Nat.ltb_ge in H2.
  destruct (negb (is_empty n) && Py.all_chars name_char n) eqn:Hm; [|discriminate].
  cbn [negb]. apply andb_prop in Hm as [_ Hm]. intros [= <- <-]. auto.
Qed.

Lemma validate_name_of_normal v :
  Py.strip v = v -> (2 <= Py.len v)%nat -> Py.all_chars name_char v = true ->
  validate_name v = Valid v None.
Proof.
  intros Hs Hlen Hall. unfold validate_name, name_pattern.
  rewrite (rmatch_anchored_plus name_char v name_char_newline), Hs, Hall.
  assert (is_empty v = false) as -> by (destruct v; [cbn in Hlen; lia | reflexivity]).
  assert ((Py.len v <? 2)%nat = false) as -> by (apply Nat.ltb_ge; lia).
  reflexivity.
Qed.

(** X11. A successful [validate_name] returns a normal form: its value has
    no white space around it, and validating it again succeeds with the
    same value. *)
Theorem validate_name_is_idempotent (name value : string) (pd : option string) :
  validate_name name = Valid value pd ->
  Py.strip value = value /\ validate_name value = Valid value None.
Proof.
  intros H. apply validate_name_valid in H as (-> & Hlen & Hall & _).
  split; [apply strip_strip|].
  apply validate_name_of_normal;
    [apply strip_strip | exact Hlen | now apply all_chars_strip].
Qed.

(* --------------------------------------------------------------------- *)
(** *** What a turn records is validated *)
(* --------------------------------------------------------------------- *)

Lemma extraction_other_lookup field acc l r k :
  extraction_of field acc l r -> field <> k ->
  fst (fst r) !! k = fst acc !! k.
Proof.
  intros (delta & _ & _ & _ & [-> | (w & ack & _ & ->)]) Hne; [reflexivity|].
  cbn [fst]. now rewrite lookup_insert_ne.
Qed.

Lemma missing_field_listed d f :
  In f required_fields -> is_missing d f = true -> missing_fields d <> [].
Proof.
  intros Hin Hm H. assert (Hf : In f (missing_fields d)).
  { unfold missing_fields. apply List.filter_In. now split. }
  rewrite H in Hf. exact Hf.
Qed.

Lemma missing_not_recorded d f v : is_missing d f = true -> ~ recorded d f v.
Proof.
  intros Hm Hrec. rewrite (recorded_not_missing _ _ _ Hrec) in Hm. discriminate.
Qed.

(** The phone step writes only what [validate_phone] returned for the
    first match. *)
Lemma check_for_phone_writes u acc l :
  fst (fst (check_for_phone u acc l)) !! "phone" = fst acc !! "phone"
  \/ exists first v,
       In first (Re.findall phone_pattern u)
       /\ validate_phone first = Valid v None
       /\ fst (fst (check_for_phone u acc l)) !! "phone" = Some v.
Proof.
  destruct acc as [d parts]. unfold check_for_phone.
  destruct (is_missing d "phone"); [|now left].
  destruct (Re.findall phone_pattern u) as [|first rest] eqn:E; [now left|].
  destruct (validate_phone first) as [v pd|err] eqn:Hv; [|now left].
  right. exists first, v.
  destruct (validate_phone_valid _ _ _ Hv) as (_ & _ & _ & ->).
  cbn [ret fst]. rewrite lookup_insert_eq.
  split; [now left|]. split; [exact Hv | reflexivity].
Qed.

(** The name step writes only what [validate_name] returned. *)
Lemma check_for_name_writes u acc l :
  fst (fst (check_for_name u acc l)) !! "name" = fst acc !! "name"
  \/ exists text v,
       validate_name text = Valid v None
       /\ fst (fst (check_for_name u acc l)) !! "name" = Some v.
Proof.
  destruct acc as [d parts]. unfold check_for_name.
  destruct (is_missing d "name"); [|now left].
  unfold bind, invoke, ret.
  destruct (complete l llm (name_prompt u)) as [text|e]; [|now left].
  destruct (_ && _); [|now left].
  destruct (validate_name (Py.strip text)) as [v pd|err] eqn:Hv; [|now left].
  right. exists (Py.strip text), v.
  destruct (validate_name_valid _ _ _ Hv) as (_ & _ & _ & ->).
  cbn [fst]. now rewrite lookup_insert_eq.
Qed.

Lemma phone_pattern_classes : classes_within phone_token_char phone_pattern.
Proof.
  unfold classes_within, phone_pattern, Re.opt, Re.one, Re.at_least.
  repeat constructor; intros [[] [] [] [] [] [] [] []]; vm_compute; congruence.
Qed.

Lemma phone_token_digit c :
  phone_token_char c = true -> separator c = false -> Py.isdecimal c = true.
Proof. destruct c as [[] [] [] [] [] [] [] []]; vm_compute; congruence. Qed.

Lemma all_chars_filter_within (P Q R : ascii -> bool) s :
  (forall c, P c = true -> Q c = true -> R c = true) ->
  Py.all_chars P s = true -> Py.all_chars R (Py.filter_chars Q s) = true.
Proof.
  intros H. induction s as [|c s IH]; [reflexivity|].
  cbn [Py.all_chars Py.filter_chars]. intros Hs.
  apply andb_prop in Hs as [Hc Hs]. destruct (Q c) eqn:Hq; [|now apply IH].
  cbn [Py.all_chars]. now rewrite (H c Hc Hq), IH.
Qed.

(** X12. A phone number that a turn records, in a session where the
    phone was missing, is a string of 10 to 15 decimal digits 0-9,
    whatever the utterance and the answers of the service. *)
Theorem recorded_phone_is_ten_to_fifteen_digits
    (st : AgentState) (l : log) (value : string) :
  is_missing (appointment_data st) "phone" = true ->
  recorded (appointment_data (fst (handle_appointment_booking st l))) "phone" value ->
  Py.all_chars Py.isdecimal value = true /\ (10 <= Py.len value <= 15)%nat.
Proof.
  intros Hmiss Hrec.
  destruct (booking_turn_steps st l)
    as (a1 & l1 & a2 & l2 & a3 & l3 & a4 & l4 & E1 & E2 & E3 & E4 & E).
  { apply (missing_field_listed _ "phone"); [cbn; auto | exact Hmiss]. }
  rewrite E in Hrec. cbn [fst] in Hrec. rewrite conclude_appointment_data in Hrec.
  pose proof (check_for_name_extraction (user_input st) (appointment_data st, []) l) as H1.
  pose proof (check_for_email_extraction (user_input st) a2 l2) as H3.
  pose proof (check_for_date_extraction (user_input st) a3 l3) as H4.
  apply (extraction_other_lookup _ _ _ _ "phone") in H1; [|discriminate].
  apply (extraction_other_lookup _ _ _ _ "phone") in H3; [|discriminate].
  apply (extraction_other_lookup _ _ _ _ "phone") in H4; [|discriminate].
  rewrite E1 in H1. rewrite E3 in H3. rewrite E4 in H4. cbn [fst] in H1, H3, H4.
  destruct Hrec as [Hlook Hne]. rewrite H4, H3 in Hlook.
  destruct (check_for_phone_writes (user_input st) a1 l1)
    as [Hsame | (first & v & Hin & Hv & Hw)]; rewrite E2 in *; cbn [fst] in *.
  - exfalso. apply (missing_not_recorded _ _ value Hmiss).
    split; [|exact Hne]. now rewrite <- H1, <- Hsame.
  - rewrite Hw in Hlook. injection Hlook as <-.
    destruct (validate_phone_valid _ _ _ Hv) as (Hclean & _ & Hlen & _).
    split; [|exact Hlen]. rewrite Hclean.
    apply (all_chars_filter_within phone_token_char).
    + intros c Hc Hs. apply phone_token_digit; [exact Hc|].
      now apply negb_true_iff.
    + pose proof (findall_chars phone_token_char phone_pattern (user_input st)
                    phone_pattern_classes) as Hall.
      rewrite List.Forall_forall in Hall. now apply Hall.
Qed.

(** X13. A name that a turn records, in a session where the name was
    missing, has at least two characters, only letters, white space,
    periods, hyphens and apostrophes, and no white space around it,
    whatever the completion service answered. *)
Theorem recorded_name_is_well_formed
    (st : AgentState) (l : log) (value : string) :
  is_missing (appointment_data st) "name" = true ->
  recorded (appointment_data (fst (handle_appointment_booking st l))) "name" value ->
  (2 <= Py.len value)%nat
  /\ Py.all_chars name_character value = true
  /\ Py.strip value = value.
Proof.
  intros Hmiss Hrec.
  destruct (booking_turn_steps st l)
    as (a1 & l1 & a2 & l2 & a3 & l3 & a4 & l4 & E1 & E2 & E3 & E4 & E).
  { apply (missing_field_listed _ "name"); [cbn; auto | exact Hmiss]. }
  rewrite E in Hrec. cbn [fst] in Hrec. rewrite conclude_appointment_data in Hrec.
  pose proof (check_for_phone_extraction (user_input st) a1 l1) as H2.
  pose proof (check_for_email_extraction (user_input st) a2 l2) as H3.
  pose proof (check_for_date_extraction (user_input st) a3 l3) as H4.
  apply (extraction_other_lookup _ _ _ _ "name") in H2; [|discriminate].
  apply (extraction_other_lookup _ _ _ _ "name") in H3; [|discriminate].
  apply (extraction_other_lookup _ _ _ _ "name") in H4; [|discriminate].
  rewrite E2 in H2. rewrite E3 in H3. rewrite E4 in H4. cbn [fst] in H2, H3, H4.
  destruct Hrec as [Hlook Hne]. rewrite H4, H3, H2 in Hlook.
  destruct (check_for_name_writes (user_input st) (appointment_data st, []) l)
    as [Hsame | (text & v & Hv & Hw)]; rewrite E1 in *; cbn [fst] in *.
  - exfalso. apply (missing_not_recorded _ _ value Hmiss).
    split; [|exact Hne]. now rewrite <- Hsame.
  - rewrite Hw in Hlook. injection Hlook as <-.
    destruct (validate_name_valid _ _ _ Hv) as (-> & Hlen & Hall & _).
    split; [exact Hlen|]. split; [|apply strip_strip].
    apply all_chars_strip.
    now rewrite <- (all_chars_ext name_char name_character text
                      name_char_is_name_character).
Qed.

(* --------------------------------------------------------------------- *)
(** *** The rule table of the date resolver *)
(* --------------------------------------------------------------------- *)



Lemma contains_append_r sub a b :
  Py.contains sub b = true -> Py.contains sub (a +:+ b) = true.
Proof.
  intros H. induction a as [|x a IH]; [exact H|].
  change (Py.contains sub (String x (a +:+ b)) = true).
  cbn [Py.contains]. rewrite IH. apply orb_true_r.
Qed.

(** Neither ["today"] nor ["tomorrow"] holds the phrase of a later rule. *)
Lemma phrase_is_not_a_day_word phrase t :
  Py.contains phrase t = true ->
  Py.contains phrase "today" = false -> Py.contains phrase "tomorrow" = false ->
  String.eqb t "today" = false /\ String.eqb t "tomorrow" = false.
Proof.
  intros H H1 H2. split.
  - destruct (String.eqb_spec t "today") as [->|]; [congruence | reflexivity].
  - destruct (String.eqb_spec t "tomorrow") as [->|]; [congruence | reflexivity].
Qed.

(** X14. An input that contains "next week" (in any letter case) resolves
    to the date seven days after today, which falls on today's weekday,
    whatever else the input says: a weekday named beside it is ignored. *)
Theorem next_week_is_seven_days_later (text : string) (l : log) :
  Py.contains "next week" (Py.strip (Py.lower text)) = true ->
  Dt.min_ordinal <= Dt.ordinal now ->
  Dt.ordinal now + 7 <= Dt.max_ordinal ->
  exists target,
    fst (extract_date_from_natural_language text l) = rendering target
    /\ Dt.ordinal target = Dt.ordinal now + 7
    /\ Dt.weekday target = Dt.weekday now.
Proof.
  intros Hc Hlo Hhi.
  destruct (phrase_is_not_a_day_word _ _ Hc eq_refl eq_refl) as [Ht Htm].
  exists (Dt.mk (Dt.ordinal now + 7) (Dt.time_of_day now)). split; [|split].
  - erewrite extract_date_of_target; [reflexivity|].
    unfold resolve_target, bind, datetime_now, ret. rewrite Ht, Htm, Hc.
    rewrite add_days_in_range; [reflexivity|].
    unfold Dt.min_ordinal, Dt.max_ordinal in *. lia.
  - reflexivity.
  - unfold Dt.weekday. cbn [Dt.ordinal].
    replace (Dt.ordinal now + 7 + 6) with (Dt.ordinal now + 6 + 1 * 7) by lia.
    apply Z.mod_add. lia.
Qed.

(** X15. An input that contains "next month" and not "next week" resolves
    to the date thirty days after today, whatever the length of the month. *)
Theorem next_month_is_thirty_days_later (text : string) (l : log) :
  Py.contains "next month" (Py.strip (Py.lower text)) = true ->
  Py.contains "next week" (Py.strip (Py.lower text)) = false ->
  Dt.min_ordinal <= Dt.ordinal now ->
  Dt.ordinal now + 30 <= Dt.max_ordinal ->
  exists target,
    fst (extract_date_from_natural_language text l) = rendering target
    /\ Dt.ordinal target = Dt.ordinal now + 30.
Proof.
  intros Hc Hw Hlo Hhi.
  destruct (phrase_is_not_a_day_word _ _ Hc eq_refl eq_refl) as [Ht Htm].
  exists (Dt.mk (Dt.ordinal now + 30) (Dt.time_of_day now)). split; [|reflexivity].
  erewrite extract_date_of_target; [reflexivity|].
  unfold resolve_target, bind, datetime_now, ret. rewrite Ht, Htm, Hw, Hc.
  rewrite add_days_in_range; [reflexivity|].
  unfold Dt.min_ordinal, Dt.max_ordinal in *. lia.
Qed.

(** X16. The rule table reads the input in lower case and without the
    white space around it: two inputs that agree up to letter case and
    surrounding white space resolve to the same date, unless the fuzzy
    parser is reached, which is given each input as it was typed. *)
Theorem resolver_ignores_case_and_padding (text1 text2 : string) (l : log) :
  Py.strip (Py.lower text1) = Py.strip (Py.lower text2) ->
  fst (resolve_target text1 l) = fst (resolve_target text2 l)
  \/ (resolve_target text1 l
      = (parser_parse text1, l ++ [EvNow; EvParserParse text1])
      /\ resolve_target text2 l
         = (parser_parse text2, l ++ [EvNow; EvParserParse text2])).
Proof.
  intros H. unfold resolve_target, bind, datetime_now, parse_fuzzy, ret.
  rewrite H.
  repeat match goal with
         | |- context [if ?b then _ else _] => destruct b; [now left|]
         end.
  destruct (_ && _).
  - destruct (Re.search _ _); [now left|]. right. now rewrite <- !app_assoc.
  - right. now rewrite <- !app_assoc.
Qed.







Lemma lower_char_fixed c :
  Py.isdecimal c = true \/ Py.isspace c = true -> Py.lower_char c = c.
Proof.
  destruct c as [[] [] [] [] [] [] [] []]; vm_compute; intros [H|H];
    congruence.
Qed.








(* --------------------------------------------------------------------- *)
(** *** One question in each turn *)
(* --------------------------------------------------------------------- *)

Lemma question_marks_append a b :
  question_marks (a +:+ b) = (question_marks a + question_marks b)%nat.
Proof.
  induction a as [|c a IH]; [reflexivity|].
  change (question_marks (String c (a +:+ b))
          = (question_marks (String c a) + question_marks b)%nat).
  cbn [question_marks]. rewrite IH. lia.
Qed.

Lemma question_marks_none P s :
  P "?"%char = false -> Py.all_chars P s = true -> question_marks s = O.
Proof.
  intros HP. induction s as [|c s IH]; [reflexivity|].
  cbn [Py.all_chars question_marks]. intros H. apply andb_prop in H as [Hc Hs].
  rewrite (IH Hs). destruct (Ascii.eqb_spec c "?") as [->|_]; [congruence | reflexivity].
Qed.

(** Each step records a value that was validated, with its line. *)
Lemma check_for_name_records u acc l :
  records "name"
    (fun v line => question_marks v = O
                   /\ line = "Got it! I've recorded your name as " +:+ v +:+ ".")
    acc (fst (check_for_name u acc l)).
Proof.
  destruct acc as [d parts]. unfold check_for_name, records.
  destruct (is_missing d "name") eqn:Hm; [|now left].
  unfold bind, invoke, ret.
  destruct (complete l llm (name_prompt u)) as [text|e]; [|now left].
  destruct (_ && _); [|now left].
  destruct (validate_name (Py.strip text)) as [v pd|err] eqn:Hv; [|now left].
  right. exists v. eexists. cbn [fst snd]. split; [exact Hm|].
  split; [|reflexivity]. split; [|reflexivity].
  destruct (validate_name_valid _ _ _ Hv) as (-> & _ & Hall & _).
  apply (question_marks_none name_char); [reflexivity|].
  now apply all_chars_strip.
Qed.

Lemma check_for_phone_records u acc l :
  records "phone"
    (fun v line => question_marks v = O /\ line = "Phone number recorded: " +:+ v)
    acc (fst (check_for_phone u acc l)).
Proof.
  destruct acc as [d parts]. unfold check_for_phone, records.
  destruct (is_missing d "phone") eqn:Hm; [|now left].
  destruct (Re.findall phone_pattern u) as [|first rest]; [now left|].
  destruct (validate_phone first) as [v pd|err] eqn:Hv; [|now left].
  right. exists v. eexists. cbn [ret fst snd]. split; [exact Hm|].
  split; [|reflexivity]. split; [|reflexivity].
  destruct (validate_phone_valid _ _ _ Hv) as (_ & Hall & _).
  now apply (question_marks_none Py.isdigit_char).
Qed.

Lemma check_for_email_records u acc l :
  records "email" (fun v line => line = "Email recorded: " +:+ v)
    acc (fst (check_for_email u acc l)).
Proof.
  destruct acc as [d parts]. unfold check_for_email, records.
  destruct (is_missing d "email") eqn:Hm; [|now left].
  destruct (Re.findall email_pattern u) as [|first rest]; [now left|].
  unfold bind, validate_email_address, bind, validate_email, ret.
  destruct (check_email first) as [v|err]; cbn [fst snd]; [|now left].
  right. exists v. eexists. split; [exact Hm|]. split; reflexivity.
Qed.

Lemma check_for_date_records u acc l :
  records "date"
    (fun v line => exists target,
         v = Dt.strftime_iso target
         /\ line = "Date recorded: " +:+ Dt.strftime_long target)
    acc (fst (check_for_date u acc l)).
Proof.
  destruct acc as [d parts]. unfold check_for_date, records.
  destruct (is_missing d "date") eqn:Hm; [|now left].
  unfold bind, extract_date_from_natural_language, bind.
  destruct (resolve_target u l) as [[target|] l']; cbn [ret fst snd]; [|now left].
  right. eexists. eexists. split; [exact Hm|]. split; [|reflexivity].
  exists target. split; reflexivity.
Qed.

(** The long form of a date holds no question mark. *)
Lemma digit_char_not_mark n : Ascii.eqb (ascii_of_N (48 + n mod 10)) "?" = false.
Proof.
  pose proof (N.mod_upper_bound n 10 ltac:(discriminate)) as Hk.
  revert Hk. generalize (n mod 10)%N. intros k Hk.
  assert (H : (k = 0 \/ k = 1 \/ k = 2 \/ k = 3 \/ k = 4 \/ k = 5 \/ k = 6
               \/ k = 7 \/ k = 8 \/ k = 9)%N) by lia.
  repeat destruct H as [->|H]; try subst k; reflexivity.
Qed.

Lemma question_marks_digits fuel n acc :
  question_marks (Py.digits_aux fuel n acc) = question_marks acc.
Proof.
  revert n acc. induction fuel as [|fuel IH]; intros n acc; [reflexivity|].
  cbn [Py.digits_aux]. cbv zeta.
  destruct (n / 10 =? 0)%N; [|rewrite IH];
    cbn [question_marks]; now rewrite digit_char_not_mark.
Qed.

Lemma question_marks_zfill w n : question_marks (Py.zfill w n) = O.
Proof.
  unfold Py.zfill. cbv zeta. rewrite question_marks_append.
  unfold Py.str_of_N. rewrite question_marks_digits.
  induction (w - _)%nat as [|k IH]; [reflexivity | exact IH].
Qed.

Lemma question_marks_long d : question_marks (Dt.strftime_long d) = O.
Proof.
  unfold Dt.strftime_long. destruct (Dt.ord2ymd (Dt.ordinal d)) as [[y m] dd].
  rewrite !question_marks_append, question_marks_zfill.
  unfold Dt.year_text, Py.str_of_N. rewrite question_marks_digits.
  unfold Dt.month_name.
  destruct (Z.to_nat m) as [|[|[|[|[|[|[|[|[|[|[|[|[|[|]]]]]]]]]]]]]]; reflexivity.
Qed.

Ltac missing_before :=
  repeat match goal with
         | H : is_missing _ _ = true |- _ =>
             progress (cbn [fst snd] in H; rewrite ?is_missing_insert in H;
                       cbn [String.eqb Ascii.eqb Bool.eqb] in H)
         end.

Ltac line_has_no_mark :=
  rewrite ?question_marks_append, ?question_marks_long;
  repeat match goal with
         | H : question_marks _ = O |- _ => rewrite H
         end;
  reflexivity.

Ltac turn_case fs tgt :=
  exists fs, tgt;
  split; [reflexivity|];
  split; [unfold required_fields;
          repeat first [apply sublist_nil | apply sublist_skip | apply sublist_cons]|];
  split; [repeat constructor; assumption|];
  split; [intros Hin; first [ unfold get; now rewrite lookup_insert_eq
                            | exfalso; cbn in Hin; intuition discriminate ]|];
  split; [cbn [map app]; unfold acknowledgment_line, get;
          cbn [String.eqb Ascii.eqb Bool.eqb];
          repeat first [rewrite lookup_insert_eq | rewrite lookup_insert_ne by discriminate];
          reflexivity|];
  intros Hemail;
  try (specialize (Hemail ltac:(assumption)); unfold get in Hemail;
       repeat first [rewrite lookup_insert_eq in Hemail
                    | rewrite lookup_insert_ne in Hemail by discriminate];
       simpl in Hemail);
  repeat (apply List.Forall_cons; [line_has_no_mark|]); apply List.Forall_nil.

(** The acknowledgments of a turn that starts with a missing field: one
    line for each field the turn recorded, in the order of the steps. *)
Lemma booking_turn_acknowledgments st l :
  missing_fields (appointment_data st) <> [] ->
  exists d parts acknowledged target,
    fst (handle_appointment_booking st l) = conclude st (d, parts)
    /\ sublist acknowledged required_fields
    /\ Forall (fun f => is_missing (appointment_data st) f = true) acknowledged
    /\ (In "date" acknowledged -> get d "date" = Dt.strftime_iso target)
    /\ parts = map (acknowledgment_line d (Dt.strftime_long target)) acknowledged
    /\ ((is_missing (appointment_data st) "email" = true ->
         question_marks (get d "email") = O) ->
        Forall (fun part => question_marks part = O) parts).
Proof.
  clear clock uuid4 repr_session_data exception_text.
  intros Hm.
  destruct (booking_turn_steps st l Hm)
    as (a1 & l1 & a2 & l2 & a3 & l3 & a4 & l4 & E1 & E2 & E3 & E4 & E).
  pose proof (check_for_name_records (user_input st) (appointment_data st, []) l) as H1.
  pose proof (check_for_phone_records (user_input st) a1 l1) as H2.
  pose proof (check_for_email_records (user_input st) a2 l2) as H3.
  pose proof (check_for_date_records (user_input st) a3 l3) as H4.
  rewrite E1 in H1. rewrite E2 in H2. rewrite E3 in H3. rewrite E4 in H4.
  rewrite E. cbn [fst snd] in *. clear E1 E2 E3 E4 E.
  set (d0 := appointment_data st) in *. clearbody d0.
  destruct a4 as [d parts]. exists d, parts.
  destruct H1 as [-> | (v1 & line1 & M1 & [Q1 ->] & ->)];
    destruct H2 as [-> | (v2 & line2 & M2 & [Q2 ->] & ->)];
    destruct H3 as [-> | (v3 & line3 & M3 & -> & ->)];
    destruct H4 as [H4 | (v4 & line4 & M4 & (target & -> & ->) & H4)];
    injection H4 as -> ->; missing_before.
  all: cbn [fst snd app].
  - turn_case (@nil string) now.
  - turn_case ["date"] target.
  - turn_case ["email"] now.
  - turn_case ["email"; "date"] target.
  - turn_case ["phone"] now.
  - turn_case ["phone"; "date"] target.
  - turn_case ["phone"; "email"] now.
  - turn_case ["phone"; "email"; "date"] target.
  - turn_case ["name"] now.
  - turn_case ["name"; "date"] target.
  - turn_case ["name"; "email"] now.
  - turn_case ["name"; "email"; "date"] target.
  - turn_case ["name"; "phone"] now.
  - turn_case ["name"; "phone"; "date"] target.
  - turn_case ["name"; "phone"; "email"] now.
  - turn_case ["name"; "phone"; "email"; "date"] target.
Qed.


Lemma startswith_append q a b :
  Py.startswith q (a +:+ b) = true ->
  ((Py.len a <= Py.len q)%nat /\ Py.take (Py.len a) q = a
   /\ Py.startswith (Py.drop (Py.len a) q) b = true)
  \/ Py.startswith q a = true.
Proof.
  revert q. induction a as [|c a IH]; intros q H.
  - left. cbn [Py.len Py.take Py.drop]. split; [lia|].
    split; [now destruct q | exact H].
  - destruct q as [|x q]; [now right|].
    change (Py.startswith (String x q) (String c (a +:+ b)) = true) in H.
    cbn [Py.startswith] in H |- *.
    destruct (Ascii.eqb_spec x c) as [->|]; [|discriminate].
    destruct (IH q H) as [(Hlen & Htake & Hrest) | Hin]; [left | now right].
    cbn [Py.len Py.take Py.drop]. split; [lia|]. split; [now rewrite Htake | exact Hrest].
Qed.

Lemma startswith_question_marks q a :
  Py.startswith q a = true -> (question_marks q <= question_marks a)%nat.
Proof.
  revert a. induction q as [|x q IH]; intros a H; [cbn; lia|].
  destruct a as [|c a]; [discriminate|]. cbn [Py.startswith] in H.
  destruct (Ascii.eqb_spec x c) as [->|]; [|discriminate].
  cbn [question_marks]. specialize (IH a H). lia.
Qed.

(** An occurrence of [q], which holds a question mark, in a text without
    question marks followed by [b] lies in [b] or ends in it. *)
Lemma contains_after_plain_text q a b :
  question_marks a = O -> (0 < question_marks q)%nat ->
  Py.contains q (a +:+ b) = true ->
  Py.contains q b = true \/ straddles q b = true.
Proof.
  intros Ha Hq. induction a as [|c a IH]; intros H; [now left|].
  change (Py.contains q (String c (a +:+ b)) = true) in H.
  cbn [Py.contains] in H. apply orb_true_iff in H as [H|H].
  - change (Py.startswith q (String c a +:+ b) = true) in H.
    apply startswith_append in H as [(Hlen & Htake & Hrest) | Hin].
    + right. unfold straddles. apply existsb_exists.
      exists (Py.len (String c a)). split.
      * apply in_seq. cbn [Py.len] in Hlen |- *. lia.
      * rewrite Htake, Ha, Hrest. reflexivity.
    + apply startswith_question_marks in Hin. lia.
  - apply IH; [|exact H]. cbn [question_marks] in Ha. lia.
Qed.

Lemma question_marks_join parts :
  Forall (fun part => question_marks part = O) parts ->
  question_marks (Py.join Py.nl parts) = O.
Proof.
  induction 1 as [|p ps Hp Hps IH]; [reflexivity|].
  destruct ps as [|p' ps]; [exact Hp|].
  change (question_marks (p +:+ Py.nl +:+ Py.join Py.nl (p' :: ps)) = O).
  now rewrite !question_marks_append, Hp, IH.
Qed.

Lemma question_marks_acknowledgments parts :
  Forall (fun part => question_marks part = O) parts ->
  question_marks (acknowledgments parts) = O.
Proof.
  intros H. unfold acknowledgments. destruct parts as [|p ps]; [reflexivity|].
  now rewrite !question_marks_append, question_marks_join.
Qed.

Lemma question_marks_question f : question_marks (question_for f) = 1%nat.
Proof. unfold question_for. repeat destruct (String.eqb f _); reflexivity. Qed.

Lemma questions_asked_after_plain_text a f :
  question_marks a = O -> In f required_fields ->
  questions_asked (a +:+ question_for f) = [f].
Proof.
  intros Ha Hf. unfold questions_asked, required_fields in *.
  assert (Hsame : forall g, Py.contains (question_for g) (a +:+ question_for g) = true).
  { intros g. apply contains_append_r. unfold question_for.
    repeat destruct (String.eqb g _); vm_compute; reflexivity. }
  assert (Hother : forall g h,
             Py.contains (question_for g) (question_for h) = false ->
             straddles (question_for g) (question_for h) = false ->
             Py.contains (question_for g) (a +:+ question_for h) = false).
  { intros g h Hc Hs.
    destruct (Py.contains (question_for g) (a +:+ question_for h)) eqn:E;
      [|reflexivity].
    apply (contains_after_plain_text _ _ _ Ha) in E;
      [|rewrite question_marks_question; lia].
    destruct E as [E|E]; congruence. }
  cbn [In] in Hf. cbn [List.filter].
  destruct Hf as [<- | [<- | [<- | [<- | []]]]];
    rewrite Hsame, !Hother by (vm_compute; reflexivity); reflexivity.
Qed.

(** C3. When a field is still missing after the extraction of the turn,
    the response is the acknowledgment lines of the fields the turn
    recorded, each with the value now in [appointment_data], followed by
    the question for the first missing field in the order name, phone,
    email, date, whatever else is missing; and the turn signals
    [continue].  The values the turn acknowledges hold no question mark
    (for the e-mail address, which the checker returns, this is assumed),
    so the response holds exactly one question mark and, of the four
    questions, only the one for the first missing field. *)
Theorem one_question_for_the_first_missing_field
    (st : AgentState) (l : log) (field : string) :
  let st' := fst (handle_appointment_booking st l) in
  first_missing (appointment_data st') = Some field ->
  (exists acknowledged target,
      sublist acknowledged required_fields
      /\ Forall (fun f => is_missing (appointment_data st) f = true) acknowledged
      /\ (In "date" acknowledged ->
          get (appointment_data st') "date" = Dt.strftime_iso target)
      /\ response st'
         = acknowledgments
             (map (acknowledgment_line (appointment_data st')
                     (Dt.strftime_long target)) acknowledged)
           +:+ question_for field)
  /\ next_action st' = "continue"
  /\ ((is_missing (appointment_data st) "email" = true ->
       question_marks (get (appointment_data st') "email") = O) ->
      question_marks (response st') = 1%nat
      /\ questions_asked (response st') = [field]).
Proof.
  intros st' Hfirst. subst st'.
  destruct (missing_fields (appointment_data st)) as [|f0 rest0] eqn:Hm0.
  - exfalso. revert Hfirst. unfold handle_appointment_booking. rewrite Hm0.
    cbn [ret fst set_next_action set_response appointment_data].
    now rewrite first_missing_head, Hm0.
  - destruct (booking_turn_acknowledgments st l)
      as (d & parts & acknowledged & target & Heq & Hsub & Hmiss & Hdate & Hparts & Hplain);
      [congruence|].
    rewrite Heq in Hfirst |- *.
    rewrite conclude_appointment_data in Hfirst |- *. cbn [fst] in Hfirst |- *.
    assert (Hin : In field required_fields)
      by (apply (List.find_some _ _ Hfirst)).
    rewrite first_missing_head in Hfirst.
    destruct (missing_fields d) as [|f rest] eqn:Hm; [discriminate|].
    injection Hfirst as ->.
    destruct (conclude_still_missing st (d, parts) field rest Hm) as [Hresp Hnext].
    cbn [snd] in Hresp. split; [|split; [exact Hnext|]].
    + exists acknowledged, target. rewrite Hresp, Hparts. auto.
    + intros Hemail. specialize (Hplain Hemail).
      apply question_marks_acknowledgments in Hplain. rewrite Hresp. split.
      * now rewrite question_marks_append, Hplain, question_marks_question.
      * now apply questions_asked_after_plain_text.
Qed.

(* --------------------------------------------------------------------- *)
(** *** The keyword search of the document bridge *)
(* --------------------------------------------------------------------- *)

Lemma filter_sublist {A : Type} (f : A -> bool) (xs : list A) :
  sublist (List.filter f xs) xs.
Proof.
  induction xs as [|x xs IH]; [constructor|]. cbn [List.filter].
  destruct (f x); now constructor.
Qed.

Lemma query_documents_fallback q d l e :
  is_empty d = false ->
  complete l extraction_llm (extraction_prompt d q) = Raises e ->
  fst (query_documents q d l)
  = let relevant_lines :=
      List.filter
        (fun line => existsb (fun word => Py.contains word (Py.lower line))
                       (Py.split (Py.lower q)))
        (Py.split_on (ascii_of_N 10) d) in
    if negb (is_some (head relevant_lines)) then no_relevant_message
    else Py.join Py.nl (firstn 5 relevant_lines).
Proof.
  intros Hd Hc. unfold query_documents. rewrite Hd.
  unfold bind, invoke, print, emit, ret. fold extraction_llm. rewrite Hc.
  cbv zeta. now destruct (negb _).
Qed.

(** X18. When the completion service fails on a document that is not
    empty, [query_documents] answers from the document itself: either the
    fixed "no relevant information" message, or at most five lines of the
    document, in the order of the document, each of which holds one of
    the words of the query (in any letter case), joined by newlines. *)
Theorem keyword_search_returns_matching_lines (q d : string) (l : log) (e : string) :
  d <> "" ->
  complete l extraction_llm (extraction_prompt d q) = Raises e ->
  let answer := fst (query_documents q d l) in
  answer = "No relevant information found in the documents for your query."
  \/ exists ls,
       answer = Py.join Py.nl ls
       /\ ls <> []
       /\ (length ls <= 5)%nat
       /\ sublist ls (Py.split_on (ascii_of_N 10) d)
       /\ Forall (line_matches q) ls.
Proof.
  intros Hd Hc answer. subst answer.
  rewrite (query_documents_fallback q d l e); [|now destruct d|exact Hc].
  cbv zeta. set (f := fun line : string => existsb _ _).
  set (relevant := List.filter f _).
  destruct relevant as [|r0 rs] eqn:E; [now left|]. right.
  cbn [head is_some negb]. exists (firstn 5 (r0 :: rs)).
  split; [reflexivity|]. split; [discriminate|].
  split; [apply firstn_le_length|].
  rewrite <- E. split.
  - transitivity relevant; [apply sublist_take | apply filter_sublist].
  - apply Forall_take. apply List.Forall_forall. intros line Hin.
    apply List.filter_In in Hin as [_ Hf]. subst f. cbv beta in Hf.
    apply List.existsb_exists in Hf as (word & Hw & Hcontains).
    now exists word.
Qed.

Lemma split_of_white_space cur s :
  Py.all_chars Py.isspace s = true ->
  Py.split_ws_aux cur s = match cur with Some w => [w] | None => [] end.
Proof.
  revert cur. induction s as [|c s IH]; intros cur H; [now destruct cur|].
  cbn [Py.all_chars] in H. apply andb_prop in H as [Hc H].
  cbn [Py.split_ws_aux]. rewrite Hc. destruct cur as [w|]; rewrite (IH None H);
    reflexivity.
Qed.

Lemma lower_white_space s :
  Py.all_chars Py.isspace s = true -> Py.lower s = s.
Proof.
  induction s as [|c s IH]; [reflexivity|]. cbn [Py.all_chars Py.lower].
  intros H. apply andb_prop in H as [Hc H].
  now rewrite (lower_char_fixed c (or_intror Hc)), IH.
Qed.

(** X19. When the completion service fails, a query without a word (empty
    or all white space) matches no line: the answer is the fixed "no
    relevant information" message, whatever the document holds. *)
Theorem wordless_query_finds_nothing (q d : string) (l : log) (e : string) :
  d <> "" ->
  Py.all_chars Py.isspace q = true ->
  complete l extraction_llm (extraction_prompt d q) = Raises e ->
  fst (query_documents q d l)
  = "No relevant information found in the documents for your query.".
Proof.
  intros Hd Hq Hc.
  rewrite (query_documents_fallback q d l e); [|now destruct d|exact Hc].
  cbv zeta. rewrite (lower_white_space q Hq). unfold Py.split.
  rewrite (split_of_white_space None q Hq). cbn [existsb].
  assert (List.filter (fun _ : string => false) (Py.split_on (ascii_of_N 10) d) = [])
    as ->; [|reflexivity].
  induction (Py.split_on (ascii_of_N 10) d); [reflexivity | assumption].
Qed.

(* --------------------------------------------------------------------- *)
(** *** The session store *)
(* --------------------------------------------------------------------- *)

Lemma fold_delete_lookup (ks : list string) (m : gmap string Session) (i : string) :
  fold_left (fun sessions sid => delete sid sessions) ks m !! i
  = if bool_decide (i ∈ ks) then None else m !! i.
Proof.
  revert m. induction ks as [|k ks IH]; intros m; [reflexivity|].
  cbn [fold_left]. rewrite IH.
  destruct (decide (i = k)) as [->|Hne].
  - rewrite lookup_delete_eq.
    rewrite (bool_decide_eq_true_2 (k ∈ k :: ks)) by (left).
    now destruct (bool_decide (k ∈ ks)).
  - rewrite lookup_delete_ne by congruence.
    destruct (bool_decide (i ∈ ks)) eqn:E.
    + apply bool_decide_eq_true in E.
      now rewrite (bool_decide_eq_true_2 (i ∈ k :: ks)) by (now right).
    + apply bool_decide_eq_false in E.
      rewrite (bool_decide_eq_false_2 (i ∈ k :: ks)); [reflexivity|].
      intros [->|H]%elem_of_cons; [congruence | contradiction].
Qed.

Lemma expired_sessions_spec (f : string * Session -> bool)
    (m : gmap string Session) (i : string) :
  i ∈ List.map fst (List.filter f (map_to_list m))
  <-> exists s, m !! i = Some s /\ f (i, s) = true.
Proof.
  rewrite list_elem_of_In, List.in_map_iff. split.
  - intros ([k s] & <- & Hin). apply List.filter_In in Hin as [Hin Hf].
    apply list_elem_of_In, elem_of_map_to_list in Hin. now exists s.
  - intros (s & Hs & Hf). exists (i, s). split; [reflexivity|].
    apply List.filter_In. split; [|exact Hf].
    now apply list_elem_of_In, elem_of_map_to_list.
Qed.

Lemma cleanup_lookup_absent sessions l sid :
  sessions !! sid = None -> fst (cleanup_old_sessions sessions l) !! sid = None.
Proof.
  intros Hs. unfold cleanup_old_sessions, bind, app_now, ret. cbn [fst].
  rewrite fold_delete_lookup, Hs. now destruct (bool_decide _).
Qed.

Lemma cleanup_lookup_expired sessions l sid s :
  sessions !! sid = Some s ->
  SESSION_TIMEOUT < timedelta_seconds (clock l) (last_accessed s) ->
  fst (cleanup_old_sessions sessions l) !! sid = None.
Proof.
  intros Hs Ht. unfold cleanup_old_sessions, bind, app_now, ret. cbn [fst].
  rewrite fold_delete_lookup, bool_decide_eq_true_2; [reflexivity|].
  apply expired_sessions_spec. exists s. split; [exact Hs|].
  cbn [snd]. now apply Z.ltb_lt.
Qed.

Lemma cleanup_lookup_recent sessions l sid s :
  sessions !! sid = Some s ->
  timedelta_seconds (clock l) (last_accessed s) <= SESSION_TIMEOUT ->
  fst (cleanup_old_sessions sessions l) !! sid = Some s.
Proof.
  intros Hs Ht. unfold cleanup_old_sessions, bind, app_now, ret. cbn [fst].
  rewrite fold_delete_lookup, bool_decide_eq_false_2; [exact Hs|].
  intros (s' & Hs' & Hf)%expired_sessions_spec.
  rewrite Hs in Hs'. injection Hs' as <-. cbn [snd] in Hf.
  apply Z.ltb_lt in Hf. lia.
Qed.

Lemma cleanup_log sessions l : snd (cleanup_old_sessions sessions l) = l ++ [EvNow].
Proof. reflexivity. Qed.

(** X20. [cleanup_old_sessions] removes exactly the sessions for which the
    seconds of the time since the last access exceed the timeout, and
    leaves every other session as it was. *)
Theorem cleanup_removes_exactly_the_expired_sessions
    (sessions : gmap string Session) (l : log) (sid : string) :
  fst (cleanup_old_sessions sessions l) !! sid
  = match sessions !! sid with
    | Some s =>
        if 3600 <? timedelta_seconds (clock l) (last_accessed s)
        then None else Some s
    | None => None
    end.
Proof.
  destruct (sessions !! sid) as [s|] eqn:Hs.
  - destruct (3600 <? timedelta_seconds (clock l) (last_accessed s)) eqn:Hf.
    + apply Z.ltb_lt in Hf. now apply (cleanup_lookup_expired _ _ _ s).
    + apply Z.ltb_ge in Hf. now apply cleanup_lookup_recent.
  - now apply cleanup_lookup_absent.
Qed.

(** X21. The expiry test reads only the seconds of the idle time, not its
    days: a session last accessed a whole number of days and at most one
    hour (and less than one more second) ago is kept by
    [cleanup_old_sessions], however many days that is. *)
Theorem session_idle_for_whole_days_is_kept
    (sessions : gmap string Session) (l : log) (sid : string) (s : Session)
    (days rest : Z) :
  sessions !! sid = Some s ->
  clock l = last_accessed s + days * 86400000000 + rest ->
  0 <= rest < 3601000000 ->
  fst (cleanup_old_sessions sessions l) !! sid = Some s.
Proof.
  intros Hs Hclock Hrest.
  apply cleanup_lookup_recent; [exact Hs|].
  assert (timedelta_seconds (clock l) (last_accessed s) = rest / 1000000) as ->.
  { unfold timedelta_seconds. rewrite Hclock.
    replace (last_accessed s + days * 86400000000 + rest - last_accessed s)
      with (rest + (days * 86400) * 1000000) by lia.
    rewrite Z.div_add by lia.
    rewrite Z.add_comm, Z.mul_comm, Z.add_comm.
    replace (rest / 1000000 + 86400 * days) with (rest / 1000000 + days * 86400) by lia.
    rewrite Z.mod_add by lia. apply Z.mod_small.
    split; [apply Z.div_pos; lia|].
    apply Z.div_lt_upper_bound; lia. }
  unfold SESSION_TIMEOUT. apply Z.lt_succ_r. apply Z.div_lt_upper_bound; lia.
Qed.

Lemma get_or_create_known session_id sessions l s :
  known_session session_id sessions = Some s ->
  exists sid,
    session_id = Some sid
    /\ sessions !! sid = Some s
    /\ get_or_create_session session_id sessions l
       = ((sid, set_last_accessed (clock l) s,
           <[sid := set_last_accessed (clock l) s]> sessions),
          l ++ [EvNow]).
Proof.
  unfold known_session, get_or_create_session.
  destruct session_id as [sid|]; [|discriminate].
  destruct (is_empty sid); [discriminate|]. intros H. exists sid.
  cbn [negb]. rewrite H. now repeat split.
Qed.

Lemma get_or_create_unknown session_id sessions l :
  known_session session_id sessions = None ->
  get_or_create_session session_id sessions l
  = ((uuid4 l, created_session l, <[uuid4 l := created_session l]> sessions),
     l ++ [EvNow; EvNow]).
Proof.
  unfold known_session, get_or_create_session.
  assert (Hc : create_session sessions l
               = ((uuid4 l, created_session l,
                   <[uuid4 l := created_session l]> sessions),
                  l ++ [EvNow; EvNow])).
  { unfold create_session, bind, app_now, ret, created_session.
    now rewrite <- app_assoc. }
  destruct session_id as [sid|]; [|intros _; exact Hc].
  destruct (is_empty sid); [intros _; exact Hc|]. cbn [negb].
  now intros ->.
Qed.

(** X22. [get_or_create_session] returns an id that the store holds,
    bound to the session it returns, and touches no other session.  When
    the id of the request is not empty and known, it is that id and the
    session is the stored one with only [last_accessed] updated; in every
    other case (no id, the empty id, an unknown id) the id is a new uuid
    and the session is empty: the id of the request is not used. *)
Theorem get_or_create_session_returns_a_stored_session
    (session_id : option string) (sessions : gmap string Session) (l : log) :
  let '(sid, s, sessions') := fst (get_or_create_session session_id sessions l) in
  sessions' !! sid = Some s
  /\ (forall k, k <> sid -> sessions' !! k = sessions !! k)
  /\ match known_session session_id sessions with
     | Some stored =>
         session_id = Some sid /\ s = set_last_accessed (clock l) stored
     | None => sid = uuid4 l /\ session_data s = fresh_session_data
     end.
Proof.
  destruct (known_session session_id sessions) as [stored|] eqn:Hk.
  - destruct (get_or_create_known _ _ l _ Hk) as (sid & -> & _ & ->).
    cbn [fst]. split; [apply lookup_insert_eq|]. split; [|now split].
    intros k Hne. now apply lookup_insert_ne.
  - rewrite (get_or_create_unknown _ _ l Hk). cbn [fst].
    split; [apply lookup_insert_eq|]. split; [|now split].
    intros k Hne. now apply lookup_insert_ne.
Qed.

(** X23. [delete_session] answers 404 and changes nothing when the store
    does not hold the id; otherwise it removes that session and no other,
    and a second deletion of the same id answers 404. *)
Theorem delete_session_removes_one_session
    (sid : string) (sessions : gmap string Session) :
  let '(answer, sessions') := delete_session sid sessions in
  sessions' !! sid = None
  /\ (forall k, k <> sid -> sessions' !! k = sessions !! k)
  /\ (sessions !! sid = None ->
      answer = HTTPException 404 "Session not found" /\ sessions' = sessions)
  /\ delete_session sid sessions' = (HTTPException 404 "Session not found", sessions').
Proof.
  unfold delete_session. destruct (sessions !! sid) as [s|] eqn:Hs.
  - rewrite lookup_delete_eq. split; [reflexivity|]. split; [|split].
    + intros k Hne. now apply lookup_delete_ne.
    + discriminate.
    + reflexivity.
  - rewrite Hs. repeat split; reflexivity.
Qed.

(* --------------------------------------------------------------------- *)
(** *** The chat and upload endpoints *)
(* --------------------------------------------------------------------- *)

Lemma run_agent_facts u s l :
  exists r delta,
    run_agent u (Some s) l = (Some r, l ++ delta)
    /\ is_intent (result_intent r)
    /\ session_conversation_history (result_session_data r)
       = session_conversation_history s ++ [(u, result_response r)]
    /\ session_documents_content (result_session_data r)
       = session_documents_content s
    /\ (forall k v, recorded (session_appointment_data s) k v ->
                    recorded (session_appointment_data (result_session_data r)) k v).
Proof.
  destruct (run_agent_result u (Some s) l)
    as (final & delta & Heq & Hi & _ & Hkeep & _).
  eexists. exists delta. split; [exact Heq|]. cbn [default] in *.
  cbn [result_intent result_session_data result_response
       session_conversation_history session_documents_content
       session_appointment_data].
  split; [exact Hi|]. split; [reflexivity|]. split; [reflexivity | exact Hkeep].
Qed.

(** The chat endpoint once the session is found or created. *)
Lemma chat_with_session request sessions l sid s store l2 :
  get_or_create_session (request_session_id request)
    (fst (cleanup_old_sessions sessions l)) (l ++ [EvNow])
  = ((sid, s, store), l2) ->
  exists r t,
    fst (chat request sessions l)
    = (Ok {| chat_response := result_response r;
             chat_session_id := sid;
             chat_intent := result_intent r;
             chat_appointment_data :=
               Some (session_appointment_data (result_session_data r)) |},
       <[sid := set_last_accessed t (set_session_data (result_session_data r) s)]> store)
    /\ is_intent (result_intent r)
    /\ session_conversation_history (result_session_data r)
       = session_conversation_history (session_data s)
         ++ [(message request, result_response r)]
    /\ session_documents_content (result_session_data r)
       = session_documents_content (session_data s)
    /\ (forall k v,
           recorded (session_appointment_data (session_data s)) k v ->
           recorded (session_appointment_data (result_session_data r)) k v).
Proof.
  intros Hfound. unfold chat, bind.
  destruct (cleanup_old_sessions sessions l) as [cleaned l1] eqn:Hclean.
  pose proof (cleanup_log sessions l) as Hl1. rewrite Hclean in Hl1.
  cbn [fst snd] in Hfound, Hl1. subst l1. rewrite Hfound.
  unfold print, emit.
  match goal with
  | |- context [run_agent ?u ?sd ?l3] =>
      destruct (run_agent_facts u (session_data s) l3)
        as (r & delta & Hrun & Hi & Hhist & Hdocs & Hkeep);
      exists r, (clock (l3 ++ delta))
  end.
  rewrite Hrun. unfold app_now, ret. cbn [fst snd].
  split; [reflexivity|]. split; [exact Hi|]. split; [exact Hhist|].
  split; [exact Hdocs | exact Hkeep].
Qed.

(** X24. The chat endpoint answers every request without raising: the
    store then holds a session under the id of the response, the last
    entry of its conversation history is the message with the response,
    the [appointment_data] of the response is the one stored, and the
    intent is one of the two routes. *)
Theorem chat_stores_the_turn
    (request : ChatRequest) (sessions : gmap string Session) (l : log) :
  exists resp sessions' s' earlier,
    fst (chat request sessions l) = (Ok resp, sessions')
    /\ sessions' !! chat_session_id resp = Some s'
    /\ chat_appointment_data resp
       = Some (session_appointment_data (session_data s'))
    /\ session_conversation_history (session_data s')
       = earlier ++ [(message request, chat_response resp)]
    /\ is_intent (chat_intent resp).
Proof.
  destruct (get_or_create_session (request_session_id request)
              (fst (cleanup_old_sessions sessions l)) (l ++ [EvNow]))
    as [[[sid s] store] l2] eqn:Hfound.
  destruct (chat_with_session request sessions l sid s store l2 Hfound)
    as (r & t & Hchat & Hi & Hhist & _).
  rewrite Hchat. eexists. eexists. eexists. exists (session_conversation_history (session_data s)).
  split; [reflexivity|].
  cbn [chat_session_id chat_appointment_data chat_response chat_intent].
  split; [apply lookup_insert_eq|].
  cbn [set_last_accessed set_session_data session_data].
  split; [reflexivity|]. split; [exact Hhist | exact Hi].
Qed.

(** X25. A chat request that names a session of the store that has not
    expired continues it: the response carries the same id, and the
    stored session keeps its creation time, its documents and every
    recorded field, with the turn appended to its history. *)
Theorem chat_continues_a_live_session
    (request : ChatRequest) (sessions : gmap string Session) (l : log)
    (sid : string) (s : Session) :
  request_session_id request = Some sid ->
  sid <> "" ->
  sessions !! sid = Some s ->
  timedelta_seconds (clock l) (last_accessed s) <= 3600 ->
  exists resp sessions' s',
    fst (chat request sessions l) = (Ok resp, sessions')
    /\ chat_session_id resp = sid
    /\ sessions' !! sid = Some s'
    /\ created_at s' = created_at s
    /\ session_documents_content (session_data s')
       = session_documents_content (session_data s)
    /\ session_conversation_history (session_data s')
       = session_conversation_history (session_data s)
         ++ [(message request, chat_response resp)]
    /\ (forall k v,
           recorded (session_appointment_data (session_data s)) k v ->
           recorded (session_appointment_data (session_data s')) k v).
Proof.
  intros Hid Hne Hs Hrecent.
  pose proof (cleanup_lookup_recent sessions l sid s Hs Hrecent) as Hkept.
  assert (Hk : known_session (request_session_id request)
                 (fst (cleanup_old_sessions sessions l)) = Some s).
  { rewrite Hid. cbn [known_session]. destruct sid; [congruence | exact Hkept]. }
  destruct (get_or_create_known _ _ (l ++ [EvNow]) _ Hk) as (sid' & Hid' & _ & Hfound).
  rewrite Hid in Hid'. injection Hid' as <-.
  destruct (chat_with_session request sessions l _ _ _ _ Hfound)
    as (r & t & Hchat & _ & Hhist & Hdocs & Hkeep).
  rewrite Hchat. eexists. eexists. eexists. split; [reflexivity|].
  cbn [chat_session_id chat_response].
  split; [reflexivity|]. split; [apply lookup_insert_eq|].
  cbn [set_last_accessed set_session_data session_data created_at] in *.
  split; [reflexivity|]. split; [exact Hdocs|]. split; [exact Hhist | exact Hkeep].
Qed.

(** X26. A chat request that names a session that has expired does not
    continue it: the session is removed, the response carries a new uuid,
    and the session stored under it starts from nothing, its history
    holding this turn alone. *)
Theorem chat_after_expiry_starts_over
    (request : ChatRequest) (sessions : gmap string Session) (l : log)
    (sid : string) (s : Session) :
  request_session_id request = Some sid ->
  sessions !! sid = Some s ->
  3600 < timedelta_seconds (clock l) (last_accessed s) ->
  exists resp sessions' s',
    fst (chat request sessions l) = (Ok resp, sessions')
    /\ chat_session_id resp = uuid4 (l ++ [EvNow])
    /\ sessions' !! chat_session_id resp = Some s'
    /\ session_conversation_history (session_data s')
       = [(message request, chat_response resp)]
    /\ session_documents_content (session_data s') = ""
    /\ (uuid4 (l ++ [EvNow]) <> sid -> sessions' !! sid = None).
Proof.
  intros Hid Hs Hexpired.
  pose proof (cleanup_lookup_expired sessions l sid s Hs Hexpired) as Hgone.
  assert (Hk : known_session (request_session_id request)
                 (fst (cleanup_old_sessions sessions l)) = None).
  { rewrite Hid. cbn [known_session]. now destruct (is_empty sid). }
  pose proof (get_or_create_unknown _ _ (l ++ [EvNow]) Hk) as Hfound.
  destruct (chat_with_session request sessions l _ _ _ _ Hfound)
    as (r & t & Hchat & _ & Hhist & Hdocs & _).
  rewrite Hchat. eexists. eexists. eexists. split; [reflexivity|].
  cbn [chat_session_id chat_response].
  split; [reflexivity|]. split; [apply lookup_insert_eq|].
  cbn [set_last_accessed set_session_data session_data created_session
       fresh_session_data session_conversation_history
       session_documents_content] in *.
  split; [exact Hhist|]. split; [exact Hdocs|].
  intros Hne. rewrite !lookup_insert_ne by congruence. exact Hgone.
Qed.

(** X27. An upload that names a session of the store replaces its
    [documents_content] with the text of the file and leaves its
    appointment data, its conversation history and its creation time as
    they were. *)
Theorem upload_replaces_the_documents
    (filename text : string) (session_id : option string)
    (sessions : gmap string Session) (l : log) (s : Session) :
  known_session session_id sessions = Some s ->
  exists sid resp sessions' s',
    session_id = Some sid
    /\ fst (upload_document filename (Some text) session_id sessions l)
       = (Ok resp, sessions')
    /\ upload_session_id resp = sid
    /\ sessions' !! sid = Some s'
    /\ session_documents_content (session_data s') = text
    /\ session_appointment_data (session_data s')
       = session_appointment_data (session_data s)
    /\ session_conversation_history (session_data s')
       = session_conversation_history (session_data s)
    /\ created_at s' = created_at s.
Proof.
  intros Hk. destruct (get_or_create_known _ _ l _ Hk) as (sid & -> & _ & Hfound).
  exists sid. unfold upload_document, bind. rewrite Hfound.
  unfold app_now, ret. cbn [fst]. eexists. eexists. eexists.
  split; [reflexivity|]. split; [reflexivity|]. cbn [upload_session_id].
  split; [reflexivity|]. split.
  - rewrite !lookup_alter_eq, lookup_insert_eq. reflexivity.
  - now repeat split.
Qed.

(** X28. An upload that cannot be decoded answers 400, yet the session
    was found or created before the file was read: when the request named
    no session of the store, a new empty session stays in the store under
    a uuid that the response does not show. *)
Theorem rejected_upload_leaves_a_session
    (filename : string) (session_id : option string)
    (sessions : gmap string Session) (l : log) :
  known_session session_id sessions = None ->
  fst (upload_document filename None session_id sessions l)
  = (HTTPException 400 "File must be a text file (UTF-8 encoded)",
     <[uuid4 l := created_session l]> sessions).
Proof.
  intros Hk. unfold upload_document, bind.
  now rewrite (get_or_create_unknown _ _ l Hk).
Qed.

End Program.

(* ===================================================================== *)
(** ** Concrete runs *)
(* ===================================================================== *)

Example validate_phone_formatted :
  validate_phone "+1 (555) 123-4567" = Valid "15551234567" None.
Proof. vm_compute. reflexivity. Qed.

Example validate_phone_too_short :
  validate_phone "555-1234" = Invalid "Phone number must be between 10 and 15 digits.".
Proof. vm_compute. reflexivity. Qed.

Example validate_name_trims :
  validate_name "  Jean-Luc O'Neil " = Valid "Jean-Luc O'Neil" None.
Proof. vm_compute. reflexivity. Qed.

Example validate_name_rejects_digit :
  validate_name "R2D2"
  = Invalid "Name can only contain letters, spaces, and basic punctuation.".
Proof. vm_compute. reflexivity. Qed.

Example next_monday_on_a_monday :
  fst (extract_date_from_natural_language failing_parser monday "next Monday" [])
  = Valid "2024-01-08" (Some "January 08, 2024").
Proof. vm_compute. reflexivity. Qed.

Example keyword_search_when_the_service_is_down :
  query_documents failing_service "What are your business hours?"
    (lines ["Business Hours: Monday to Friday, 9 AM - 6 PM";
            "Contact: support@company.com"]) []
  = ("Business Hours: Monday to Friday, 9 AM - 6 PM",
     [EvInvoke {| model := OLLAMA_MODEL; base_url := OLLAMA_BASE_URL;
                  temperature_tenths := 3 |}
        (extraction_prompt
           (lines ["Business Hours: Monday to Friday, 9 AM - 6 PM";
                   "Contact: support@company.com"])
           "What are your business hours?");
      EvPrint "LLM query failed, falling back to keyword search: connection refused"]).
Proof. vm_compute. reflexivity. Qed.

Example first_turn_asks_for_the_phone :
  let st' := fst (handle_appointment_booking (replying "John Doe") accepting_checker
                    failing_parser monday (session "My name is John Doe" ∅) []) in
  appointment_data st' !! "name" = Some "John Doe"
  /\ response st'
     = lines ["Got it! I've recorded your name as John Doe."; "";
              "Could you please provide your phone number?"]
  /\ next_action st' = "continue".
Proof. vm_compute. repeat split; reflexivity. Qed.

Example in_three_days :
  fst (extract_date_from_natural_language failing_parser wednesday "in 3 days" [])
  = Valid "2024-01-06" (Some "January 06, 2024").
Proof. vm_compute. reflexivity. Qed.

(** C1, as the claim states it, fails: with the service down, an input
    with the keywords "schedule" and "meeting" is classified
    [document_query], not [appointment_booking]. *)
Lemma classify_intent_failing_service_counterexample :
  let st := session "I'd like to schedule a meeting" ∅ in
  has_appointment_keyword (user_input st) = true
  /\ intent (fst (classify_intent failing_service st [])) = "document_query"
  /\ intent (fst (classify_intent failing_service st [])) <> "appointment_booking".
Proof. vm_compute. repeat split; discriminate. Qed.

Lemma classify_intent_keyword_fallback_witness :
  let st := session "I'd like to schedule a meeting" ∅ in
  intent (fst (classify_intent failing_service st [])) = "document_query"
  /\ intent (fst (classify_intent (replying "I am not sure.") st []))
     = "appointment_booking".
Proof.
  split.
  - apply (classify_intent_keyword_fallback failing_service
             (session "I'd like to schedule a meeting" ∅) []).
    vm_compute. reflexivity.
  - apply (classify_intent_keyword_fallback (replying "I am not sure.")
             (session "I'd like to schedule a meeting" ∅) []).
    + vm_compute. reflexivity.
    + vm_compute. reflexivity.
Defined.

Lemma complete_record_is_confirmed_witness :
  let r := handle_appointment_booking failing_service accepting_checker
             failing_parser monday
             (session "My name is Jane Roe, phone 555-000-1111" full_record) [] in
  next_action (fst r) = "complete"
  /\ appointment_data (fst r) = full_record
  /\ snd r = [].
Proof.
  destruct (complete_record_is_confirmed failing_service accepting_checker
              failing_parser monday
              (session "My name is Jane Roe, phone 555-000-1111" full_record) []
              "John Doe" "5551234567" "john.doe@example.com" "2024-01-08")
    as (_ & Hnext & Hdata & Hlog).
  - split; [vm_compute; reflexivity | discriminate].
  - split; [vm_compute; reflexivity | discriminate].
  - split; [vm_compute; reflexivity | discriminate].
  - split; [vm_compute; reflexivity | discriminate].
  - exact (conj Hnext (conj Hdata Hlog)).
Defined.

Lemma one_question_for_the_first_missing_field_witness :
  let st' := fst (handle_appointment_booking failing_service accepting_checker
                    failing_parser monday
                    (session "my email is jane@example.org" ∅) []) in
  response st'
  = lines ["Email recorded: jane@example.org"; "";
           "Could you please provide your full name?"]
  /\ next_action st' = "continue"
  /\ question_marks (response st') = 1%nat
  /\ questions_asked (response st') = ["name"].
Proof.
  destruct (one_question_for_the_first_missing_field failing_service
              accepting_checker failing_parser monday
              (session "my email is jane@example.org" ∅) [] "name")
    as (_ & Hnext & Hcount).
  - vm_compute. reflexivity.
  - destruct Hcount as [Hmarks Hasked].
    + intros _. vm_compute. reflexivity.
    + split; [vm_compute; reflexivity|].
      split; [exact Hnext|]. split; [exact Hmarks | exact Hasked].
Defined.

Lemma email_and_phone_in_one_turn_witness :
  let st' := fst (handle_appointment_booking failing_service accepting_checker
                    failing_parser monday
                    (session "Email is john.doe@example.com and phone 555-123-4567"
                       name_only) []) in
  missing_fields (appointment_data st') = ["date"]
  /\ next_action st' = "continue".
Proof.
  destruct (email_and_phone_in_one_turn failing_service accepting_checker
              failing_parser monday
              (session "Email is john.doe@example.com and phone 555-123-4567"
                 name_only) [] "john.doe@example.com")
    as (_ & Hmissing & _ & Hnext).
  - reflexivity.
  - reflexivity.
  - reflexivity.
  - discriminate.
  - reflexivity.
  - exact (conj Hmissing Hnext).
Defined.

Lemma recorded_fields_are_kept_witness :
  appointment_data
    (fst (handle_appointment_booking (replying "Jane Roe") accepting_checker
            failing_parser monday
            (session "I am Jane Roe, call me tomorrow" name_only) []))
  !! "name" = Some "John Doe".
Proof.
  apply (recorded_fields_are_kept (replying "Jane Roe") accepting_checker
           failing_parser monday
           (session "I am Jane Roe, call me tomorrow" name_only) []
           "name" "John Doe").
  split; [vm_compute; reflexivity | discriminate].
Defined.

(** C6, as the claim states it, fails: the ten characters of
    [superscript_phone] hold no formatting and are not all digits 0 to 9,
    the last one being a superscript two, yet [validate_phone] succeeds
    and returns them as the phone number. *)
Lemma validate_phone_superscript_counterexample :
  Py.filter_chars (fun c => negb (phone_formatting c)) superscript_phone
  = superscript_phone
  /\ Py.len superscript_phone = 10%nat
  /\ Py.all_chars Py.isdecimal superscript_phone = false
  /\ validate_phone superscript_phone = Valid superscript_phone None.
Proof. vm_compute. repeat split; reflexivity. Qed.

(** C7, as the claim states it, fails: [accented_name] has four
    characters, all of them letters, and [validate_name] rejects it. *)
Lemma validate_name_accented_counterexample :
  Py.strip accented_name = accented_name
  /\ Py.len accented_name = 4%nat
  /\ Py.all_chars Py.isalpha_char accented_name = true
  /\ validate_name accented_name
     = Invalid "Name can only contain letters, spaces, and basic punctuation.".
Proof. vm_compute. repeat split; reflexivity. Qed.

(** C8, as the claim states it, fails: on Wednesday 2024-01-03 the input
    "next week or next monday" contains "next monday", and the resolver
    returns Wednesday 2024-01-10 (the "next week" rule comes first), not
    Monday 2024-01-08.  And on Friday 9999-12-31 the input "next monday"
    gets no date at all: the Monday after it is outside [datetime]. *)
Lemma next_weekday_priority_counterexample :
  let text := "next week or next monday" in
  Py.contains "next monday" (Py.strip (Py.lower text)) = true
  /\ fst (extract_date_from_natural_language failing_parser wednesday text [])
     = Valid "2024-01-10" (Some "January 10, 2024")
  /\ Dt.strftime_iso (Dt.mk (Dt.ordinal wednesday + 5) 0) = "2024-01-08"
  /\ Dt.weekday (Dt.mk (Dt.ordinal wednesday + 5) 0) = 0
  /\ Dt.weekday (Dt.mk (Dt.ordinal wednesday + 7) 0) <> 0
  /\ Dt.weekday last_day = 4
  /\ is_valid (fst (extract_date_from_natural_language failing_parser last_day
                      "next monday" [])) = false.
Proof. vm_compute. repeat split; discriminate. Qed.

Lemma next_weekday_is_the_next_occurrence_witness :
  (exists target,
      Dt.weekday target = 0
      /\ Dt.ordinal target = Dt.ordinal monday + 7
      /\ fst (extract_date_from_natural_language failing_parser monday
                "See you next Monday!" [])
         = rendering target)
  /\ fst (extract_date_from_natural_language failing_parser last_day
            "next monday" [])
     = could_not_parse "next monday".
Proof.
  split.
  - destruct (next_weekday_is_the_next_occurrence failing_parser monday 0
                "See you next Monday!" [])
      as (target & Hday & _ & _ & Hsame & Hvalue).
    + lia.
    + vm_compute. reflexivity.
    + vm_compute. reflexivity.
    + vm_compute. split; discriminate.
    + exists target. split; [exact Hday|].
      specialize (Hsame eq_refl). split; [exact Hsame|].
      rewrite Hvalue, Hsame. reflexivity.
  - destruct (next_weekday_is_the_next_occurrence failing_parser last_day 0
                "next monday" [])
      as (target & Hday & Hafter & _ & _ & Hvalue).
    + lia.
    + vm_compute. reflexivity.
    + vm_compute. reflexivity.
    + vm_compute. split; discriminate.
    + rewrite Hvalue.
      assert ((Dt.ordinal target <=? Dt.max_ordinal) = false) as ->
          by (apply Z.leb_gt; exact Hafter).
      reflexivity.
Defined.

(** C9, as the claim states it, fails: on 9999-12-31 ["today"] succeeds and
    ["tomorrow"] does not, the day after being outside [datetime].  And on
    0999-12-30 both succeed with values that are not canonical YYYY-MM-DD
    texts, the year being written without padding. *)
Lemma tomorrow_on_the_last_day_counterexample :
  fst (extract_date_from_natural_language failing_parser last_day "today" [])
  = Valid "9999-12-31" (Some "December 31, 9999")
  /\ is_valid (fst (extract_date_from_natural_language failing_parser last_day
                      "tomorrow" [])) = false
  /\ fst (extract_date_from_natural_language failing_parser year_999 "today" [])
     = Valid "999-12-30" (Some "December 30, 999")
  /\ fst (extract_date_from_natural_language failing_parser year_999 "tomorrow" [])
     = Valid "999-12-31" (Some "December 31, 999")
  /\ canonical_date "999-12-30" = false
  /\ canonical_date "999-12-31" = false.
Proof. vm_compute. repeat split; reflexivity. Qed.

Lemma tomorrow_is_today_plus_one_day_witness :
  exists next,
    Dt.ordinal next = Dt.ordinal wednesday + 1
    /\ fst (extract_date_from_natural_language failing_parser wednesday "today" [])
       = rendering wednesday
    /\ fst (extract_date_from_natural_language failing_parser wednesday "tomorrow" [])
       = rendering next
    /\ canonical_date (Dt.strftime_iso wednesday) = true
    /\ canonical_date (Dt.strftime_iso next) = true.
Proof.
  destruct (tomorrow_is_today_plus_one_day failing_parser wednesday [] [])
    as (next & Hnext & Htoday & Htomorrow & Hcanonical).
  - unfold Dt.min_ordinal, Dt.max_ordinal, wednesday. cbn [Dt.ordinal]. lia.
  - exists next. split; [exact Hnext|]. split; [exact Htoday|].
    split; [exact Htomorrow|]. apply Hcanonical.
    unfold year_1000, wednesday. cbn [Dt.ordinal]. lia.
Defined.

(* ===================================================================== *)
(** ** Concrete runs of the further properties *)
(* ===================================================================== *)

Example a_document_turn_with_documents_calls_the_service_three_times :
  invocations
    (snd (run_agent (replying "document_query") accepting_checker failing_parser
            monday "What are your business hours?"
            (Some {| session_appointment_data := ∅;
                     session_conversation_history := [];
                     session_documents_content := "Business Hours: 9 AM - 6 PM" |})
            []))
  = 3%nat.
Proof. vm_compute. reflexivity. Qed.

Lemma document_turn_keeps_appointment_data_witness :
  exists r,
    fst (run_agent failing_service accepting_checker failing_parser monday
           "What are your business hours?" (Some booking_session_data) [])
    = Some r
    /\ session_appointment_data (result_session_data r) = name_only.
Proof.
  eexists. split.
  - vm_compute. reflexivity.
  - apply (document_turn_keeps_appointment_data failing_service accepting_checker
             failing_parser monday "What are your business hours?"
             (Some booking_session_data) []).
    + vm_compute. reflexivity.
    + vm_compute. reflexivity.
Defined.

Lemma conversation_keeps_recorded_fields_witness :
  exists s',
    fst (converse (replying "appointment_booking") accepting_checker failing_parser
           monday ["I am Jane Roe"; "my phone is 555-123-4567"]
           booking_session_data [])
    = Some s'
    /\ session_appointment_data s' !! "name" = Some "John Doe".
Proof.
  apply (conversation_keeps_recorded_fields (replying "appointment_booking")
           accepting_checker failing_parser monday
           ["I am Jane Roe"; "my phone is 555-123-4567"] booking_session_data []
           "name" "John Doe").
  split; [vm_compute; reflexivity | discriminate].
Defined.

Lemma failing_service_answers_with_the_apology_witness :
  exists r e,
    fst (run_agent failing_service accepting_checker failing_parser monday
           "my phone is 555-123-4567" (Some booking_session_data) [])
    = Some r
    /\ result_intent r = "document_query"
    /\ result_response r = "I apologize, but I encountered an error: " +:+ e
    /\ session_appointment_data (result_session_data r) = name_only.
Proof.
  apply (failing_service_answers_with_the_apology failing_service accepting_checker
           failing_parser monday "my phone is 555-123-4567"
           (Some booking_session_data) []).
  intros l' c p. exists "connection refused". reflexivity.
Defined.

Lemma validate_phone_is_idempotent_witness :
  validate_phone "5551234567" = Valid "5551234567" None.
Proof.
  apply (validate_phone_is_idempotent "(555) 123-4567" "5551234567" None).
  vm_compute. reflexivity.
Defined.

Lemma validate_phone_ignores_formatting_witness :
  validate_phone ("555" +:+ " - (" +:+ "1234567") = validate_phone ("555" +:+ "1234567").
Proof.
  apply (validate_phone_ignores_formatting "555" " - (" "1234567").
  vm_compute. reflexivity.
Defined.

Lemma validate_name_is_idempotent_witness :
  Py.strip "Ann Lee" = "Ann Lee" /\ validate_name "Ann Lee" = Valid "Ann Lee" None.
Proof.
  apply (validate_name_is_idempotent "  Ann Lee " "Ann Lee" None).
  vm_compute. reflexivity.
Defined.

Lemma recorded_phone_is_ten_to_fifteen_digits_witness :
  Py.all_chars Py.isdecimal "5551234567" = true
  /\ (10 <= Py.len "5551234567" <= 15)%nat.
Proof.
  apply (recorded_phone_is_ten_to_fifteen_digits failing_service accepting_checker
           failing_parser monday (session "my phone is 555-123-4567" name_only) []
           "5551234567").
  - vm_compute. reflexivity.
  - split; [vm_compute; reflexivity | discriminate].
Defined.

Lemma recorded_name_is_well_formed_witness :
  (2 <= Py.len "Ann Lee")%nat
  /\ Py.all_chars name_character "Ann Lee" = true
  /\ Py.strip "Ann Lee" = "Ann Lee".
Proof.
  apply (recorded_name_is_well_formed (replying "  Ann Lee ") accepting_checker
           failing_parser monday (session "I am Ann Lee" ∅) [] "Ann Lee").
  - vm_compute. reflexivity.
  - split; [vm_compute; reflexivity | discriminate].
Defined.

Lemma next_week_is_seven_days_later_witness :
  exists target,
    fst (extract_date_from_natural_language failing_parser wednesday
           "Next week on Friday" [])
    = rendering target
    /\ Dt.ordinal target = Dt.ordinal wednesday + 7
    /\ Dt.weekday target = Dt.weekday wednesday.
Proof.
  apply (next_week_is_seven_days_later failing_parser wednesday
           "Next week on Friday" []).
  - vm_compute. reflexivity.
  - vm_compute. discriminate.
  - vm_compute. discriminate.
Defined.

Lemma next_month_is_thirty_days_later_witness :
  exists target,
    fst (extract_date_from_natural_language failing_parser wednesday
           "sometime next month" [])
    = rendering target
    /\ Dt.ordinal target = Dt.ordinal wednesday + 30.
Proof.
  apply (next_month_is_thirty_days_later failing_parser wednesday
           "sometime next month" []).
  - vm_compute. reflexivity.
  - vm_compute. reflexivity.
  - vm_compute. discriminate.
  - vm_compute. discriminate.
Defined.

Lemma resolver_ignores_case_and_padding_witness :
  fst (resolve_target failing_parser wednesday "  TOMORROW " [])
  = fst (resolve_target failing_parser wednesday "tomorrow" [])
  \/ (resolve_target failing_parser wednesday "  TOMORROW " []
      = (failing_parser "  TOMORROW ", [] ++ [EvNow; EvParserParse "  TOMORROW "])
      /\ resolve_target failing_parser wednesday "tomorrow" []
         = (failing_parser "tomorrow", [] ++ [EvNow; EvParserParse "tomorrow"])).
Proof.
  apply (resolver_ignores_case_and_padding failing_parser wednesday
           "  TOMORROW " "tomorrow" []).
  vm_compute. reflexivity.
Defined.


Example in_ten_days_on_a_wednesday :
  fst (extract_date_from_natural_language failing_parser wednesday "in 10 days" [])
  = Valid "2024-01-13" (Some "January 13, 2024").
Proof. vm_compute. reflexivity. Qed.

Example in_too_many_days :
  is_valid (fst (extract_date_from_natural_language failing_parser wednesday
                   "in 99999999999 days" []))
  = false.
Proof. vm_compute. reflexivity. Qed.

Lemma keyword_search_returns_matching_lines_witness :
  let answer :=
    fst (query_documents failing_service "Business hours?"
           (lines ["Business Hours: 9 AM - 6 PM"; "Contact: support@company.com"])
           []) in
  answer = "No relevant information found in the documents for your query."
  \/ exists ls,
       answer = Py.join Py.nl ls
       /\ ls <> []
       /\ (length ls <= 5)%nat
       /\ sublist ls
            (Py.split_on (ascii_of_N 10)
               (lines ["Business Hours: 9 AM - 6 PM"; "Contact: support@company.com"]))
       /\ Forall (line_matches "Business hours?") ls.
Proof.
  apply (keyword_search_returns_matching_lines failing_service "Business hours?"
           (lines ["Business Hours: 9 AM - 6 PM"; "Contact: support@company.com"])
           [] "connection refused").
  - vm_compute. discriminate.
  - reflexivity.
Defined.

Lemma wordless_query_finds_nothing_witness :
  fst (query_documents failing_service "   " "Business Hours: 9 AM - 6 PM" [])
  = "No relevant information found in the documents for your query.".
Proof.
  apply (wordless_query_finds_nothing failing_service "   "
           "Business Hours: 9 AM - 6 PM" [] "connection refused").
  - discriminate.
  - vm_compute. reflexivity.
  - reflexivity.
Defined.

(** One day and one hour after the last access the session is still kept. *)
Lemma session_idle_for_whole_days_is_kept_witness :
  fst (cleanup_old_sessions (clock_at 90000000000) one_session_store []) !! "s1"
  = Some {| session_data := booking_session_data;
            created_at := 0; last_accessed := 0 |}.
Proof.
  apply (session_idle_for_whole_days_is_kept (clock_at 90000000000)
           one_session_store [] "s1" _ 1 3600000000).
  - vm_compute. reflexivity.
  - vm_compute. reflexivity.
  - lia.
Defined.

(** Two hours after the last access it is removed. *)
Example session_idle_for_two_hours_is_removed :
  fst (cleanup_old_sessions (clock_at 7200000000) one_session_store []) !! "s1" = None.
Proof. vm_compute. reflexivity. Qed.

Lemma chat_continues_a_live_session_witness :
  exists resp sessions' s',
    fst (chat (replying "appointment_booking") accepting_checker failing_parser
           monday (clock_at 1000000) numbered_uuid plain_repr "KeyError"
           {| message := "my phone is 555-123-4567";
              request_session_id := Some "s1" |}
           one_session_store [])
    = (Ok resp, sessions')
    /\ chat_session_id resp = "s1"
    /\ sessions' !! "s1" = Some s'
    /\ created_at s' = 0
    /\ session_documents_content (session_data s') = ""
    /\ session_conversation_history (session_data s')
       = session_conversation_history booking_session_data
         ++ [("my phone is 555-123-4567", chat_response resp)]
    /\ (forall k v,
           recorded name_only k v ->
           recorded (session_appointment_data (session_data s')) k v).
Proof.
  apply (chat_continues_a_live_session (replying "appointment_booking")
           accepting_checker failing_parser monday (clock_at 1000000)
           numbered_uuid plain_repr "KeyError"
           {| message := "my phone is 555-123-4567";
              request_session_id := Some "s1" |}
           one_session_store [] "s1"
           {| session_data := booking_session_data;
              created_at := 0; last_accessed := 0 |}).
  - reflexivity.
  - discriminate.
  - vm_compute. reflexivity.
  - vm_compute. discriminate.
Defined.

Lemma chat_after_expiry_starts_over_witness :
  exists resp sessions' s',
    fst (chat (replying "appointment_booking") accepting_checker failing_parser
           monday (clock_at 7200000000) numbered_uuid plain_repr "KeyError"
           {| message := "my phone is 555-123-4567";
              request_session_id := Some "s1" |}
           one_session_store [])
    = (Ok resp, sessions')
    /\ chat_session_id resp = numbered_uuid ([] ++ [EvNow])
    /\ sessions' !! chat_session_id resp = Some s'
    /\ session_conversation_history (session_data s')
       = [("my phone is 555-123-4567", chat_response resp)]
    /\ session_documents_content (session_data s') = ""
    /\ (numbered_uuid ([] ++ [EvNow]) <> "s1" -> sessions' !! "s1" = None).
Proof.
  apply (chat_after_expiry_starts_over (replying "appointment_booking")
           accepting_checker failing_parser monday (clock_at 7200000000)
           numbered_uuid plain_repr "KeyError"
           {| message := "my phone is 555-123-4567";
              request_session_id := Some "s1" |}
           one_session_store [] "s1"
           {| session_data := booking_session_data;
              created_at := 0; last_accessed := 0 |}).
  - reflexivity.
  - vm_compute. reflexivity.
  - vm_compute. reflexivity.
Defined.

Lemma upload_replaces_the_documents_witness :
  exists sid resp sessions' s',
    Some "s1" = Some sid
    /\ fst (upload_document (clock_at 1000000) numbered_uuid "prices.txt"
              (Some "Price: Starting from $2000") (Some "s1") one_session_store [])
       = (Ok resp, sessions')
    /\ upload_session_id resp = sid
    /\ sessions' !! sid = Some s'
    /\ session_documents_content (session_data s') = "Price: Starting from $2000"
    /\ session_appointment_data (session_data s') = name_only
    /\ session_conversation_history (session_data s')
       = session_conversation_history booking_session_data
    /\ created_at s' = 0.
Proof.
  apply (upload_replaces_the_documents (clock_at 1000000) numbered_uuid "prices.txt"
           "Price: Starting from $2000" (Some "s1") one_session_store []
           {| session_data := booking_session_data;
              created_at := 0; last_accessed := 0 |}).
  vm_compute. reflexivity.
Defined.

Lemma rejected_upload_leaves_a_session_witness :
  fst (upload_document (clock_at 1000000) numbered_uuid "photo.png" None None
         one_session_store [])
  = (HTTPException 400 "File must be a text file (UTF-8 encoded)",
     <[numbered_uuid [] := created_session (clock_at 1000000) []]> one_session_store).
Proof.
  apply (rejected_upload_leaves_a_session (clock_at 1000000) numbered_uuid
           "photo.png" None one_session_store []).
  reflexivity.
Defined.


Lemma complete_record_is_terminal_witness :
  exists s',
    fst (converse (replying "appointment_booking") accepting_checker failing_parser
           monday ["Book again for Jane Roe, 555-000-1111"; "next Friday"]
           {| session_appointment_data := full_record;
              session_conversation_history := [];
              session_documents_content := "" |} [])
    = Some s'
    /\ session_appointment_data s' = full_record.
Proof.
  apply (complete_record_is_terminal (replying "appointment_booking")
           accepting_checker failing_parser monday
           ["Book again for Jane Roe, 555-000-1111"; "next Friday"]
           {| session_appointment_data := full_record;
              session_conversation_history := [];
              session_documents_content := "" |} []).
  vm_compute. reflexivity.
Defined.
